(** * Traffic collector: a shallow embedding of [collect_traffic_github.py]

    The script fetches two JSON documents from a traffic provider,
    flattens each into a table of records, stamps every row with the
    instant of the run and appends the tables to a SQLite file.

    The embedding keeps Python's dynamic typing: a decoded JSON document
    is a [pyval], every operation that Python may refuse ([in], [x[k]],
    [x.get], iteration) returns in the exception monad [exc], and the
    functions of the script are written in the order of their source
    lines.  What the script reaches through libraries is part of the
    model: the answers of the provider and the clock are an
    [environment]; the database files, the printed lines and the open
    connections are the [world] that [io] computations thread; a
    [DataFrame] is a list of labelled rows, and a SQLite table takes the
    rows of a frame by column name.  [repr] of floats and of strings
    belongs to the interpreter and is a parameter. *)

From Stdlib Require Import List String Ascii ZArith Lia Bool.
From Stdlib Require Import DecimalString DecimalZ.
From Corelib Require Import PrimFloat.
Import ListNotations.

Local Open Scope string_scope.
Local Open Scope list_scope.

Infix "+++" := String.append (right associativity, at level 60).

(** ** Exceptions

    The classes the model tells apart; [sqlite3_Error] stands for
    [sqlite3.Error] and its subclasses. *)

Inductive exn : Type :=
| TypeError
| AttributeError
| KeyError
| ConnectionError
| JSONDecodeError
| sqlite3_Error
| OverflowError.

Inductive exc (A : Type) : Type :=
| Ret (a : A)
| Raise (e : exn).

Arguments Ret {A} a.
Arguments Raise {A} e.

Definition exc_bind {A B} (c : exc A) (k : A -> exc B) : exc B :=
  match c with
  | Ret a => k a
  | Raise e => Raise e
  end.

Notation "x <- c ;; k" := (exc_bind c (fun x => k))
  (at level 61, c at next level, right associativity).

(** ** Python values

    What [response.json()] hands to the script: [None], booleans,
    integers, binary64 floats, strings, lists and dicts.  A dict keeps
    its insertion order, so it is an association list read at its first
    binding.  Strings are sequences of characters; iterating one yields
    its one-character strings. *)

#[warnings="-register-all"]
Inductive pyval : Type :=
| PyNone
| PyBool (b : bool)
| PyInt (z : Z)
| PyFloat (f : float)
| PyStr (s : string)
| PyList (l : list pyval)
| PyDict (d : list (string * pyval)).

Definition dict : Type := list (string * pyval).

Fixpoint dict_lookup {V : Type} (k : string) (d : list (string * V)) : option V :=
  match d with
  | [] => None
  | (k', v) :: d' => if String.eqb k k' then Some v else dict_lookup k d'
  end.

Definition dict_mem {V : Type} (k : string) (d : list (string * V)) : bool :=
  match dict_lookup k d with
  | Some _ => true
  | None => false
  end.

(** [d[k] = v]: overwrite in place, or add the key at the end. *)
Fixpoint dict_set {V : Type} (k : string) (v : V) (d : list (string * V))
  : list (string * V) :=
  match d with
  | [] => [(k, v)]
  | (k', v') :: d' =>
      if String.eqb k k' then (k', v) :: d' else (k', v') :: dict_set k v d'
  end.

(** [needle in hay] on strings. *)
Fixpoint str_contains (needle hay : string) : bool :=
  String.prefix needle hay
  || match hay with
     | EmptyString => false
     | String _ hay' => str_contains needle hay'
     end.

Fixpoint str_chars (s : string) : list pyval :=
  match s with
  | EmptyString => []
  | String c s' => PyStr (String c EmptyString) :: str_chars s'
  end.

(** [bool(v)]. *)
Definition py_truthy (v : pyval) : bool :=
  match v with
  | PyNone => false
  | PyBool b => b
  | PyInt z => negb (Z.eqb z 0)
  | PyFloat f => negb (PrimFloat.eqb f 0%float)
  | PyStr s => negb (String.eqb s "")
  | PyList l => match l with [] => false | _ => true end
  | PyDict d => match d with [] => false | _ => true end
  end.

(** [k == v] for a string [k]. *)
Definition py_eq_str (k : string) (v : pyval) : bool :=
  match v with
  | PyStr s => String.eqb k s
  | _ => false
  end.

(** [k in v] for a string [k]: key of a dict, element of a list,
    substring of a string; anything else is not a container. *)
Definition py_contains (k : string) (v : pyval) : exc bool :=
  match v with
  | PyDict d => Ret (dict_mem k d)
  | PyList l => Ret (existsb (py_eq_str k) l)
  | PyStr s => Ret (str_contains k s)
  | _ => Raise TypeError
  end.

(** [v[k]] for a string [k]. *)
Definition py_getitem (v : pyval) (k : string) : exc pyval :=
  match v with
  | PyDict d =>
      match dict_lookup k d with
      | Some x => Ret x
      | None => Raise KeyError
      end
  | _ => Raise TypeError
  end.

(** [v.get(k, default)]: only dicts have the method. *)
Definition py_get (v : pyval) (k : string) (default : pyval) : exc pyval :=
  match v with
  | PyDict d =>
      match dict_lookup k d with
      | Some x => Ret x
      | None => Ret default
      end
  | _ => Raise AttributeError
  end.

(** The elements a [for] loop over [v] visits. *)
Definition py_iter (v : pyval) : exc (list pyval) :=
  match v with
  | PyList l => Ret l
  | PyDict d => Ret (map (fun kv => PyStr (fst kv)) d)
  | PyStr s => Ret (str_chars s)
  | _ => Raise TypeError
  end.

(** ** Tables

    A [DataFrame] is a list of column labels and a list of rows, each row
    holding one cell per column.  A cell is a Python value, an instant, a
    calendar date, or the missing value NaN. *)

Record date : Type := mk_date {
  d_year : Z;
  d_month : Z;
  d_day : Z
}.

Record datetime : Type := mk_datetime {
  year : Z;
  month : Z;
  day : Z;
  hour : Z;
  minute : Z;
  second : Z;
  microsecond : Z
}.

Inductive cell : Type :=
| CVal (v : pyval)
| CTimestamp (t : datetime)
| CDate (d : date)
| CNaN.

Record DataFrame : Type := mk_df {
  df_columns : list string;
  df_rows : list (list cell)
}.

Definition str_mem (k : string) (l : list string) : bool :=
  existsb (String.eqb k) l.

(** Labels of the records, each at its first appearance. *)
Definition add_label (cols : list string) (k : string) : list string :=
  if str_mem k cols then cols else cols ++ [k].

Definition union_keys (records : list dict) : list string :=
  fold_left (fun cols r => fold_left add_label (map fst r) cols) records [].

Definition cell_of (r : dict) (c : string) : cell :=
  match dict_lookup c r with
  | Some v => CVal v
  | None => CNaN
  end.

Definition row_of_record (cols : list string) (r : dict) : list cell :=
  map (cell_of r) cols.

(** [pd.DataFrame(records)] for a list of dicts. *)
Definition pd_DataFrame (records : list dict) : DataFrame :=
  let cols := union_keys records in
  {| df_columns := cols; df_rows := map (row_of_record cols) records |}.

(** [len(df)]. *)
Definition len (df : DataFrame) : nat := List.length (df_rows df).

Fixpoint index_of (c : string) (cols : list string) : option nat :=
  match cols with
  | [] => None
  | c' :: cols' =>
      if String.eqb c c' then Some 0%nat
      else option_map S (index_of c cols')
  end.

(** The cell of [row] under the label [c]. *)
Definition df_cell (df : DataFrame) (row : list cell) (c : string) : option cell :=
  match index_of c (df_columns df) with
  | Some i => nth_error row i
  | None => None
  end.

Fixpoint set_nth {A : Type} (i : nat) (x : A) (l : list A) : list A :=
  match l, i with
  | [], _ => []
  | _ :: l', O => x :: l'
  | y :: l', S i' => y :: set_nth i' x l'
  end.

(** [df[c] = x] for a scalar [x]: every row gets [x] under [c]. *)
Definition set_column (df : DataFrame) (c : string) (x : cell) : DataFrame :=
  match index_of c (df_columns df) with
  | Some i =>
      {| df_columns := df_columns df;
         df_rows := map (set_nth i x) (df_rows df) |}
  | None =>
      {| df_columns := df_columns df ++ [c];
         df_rows := map (fun row => row ++ [x]) (df_rows df) |}
  end.

(** ** Printing

    [repr] of an integer is its decimal numeral.  [repr] of a float
    (shortest digits that read back as the same binary64) and of a
    string (quoting and escapes) are the interpreter's; they are taken
    as [float_repr] and [str_repr]. *)

Definition int_repr (z : Z) : string := NilZero.string_of_int (Z.to_int z).

Section Collector.

Variable float_repr : float -> string.
Variable str_repr : string -> string.

Fixpoint py_repr (v : pyval) : string :=
  match v with
  | PyNone => "None"
  | PyBool true => "True"
  | PyBool false => "False"
  | PyInt z => int_repr z
  | PyFloat f => float_repr f
  | PyStr s => str_repr s
  | PyList l => "[" +++ String.concat ", " (map py_repr l) +++ "]"
  | PyDict d =>
      "{" +++ String.concat ", "
                (map (fun kv : string * pyval => let (k, x) := kv in
                                str_repr k +++ ": " +++ py_repr x) d)
          +++ "}"
  end.

(** [repr] of the tuple [(lng, lat)]. *)
Definition pair_repr (p : pyval * pyval) : string :=
  "(" +++ py_repr (fst p) +++ ", " +++ py_repr (snd p) +++ ")".

(** [str(coords)] for a list of pairs. *)
Definition py_str_coords (coords : list (pyval * pyval)) : string :=
  "[" +++ String.concat ", " (map pair_repr coords) +++ "]".

(** ** Record normalizer *)

(** Lines 74-77 and 104-107: the points of one link. *)
Fixpoint for_point (points : list pyval) (coords : list (pyval * pyval))
  : exc (list (pyval * pyval)) :=
  match points with
  | [] => Ret coords
  | point :: points' =>
      lng <- py_get point "lng" PyNone ;;
      lat <- py_get point "lat" PyNone ;;
      for_point points' (coords ++ [(lng, lat)])
  end.

(** Lines 74-77 and 104-107: the links of one shape. *)
Fixpoint for_link (links : list pyval) (coords : list (pyval * pyval))
  : exc (list (pyval * pyval)) :=
  match links with
  | [] => Ret coords
  | link :: links' =>
      has_points <- py_contains "points" link ;;
      coords' <- (if has_points : bool then
                    points <- py_getitem link "points" ;;
                    it <- py_iter points ;;
                    for_point it coords
                  else Ret coords) ;;
      for_link links' coords'
  end.

(** Lines 72-78 and 102-108, the same text in both normalizers. *)
Definition store_geometry (location : pyval) (record : dict) : exc dict :=
  has_shape <- py_contains "shape" location ;;
  has_links <- (if has_shape : bool then
                  shape <- py_getitem location "shape" ;;
                  py_contains "links" shape
                else Ret false) ;;
  if has_links : bool then
    shape <- py_getitem location "shape" ;;
    links <- py_getitem shape "links" ;;
    it <- py_iter links ;;
    coords <- for_link it [] ;;
    Ret (dict_set "geometry" (PyStr (py_str_coords coords)) record)
  else Ret record.

(** Lines 58-80: the body of the flow loop. *)
Definition flow_record (result : pyval) : exc dict :=
  location <- py_get result "location" (PyDict []) ;;
  current_flow <- py_get result "currentFlow" (PyDict []) ;;
  location_description <- py_get location "description" (PyStr "") ;;
  speed <- py_get current_flow "speed" PyNone ;;
  speed_limit <- py_get current_flow "speedLimit" PyNone ;;
  jam_factor <- py_get current_flow "jamFactor" PyNone ;;
  confidence <- py_get current_flow "confidence" PyNone ;;
  free_flow_speed <- py_get current_flow "freeFlowSpeed" PyNone ;;
  traversability <- py_get current_flow "traversability" (PyStr "") ;;
  store_geometry location
    [ ("location_description", location_description);
      ("speed", speed);
      ("speed_limit", speed_limit);
      ("jam_factor", jam_factor);
      ("confidence", confidence);
      ("free_flow_speed", free_flow_speed);
      ("traversability", traversability) ].

(** Lines 91-110: the body of the incidents loop. *)
Definition incident_record (incident : pyval) : exc dict :=
  location <- py_get incident "location" (PyDict []) ;;
  incident_details <- py_get incident "incidentDetails" (PyDict []) ;;
  incident_id <- py_get incident "incidentId" (PyStr "") ;;
  type <- py_get incident_details "type" (PyStr "") ;;
  description <- py_get incident_details "description" (PyDict []) ;;
  description_value <- py_get description "value" (PyStr "") ;;
  criticality <- py_get incident_details "criticality" (PyStr "") ;;
  start_time <- py_get incident_details "startTime" (PyStr "") ;;
  store_geometry location
    [ ("incident_id", incident_id);
      ("type", type);
      ("description", description_value);
      ("criticality", criticality);
      ("start_time", start_time) ].

(** A [for] loop that appends one record per element. *)
Fixpoint for_each (body : pyval -> exc dict) (elements : list pyval)
  (records : list dict) : exc (list dict) :=
  match elements with
  | [] => Ret records
  | element :: elements' =>
      record <- body element ;;
      for_each body elements' (records ++ [record])
  end.

(** Lines 53 and 86: [not data or 'results' not in data]. *)
Definition no_results (data : pyval) : exc bool :=
  if negb (py_truthy data) then Ret true
  else found <- py_contains "results" data ;; Ret (negb found).

Definition parse_with (body : pyval -> exc dict) (data : pyval)
  : exc (option DataFrame) :=
  absent <- no_results data ;;
  if absent : bool then Ret None
  else
    results <- py_getitem data "results" ;;
    it <- py_iter results ;;
    records <- for_each body it [] ;;
    Ret (Some (pd_DataFrame records)).

Definition parse_traffic_flow_to_dataframe (traffic_data : pyval)
  : exc (option DataFrame) :=
  parse_with flow_record traffic_data.

Definition parse_incidents_to_dataframe (incidents_data : pyval)
  : exc (option DataFrame) :=
  parse_with incident_record incidents_data.

(** ** Calendar

    [datetime.weekday()] goes through the proleptic Gregorian ordinal of
    the date; [strftime('%A')] names that weekday in the default locale. *)

Definition date_of (t : datetime) : date :=
  {| d_year := year t; d_month := month t; d_day := day t |}.

Definition is_leap (y : Z) : bool :=
  (y mod 4 =? 0)%Z && (negb (y mod 100 =? 0)%Z || (y mod 400 =? 0)%Z).

Definition days_before_year (y : Z) : Z :=
  let p := (y - 1)%Z in (p * 365 + p / 4 - p / 100 + p / 400)%Z.

Definition DAYS_BEFORE_MONTH : list Z :=
  [-1; 0; 31; 59; 90; 120; 151; 181; 212; 243; 273; 304; 334]%Z.

Definition days_before_month (y m : Z) : Z :=
  (nth (Z.to_nat m) DAYS_BEFORE_MONTH 0
   + (if (2 <? m)%Z && is_leap y then 1 else 0))%Z.

Definition toordinal (t : datetime) : Z :=
  (days_before_year (year t) + days_before_month (year t) (month t) + day t)%Z.

(** Monday is 0. *)
Definition weekday (t : datetime) : Z := ((toordinal t + 6) mod 7)%Z.

Definition DAY_NAMES : list string :=
  ["Monday"; "Tuesday"; "Wednesday"; "Thursday"; "Friday"; "Saturday"; "Sunday"].

(** [t.strftime('%A')]. *)
Definition strftime_A (t : datetime) : string :=
  nth (Z.to_nat (weekday t)) DAY_NAMES "".

Fixpoint str_repeat (n : nat) (s : string) : string :=
  match n with
  | O => ""
  | S n' => s +++ str_repeat n' s
  end.

(** A non-negative field printed on at least [width] digits. *)
Definition zero_pad (width : nat) (z : Z) : string :=
  let s := int_repr z in
  str_repeat (width - String.length s) "0" +++ s.

(** [t.strftime('%Y-%m-%d %H:%M:%S')]. *)
Definition strftime_Ymd_HMS (t : datetime) : string :=
  zero_pad 4 (year t) +++ "-" +++ zero_pad 2 (month t) +++ "-"
  +++ zero_pad 2 (day t) +++ " " +++ zero_pad 2 (hour t) +++ ":"
  +++ zero_pad 2 (minute t) +++ ":" +++ zero_pad 2 (second t).

(** [str(t)]: the microseconds are printed when they are not zero. *)
Definition datetime_str (t : datetime) : string :=
  strftime_Ymd_HMS t
  +++ (if (microsecond t =? 0)%Z then ""
       else "." +++ zero_pad 6 (microsecond t)).

(** ** The world of one run

    The files of SQLite databases, the lines printed so far, the number of
    clock readings taken and the number of open connections.  A database
    is the association list of its tables. *)

Record table : Type := mk_table {
  t_columns : list string;
  t_rows : list (list cell)
}.

Definition database : Type := list (string * table).

Record world : Type := mk_world {
  files : list (string * database);
  stdout : list string;
  ticks : nat;
  connections : nat
}.

(** A file that does not exist yet opens as an empty database. *)
Definition open_db (w : world) (db_name : string) : database :=
  match dict_lookup db_name (files w) with
  | Some db => db
  | None => []
  end.

Definition write_db (w : world) (db_name : string) (db : database) : world :=
  {| files := dict_set db_name db (files w);
     stdout := stdout w;
     ticks := ticks w;
     connections := connections w |}.

(** Opening a file that does not exist creates it, with no table in it. *)
Definition touch_db (w : world) (db_name : string) : world :=
  if dict_mem db_name (files w) then w else write_db w db_name [].

(** What the provider answers: [requests.get] raises when no response
    arrives; a response carries its status and the value its body
    decodes to, if it is JSON. *)
Record response : Type := mk_response {
  status_code : Z;
  json_body : option pyval
}.

Record environment : Type := mk_env {
  env_http : string -> dict -> exc response;
  env_clock : nat -> datetime
}.

(** Computations that read and change the world and may raise. *)
Definition io (A : Type) : Type := world -> exc A * world.

Definition io_ret {A} (a : A) : io A := fun w => (Ret a, w).

Definition io_bind {A B} (c : io A) (k : A -> io B) : io B :=
  fun w =>
    match c w with
    | (Ret a, w') => k a w'
    | (Raise e, w') => (Raise e, w')
    end.

Definition io_raise {A} (e : exn) : io A := fun w => (Raise e, w).

Definition io_lift {A} (c : exc A) : io A := fun w => (c, w).

(** [try: body finally: cleanup]. *)
Definition io_finally {A} (body : io A) (cleanup : io unit) : io A :=
  fun w =>
    match body w with
    | (r, w') =>
        match cleanup w' with
        | (Ret _, w'') => (r, w'')
        | (Raise e, w'') => (Raise e, w'')
        end
    end.

Notation "x <~ c ;; k" := (io_bind c (fun x => k))
  (at level 61, c at next level, right associativity).
Notation "c ;;; k" := (io_bind c (fun _ => k))
  (at level 61, right associativity).

Definition print (line : string) : io unit :=
  fun w =>
    (Ret tt,
     {| files := files w;
        stdout := stdout w ++ [line];
        ticks := ticks w;
        connections := connections w |}).

Definition nl : string := String (ascii_of_nat 10) EmptyString.

(** ** API client *)

Variable env : environment.

Definition TRAFFIC_FLOW_URL : string := "https://data.traffic.hereapi.com/v7/flow".
Definition TRAFFIC_INCIDENTS_URL : string :=
  "https://data.traffic.hereapi.com/v7/incidents".
#[warnings="-inexact-float"]
Definition BBOX : float * float * float * float :=
  (101.67, 3.13, 101.70, 3.16)%float.
Definition LOCATION_NAME : string := "Kuala_Lumpur".
Definition DB_NAME : string := "traffic_historical.db".

(** [os.environ.get('HERE_API_KEY')]: a string, or [None] when unset. *)
Variable HERE_API_KEY : pyval.

Definition requests_get (url : string) (params : dict) : io response :=
  io_lift (env_http env url params).

(** [response.json()]. *)
Definition response_json (r : response) : io pyval :=
  match json_body r with
  | Some v => io_ret v
  | None => io_raise JSONDecodeError
  end.

Definition query_params (bbox : float * float * float * float)
  (api_key : pyval) : dict :=
  let '(west, south, east, north) := bbox in
  [ ("apiKey", api_key);
    ("in", PyStr ("bbox:" +++ float_repr west +++ "," +++ float_repr south
                  +++ "," +++ float_repr east +++ "," +++ float_repr north));
    ("locationReferencing", PyStr "shape") ].

Definition fetch_traffic_flow (bbox : float * float * float * float)
  (api_key : pyval) : io pyval :=
  let params := query_params bbox api_key in
  print "Fetching traffic flow data..." ;;;
  response <~ requests_get TRAFFIC_FLOW_URL params ;;
  if (status_code response =? 200)%Z then response_json response
  else
    print ("Error: " +++ int_repr (status_code response)) ;;;
    io_ret PyNone.

Definition fetch_traffic_incidents (bbox : float * float * float * float)
  (api_key : pyval) : io pyval :=
  let params := query_params bbox api_key in
  print "Fetching traffic incidents..." ;;;
  response <~ requests_get TRAFFIC_INCIDENTS_URL params ;;
  if (status_code response =? 200)%Z then response_json response
  else io_ret PyNone.

(** ** Historical store writer *)

Inductive if_exists_mode : Type :=
| replace
| append.

(** What SQLite refuses to bind: a list or a dict (an error of
    [sqlite3]), and an integer that does not fit in 64 bits. *)
Definition bind_error (c : cell) : option exn :=
  match c with
  | CVal (PyList _) => Some sqlite3_Error
  | CVal (PyDict _) => Some sqlite3_Error
  | CVal (PyInt z) =>
      if ((- 2 ^ 63 <=? z) && (z <? 2 ^ 63))%Z then None
      else Some OverflowError
  | _ => None
  end.

Fixpoint first_error (cells : list cell) : option exn :=
  match cells with
  | [] => None
  | c :: cells' =>
      match bind_error c with
      | Some e => Some e
      | None => first_error cells'
      end
  end.

(** The stored row: one cell per column of the table, NULL (kept as
    [CNaN]) under a column the frame does not have. *)
Definition stored_row (tcols dcols : list string) (row : list cell) : list cell :=
  map (fun c => match index_of c dcols with
                | Some i => nth i row CNaN
                | None => CNaN
                end) tcols.

(** [INSERT INTO t (columns of df) VALUES ...] for every row, in one
    transaction: all rows are stored, or none.  A column of the frame
    that the table does not have is an error of [sqlite3]. *)
Definition insert_rows (t : table) (df : DataFrame) : exc table :=
  if forallb (fun c => str_mem c (t_columns t)) (df_columns df) then
    match first_error (List.concat (df_rows df)) with
    | Some e => Raise e
    | None =>
        Ret {| t_columns := t_columns t;
               t_rows := t_rows t
                         ++ map (stored_row (t_columns t) (df_columns df))
                                (df_rows df) |}
    end
  else Raise sqlite3_Error.

(** [df.to_sql(name, conn, if_exists=mode, index=False)]: the table is
    created (and committed) when it is missing or replaced, then the rows
    are inserted. *)
Definition to_sql (df : DataFrame) (name db_name : string)
  (mode : if_exists_mode) : io unit :=
  fun w =>
    let db := open_db w db_name in
    let t0 := match mode, dict_lookup name db with
              | append, Some t => t
              | _, _ => {| t_columns := df_columns df; t_rows := [] |}
              end in
    match insert_rows t0 df with
    | Ret t1 => (Ret tt, write_db w db_name (dict_set name t1 db))
    | Raise e => (Raise e, write_db w db_name (dict_set name t0 db))
    end.

(** [SELECT name FROM sqlite_master WHERE type='table' AND name=...]
    followed by [fetchone() is not None]. *)
Definition table_exists (name db_name : string) : io bool :=
  fun w => (Ret (dict_mem name (open_db w db_name)), w).

(** [sqlite3.connect(db_name)]: the file is opened, and created when it
    does not exist. *)
Definition sqlite3_connect (db_name : string) : io unit :=
  fun w =>
    (Ret tt,
     {| files := files (touch_db w db_name);
        stdout := stdout w; ticks := ticks w;
        connections := S (connections w) |}).

Definition conn_close : io unit :=
  fun w =>
    (Ret tt,
     {| files := files w; stdout := stdout w; ticks := ticks w;
        connections := pred (connections w) |}).

Definition check_mark : string := "✓".

(** Lines 119-126 and 128-135. *)
Definition save_table (df : option DataFrame) (name kind db_name : string)
  : io unit :=
  match df with
  | Some df =>
      if (0 <? len df)%nat then
        exists_ <~ table_exists name db_name ;;
        let if_exists := if negb exists_ then replace else append in
        to_sql df name db_name if_exists ;;;
        print (check_mark +++ " Saved " +++ int_repr (Z.of_nat (len df))
               +++ " " +++ kind +++ " records")
      else io_ret tt
  | None => io_ret tt
  end.

Definition save_to_sqlite (flow_df incidents_df : option DataFrame)
  (db_name : string) : io unit :=
  sqlite3_connect db_name ;;;
  io_finally
    (save_table flow_df "traffic_flow" "flow" db_name ;;;
     save_table incidents_df "traffic_incidents" "incident" db_name)
    conn_close.

(** ** Run driver *)

Definition datetime_now : io datetime :=
  fun w =>
    (Ret (env_clock env (ticks w)),
     {| files := files w; stdout := stdout w; ticks := S (ticks w);
        connections := connections w |}).

(** Lines 158-161 and 165-168. *)
Definition add_timestamps (df : DataFrame) (timestamp : datetime) : DataFrame :=
  let df := set_column df "timestamp" (CTimestamp timestamp) in
  let df := set_column df "hour" (CVal (PyInt (hour timestamp))) in
  let df := set_column df "day_of_week" (CVal (PyStr (strftime_A timestamp))) in
  set_column df "date" (CDate (date_of timestamp)).

(** Lines 142-169: what [main] hands to [save_to_sqlite]. *)
Definition collect : io (option DataFrame * option DataFrame) :=
  timestamp <~ datetime_now ;;
  print (nl +++ str_repeat 60 "=") ;;;
  print ("Collecting data at: " +++ strftime_Ymd_HMS timestamp) ;;;
  print (str_repeat 60 "=" +++ nl) ;;;
  flow_data <~ fetch_traffic_flow BBOX HERE_API_KEY ;;
  incidents_data <~ fetch_traffic_incidents BBOX HERE_API_KEY ;;
  flow_df <~ io_lift (parse_traffic_flow_to_dataframe flow_data) ;;
  incidents_df <~ io_lift (parse_incidents_to_dataframe incidents_data) ;;
  flow_df <~ match flow_df with
             | Some df =>
                 let df := add_timestamps df timestamp in
                 print (check_mark +++ " Collected "
                        +++ int_repr (Z.of_nat (len df)) +++ " flow records") ;;;
                 io_ret (Some df)
             | None => io_ret None
             end ;;
  incidents_df <~ match incidents_df with
                  | Some df =>
                      if (0 <? len df)%nat then
                        let df := add_timestamps df timestamp in
                        print (check_mark +++ " Collected "
                               +++ int_repr (Z.of_nat (len df))
                               +++ " incident records") ;;;
                        io_ret (Some df)
                      else io_ret (Some df)
                  | None => io_ret None
                  end ;;
  io_ret (flow_df, incidents_df).

Definition main : io unit :=
  batches <~ collect ;;
  save_to_sqlite (fst batches) (snd batches) DB_NAME ;;;
  finished <~ datetime_now ;;
  print (nl +++ check_mark +++ " Completed at " +++ datetime_str finished).

(** * Vocabulary of the properties *)

(** ** The provider's shape

    An entity is a dict; every key is optional; where the script walks into
    a value ([location], [currentFlow], [incidentDetails], [description],
    [shape], a link, a point) that value is a dict, and [links] and
    [points] are lists.  The leaves are arbitrary. *)

Definition is_dict (v : pyval) : bool :=
  match v with
  | PyDict _ => true
  | _ => false
  end.

Definition dict_with (p : dict -> bool) (v : pyval) : bool :=
  match v with
  | PyDict d => p d
  | _ => false
  end.

Definition list_of (p : pyval -> bool) (v : pyval) : bool :=
  match v with
  | PyList l => forallb p l
  | _ => false
  end.

Definition opt_field (k : string) (p : pyval -> bool) (d : dict) : bool :=
  match dict_lookup k d with
  | Some v => p v
  | None => true
  end.

Definition link_shape : pyval -> bool :=
  dict_with (opt_field "points" (list_of is_dict)).

Definition shape_shape : pyval -> bool :=
  dict_with (opt_field "links" (list_of link_shape)).

Definition location_shape : pyval -> bool :=
  dict_with (opt_field "shape" shape_shape).

Definition flow_entity : pyval -> bool :=
  dict_with (fun d => opt_field "location" location_shape d
                      && opt_field "currentFlow" is_dict d).

Definition incident_entity : pyval -> bool :=
  dict_with (fun d =>
    opt_field "location" location_shape d
    && opt_field "incidentDetails"
         (dict_with (opt_field "description" is_dict)) d).

(** The value under a path of keys, if every step is there. *)
Fixpoint nested (v : pyval) (path : list string) : option pyval :=
  match path with
  | [] => Some v
  | k :: path' =>
      match v with
      | PyDict d =>
          match dict_lookup k d with
          | Some x => nested x path'
          | None => None
          end
      | _ => None
      end
  end.

Definition nested_or (v : pyval) (path : list string) (default : pyval) : pyval :=
  match nested v path with
  | Some x => x
  | None => default
  end.

(** The fixed fields of a flow record: label, path in the entity, default. *)
Definition FLOW_FIELDS : list (string * (list string * pyval)) :=
  [ ("location_description", (["location"; "description"], PyStr ""));
    ("speed", (["currentFlow"; "speed"], PyNone));
    ("speed_limit", (["currentFlow"; "speedLimit"], PyNone));
    ("jam_factor", (["currentFlow"; "jamFactor"], PyNone));
    ("confidence", (["currentFlow"; "confidence"], PyNone));
    ("free_flow_speed", (["currentFlow"; "freeFlowSpeed"], PyNone));
    ("traversability", (["currentFlow"; "traversability"], PyStr "")) ].

Definition INCIDENT_FIELDS : list (string * (list string * pyval)) :=
  [ ("incident_id", (["incidentId"], PyStr ""));
    ("type", (["incidentDetails"; "type"], PyStr ""));
    ("description", (["incidentDetails"; "description"; "value"], PyStr ""));
    ("criticality", (["incidentDetails"; "criticality"], PyStr ""));
    ("start_time", (["incidentDetails"; "startTime"], PyStr "")) ].

Definition has_fields (fields : list (string * (list string * pyval)))
  (entity : pyval) (record : dict) : Prop :=
  Forall (fun f => dict_lookup (fst f) record
                   = Some (nested_or entity (fst (snd f)) (snd (snd f))))
         fields.

(** The geometry the specification describes: the points of all links,
    in link order then point order, each as the pair (lng, lat). *)
Definition point_pair (point : pyval) : pyval * pyval :=
  (nested_or point ["lng"] PyNone, nested_or point ["lat"] PyNone).

Definition link_points (link : pyval) : list pyval :=
  match nested link ["points"] with
  | Some (PyList points) => points
  | _ => []
  end.

Definition flat_points (links : list pyval) : list pyval :=
  flat_map link_points links.

(** The links of an entity, when its location has a shape with links. *)
Definition entity_links (entity : pyval) : option (list pyval) :=
  match nested entity ["location"; "shape"; "links"] with
  | Some (PyList links) => Some links
  | _ => None
  end.

Definition with_geometry (location : pyval) (record : dict) : dict :=
  match nested location ["shape"; "links"] with
  | Some (PyList links) =>
      dict_set "geometry"
        (PyStr (py_str_coords (map point_pair (flat_points links)))) record
  | _ => record
  end.

(** ** One entity *)

Definition entity_location (entity : pyval) : pyval :=
  nested_or entity ["location"] (PyDict []).

Definition fixed_record (fields : list (string * (list string * pyval)))
  (entity : pyval) : dict :=
  map (fun f => (fst f, nested_or entity (fst (snd f)) (snd (snd f)))) fields.

(** The record the specification describes for an entity. *)
Definition record_of (fields : list (string * (list string * pyval)))
  (entity : pyval) : dict :=
  with_geometry (entity_location entity) (fixed_record fields entity).

(** ** Reading a geometry back

    The reader of the printed list of pairs: a scanner over the
    characters of the text, then one value per component.  [float_parse]
    reads a float literal, as [float_repr] prints it. *)

Variable float_parse : string -> option float.

Inductive scan : Type :=
| AtStart
| AfterOpen
| InFirst (pairs : list (string * string)) (cur : string)
| AfterComma (pairs : list (string * string)) (first : string)
| InSecond (pairs : list (string * string)) (first cur : string)
| AfterPair (pairs : list (string * string))
| AfterSeparator (pairs : list (string * string))
| BeforePair (pairs : list (string * string))
| AtEnd (pairs : list (string * string))
| Stuck.

Definition snoc (s : string) (c : ascii) : string := s +++ String c "".

Definition scan_step (st : scan) (c : ascii) : scan :=
  match st with
  | AtStart => if Ascii.eqb c "[" then AfterOpen else Stuck
  | AfterOpen =>
      if Ascii.eqb c "]" then AtEnd []
      else if Ascii.eqb c "(" then InFirst [] ""
      else Stuck
  | InFirst pairs cur =>
      if Ascii.eqb c "," then AfterComma pairs cur
      else InFirst pairs (snoc cur c)
  | AfterComma pairs first =>
      if Ascii.eqb c " " then InSecond pairs first "" else Stuck
  | InSecond pairs first cur =>
      if Ascii.eqb c ")" then AfterPair (pairs ++ [(first, cur)])
      else InSecond pairs first (snoc cur c)
  | AfterPair pairs =>
      if Ascii.eqb c "]" then AtEnd pairs
      else if Ascii.eqb c "," then AfterSeparator pairs
      else Stuck
  | AfterSeparator pairs =>
      if Ascii.eqb c " " then BeforePair pairs else Stuck
  | BeforePair pairs =>
      if Ascii.eqb c "(" then InFirst pairs "" else Stuck
  | AtEnd _ => Stuck
  | Stuck => Stuck
  end.

Fixpoint scan_string (st : scan) (s : string) : scan :=
  match s with
  | EmptyString => st
  | String c s' => scan_string (scan_step st c) s'
  end.

(** The value a component stands for. *)
Definition read_atom (a : string) : option pyval :=
  if String.eqb a "None" then Some PyNone
  else if String.eqb a "True" then Some (PyBool true)
  else if String.eqb a "False" then Some (PyBool false)
  else match NilZero.int_of_string a with
       | Some d => Some (PyInt (Z.of_int d))
       | None => option_map PyFloat (float_parse a)
       end.

Fixpoint read_pairs (pairs : list (string * string))
  : option (list (pyval * pyval)) :=
  match pairs with
  | [] => Some []
  | (a, b) :: pairs' =>
      match read_atom a, read_atom b, read_pairs pairs' with
      | Some x, Some y, Some rest => Some ((x, y) :: rest)
      | _, _, _ => None
      end
  end.

Definition reparse_geometry (text : string) : option (list (pyval * pyval)) :=
  match scan_string AtStart text with
  | AtEnd pairs => read_pairs pairs
  | _ => None
  end.

(** No comma and no closing parenthesis. *)
Fixpoint no_delimiter (s : string) : bool :=
  match s with
  | EmptyString => true
  | String c s' =>
      negb (Ascii.eqb c ",") && negb (Ascii.eqb c ")") && no_delimiter s'
  end.

(** What the reader needs of the printed form of a float: it has no
    delimiter, it is not another literal, and it reads back as the float. *)
Definition float_reads_back (f : float) : Prop :=
  no_delimiter (float_repr f) = true
  /\ read_atom (float_repr f) = Some (PyFloat f).

(** A component the reader knows: [None], a boolean or a number. *)
Definition coordinate (v : pyval) : Prop :=
  match v with
  | PyNone | PyBool _ | PyInt _ => True
  | PyFloat f => float_reads_back f
  | _ => False
  end.

Definition printed (p : pyval * pyval) : string * string :=
  (py_repr (fst p), py_repr (snd p)).

Definition printable (p : pyval * pyval) : Prop :=
  no_delimiter (py_repr (fst p)) = true
  /\ no_delimiter (py_repr (snd p)) = true.

(** The pairs after the first, each behind its separator. *)
Fixpoint more_pairs (coords : list (pyval * pyval)) : string :=
  match coords with
  | [] => ""
  | p :: coords' => ", " +++ pair_repr p +++ more_pairs coords'
  end.

(** ** Tables and column assignment *)

Definition df_wf (df : DataFrame) : Prop :=
  Forall (fun row => List.length row = List.length (df_columns df)) (df_rows df).

(** Every row of [df] holds [x] under the label [c]. *)
Definition column_is (c : string) (x : cell) (df : DataFrame) : Prop :=
  forall row, In row (df_rows df) -> df_cell df row c = Some x.

(** The four values every row of a stamped table carries. *)
Definition stamped (t : datetime) (df : DataFrame) : Prop :=
  column_is "timestamp" (CTimestamp t) df
  /\ column_is "hour" (CVal (PyInt (hour t))) df
  /\ column_is "day_of_week" (CVal (PyStr (strftime_A t))) df
  /\ column_is "date" (CDate (date_of t)) df.

(** The world after more lines were printed. *)
Definition printed_more (w : world) (lines : list string) : world :=
  {| files := files w;
     stdout := stdout w ++ lines;
     ticks := ticks w;
     connections := connections w |}.

(** What a fetch returns for a response. *)
Definition fetched (r : response) : exc pyval :=
  if (status_code r =? 200)%Z then
    match json_body r with
    | Some v => Ret v
    | None => Raise JSONDecodeError
    end
  else Ret PyNone.

(** ** One run *)

Definition stamp_flow (t : datetime) (batch : option DataFrame)
  : option DataFrame :=
  option_map (fun df => add_timestamps df t) batch.

Definition stamp_incidents (t : datetime) (batch : option DataFrame)
  : option DataFrame :=
  option_map (fun df => if (0 <? len df)%nat then add_timestamps df t else df)
             batch.

(** ** The store *)

(** SQLite can bind every cell of the table. *)
Definition storable (df : DataFrame) : bool :=
  match first_error (List.concat (df_rows df)) with
  | Some _ => false
  | None => true
  end.

(** Every column of the table to write is a column of the stored one. *)
Definition compatible (t : option table) (df : DataFrame) : bool :=
  match t with
  | Some t => forallb (fun c => str_mem c (t_columns t)) (df_columns df)
  | None => true
  end.

(** A batch the store takes: nothing to write, or a storable table that
    fits the stored one. *)
Definition acceptable (batch : option DataFrame) (name : string)
  (db : database) : bool :=
  match batch with
  | Some df =>
      if (0 <? len df)%nat then
        storable df && compatible (dict_lookup name db) df
      else true
  | None => true
  end.

(** The table after the batch was written: created from the batch, or
    the stored one with the rows of the batch behind its own. *)
Definition stored (t : option table) (df : DataFrame) : table :=
  match t with
  | Some t =>
      {| t_columns := t_columns t;
         t_rows := t_rows t
                   ++ map (stored_row (t_columns t) (df_columns df))
                          (df_rows df) |}
  | None =>
      {| t_columns := df_columns df;
         t_rows := map (stored_row (df_columns df) (df_columns df))
                       (df_rows df) |}
  end.

Definition persist_one (batch : option DataFrame) (name : string)
  (db : database) : database :=
  match batch with
  | Some df =>
      if (0 <? len df)%nat then dict_set name (stored (dict_lookup name db) df) db
      else db
  | None => db
  end.

(** The world after one table was saved. *)
Definition saved_one (batch : option DataFrame) (name kind db_name : string)
  (w : world) : world :=
  match batch with
  | Some df =>
      if (0 <? len df)%nat then
        printed_more
          (write_db w db_name (persist_one batch name (open_db w db_name)))
          [check_mark +++ " Saved " +++ int_repr (Z.of_nat (len df))
           +++ " " +++ kind +++ " records"]
      else w
  | None => w
  end.

(** A response that leaves nothing to normalize: its fetch returns
    [None], or a dict without [results]. *)
Definition gives_nothing (r : response) : Prop :=
  exists v,
    fetched r = Ret v
    /\ (v = PyNone \/ exists d, v = PyDict d /\ dict_lookup "results" d = None).

(** The enriched batch of a list of entities. *)
Definition enriched (fields : list (string * (list string * pyval)))
  (entities : list pyval) (t : datetime) : DataFrame :=
  add_timestamps (pd_DataFrame (map (record_of fields) entities)) t.

Definition rows_of (t : option table) : list (list cell) :=
  match t with
  | Some t => t_rows t
  | None => []
  end.

(** ** Vocabulary of the further properties *)

(** The table a write starts from: the stored one, or a fresh one with
    the columns of the frame. *)
Definition target_table (t : option table) (df : DataFrame) : table :=
  match t with
  | Some t => t
  | None => {| t_columns := df_columns df; t_rows := [] |}
  end.

(** [t'] has the columns of [t] and its rows, in place, before any other. *)
Definition extends (t t' : table) : Prop :=
  t_columns t' = t_columns t
  /\ exists more, t_rows t' = t_rows t ++ more.

(** Every table of [db] is in [db'], extended. *)
Definition db_extends (db db' : database) : Prop :=
  forall name t,
    dict_lookup name db = Some t ->
    exists t', dict_lookup name db' = Some t' /\ extends t t'.

(** What a write to the file [db_name] may change: the tables named in
    [names] of that file, by extension only. *)
Definition store_step (db_name : string) (names : list string)
  (w w' : world) : Prop :=
  ticks w' = ticks w
  /\ (forall other, other <> db_name ->
        dict_lookup other (files w') = dict_lookup other (files w))
  /\ (forall name, ~ In name names ->
        dict_lookup name (open_db w' db_name)
        = dict_lookup name (open_db w db_name))
  /\ db_extends (open_db w db_name) (open_db w' db_name).

(** A batch with something to write. *)
Definition to_write (batch : option DataFrame) : option DataFrame :=
  match batch with
  | Some df => if (0 <? len df)%nat then Some df else None
  | None => None
  end.

(** The labels of the fixed fields and of the stamps. *)
Definition FLOW_LABELS : list string := map fst FLOW_FIELDS.

Definition INCIDENT_LABELS : list string := map fst INCIDENT_FIELDS.

Definition STAMP_LABELS : list string :=
  ["timestamp"; "hour"; "day_of_week"; "date"].

Definition stamp_cells (t : datetime) : list cell :=
  [ CTimestamp t; CVal (PyInt (hour t)); CVal (PyStr (strftime_A t));
    CDate (date_of t) ].

(** The keys a record may have: the fixed labels, then maybe [geometry]. *)
Definition record_keys (labels : list string) (record : dict) : Prop :=
  map fst record = labels
  \/ map fst record = labels ++ ["geometry"].

(** The columns a normalized table may have. *)
Definition table_columns (labels : list string) (df : DataFrame) : Prop :=
  (df_columns df = [] /\ df_rows df = [])
  \/ df_columns df = labels
  \/ df_columns df = labels ++ ["geometry"].

(** The two tables of the store. *)
Definition TABLES : list string := ["traffic_flow"; "traffic_incidents"].

(** The world with a connection to the file [db_name] open, and with one
    connection closed. *)
Definition connected (db_name : string) (w : world) : world :=
  {| files := files (touch_db w db_name); stdout := stdout w; ticks := ticks w;
     connections := S (connections w) |}.

Definition closed (w : world) : world :=
  {| files := files w; stdout := stdout w; ticks := ticks w;
     connections := pred (connections w) |}.

(** * Sample inputs

    Concrete documents, printers and environments on which the theorems
    below are instantiated. *)

(** [repr] on the floats of the samples. *)
#[warnings="-inexact-float"]
Definition sample_float_repr (f : float) : string :=
  if PrimFloat.eqb f 101.67 then "101.67"
  else if PrimFloat.eqb f 3.13 then "3.13"
  else if PrimFloat.eqb f 101.7 then "101.7"
  else if PrimFloat.eqb f 3.16 then "3.16"
  else if PrimFloat.eqb f 2.1 then "2.1"
  else "0.0".

#[warnings="-inexact-float"]
Definition sample_float_parse (s : string) : option float :=
  if String.eqb s "101.67" then Some 101.67%float
  else if String.eqb s "3.13" then Some 3.13%float
  else if String.eqb s "101.7" then Some 101.7%float
  else if String.eqb s "3.16" then Some 3.16%float
  else if String.eqb s "2.1" then Some 2.1%float
  else None.

(** [repr] on strings without quotes or escapes. *)
Definition sample_str_repr (s : string) : string := "'" +++ s +++ "'".

#[warnings="-inexact-float"]
Definition sample_point_1 : pyval :=
  PyDict [("lat", PyFloat 3.13); ("lng", PyFloat 101.67)].

#[warnings="-inexact-float"]
Definition sample_point_2 : pyval :=
  PyDict [("lat", PyFloat 3.16); ("lng", PyFloat 101.7)].

Definition sample_point_3 : pyval :=
  PyDict [("lat", PyInt 3); ("lng", PyInt 101)].

(** Links [[p1, p2], [p3]]. *)
Definition sample_links : list pyval :=
  [ PyDict [("points", PyList [sample_point_1; sample_point_2])];
    PyDict [("points", PyList [sample_point_3])] ].

#[warnings="-inexact-float"]
Definition sample_flow_entity : pyval :=
  PyDict [ ("location",
            PyDict [ ("description", PyStr "Jalan Tun Razak");
                     ("shape", PyDict [("links", PyList sample_links)]) ]);
           ("currentFlow",
            PyDict [ ("speed", PyInt 45); ("jamFactor", PyFloat 2.1) ]) ].

(** An entity with no location and no flow. *)
Definition sample_bare_entity : pyval := PyDict [("id", PyInt 7)].

(** A shape whose only link holds no points. *)
Definition sample_pointless_entity : pyval :=
  PyDict [("location", PyDict [("shape", PyDict [("links", PyList [PyDict []])])])].

(** A link with a complete point, an empty point and a point without [lat]. *)
Definition sample_gappy_entity : pyval :=
  PyDict [("location",
           PyDict [("shape",
                    PyDict [("links",
                             PyList [PyDict [("points",
                                              PyList [sample_point_3;
                                                      PyDict [];
                                                      PyDict [("lng", PyInt 101)]])]])])])].

Definition sample_flow_document : pyval :=
  PyDict [("results", PyList [sample_flow_entity; sample_bare_entity])].

Definition sample_incident (id : string) : pyval :=
  PyDict [ ("incidentId", PyStr id);
           ("incidentDetails",
            PyDict [ ("type", PyStr "accident");
                     ("description", PyDict [("value", PyStr "Collision")]);
                     ("criticality", PyStr "major") ]) ].

Definition sample_incidents : list pyval :=
  [sample_incident "A1"; sample_incident "B2"].

Definition sample_incidents_document : pyval :=
  PyDict [("results", PyList sample_incidents)].

Definition sample_empty_document : pyval := PyDict [("results", PyList [])].

Definition sample_error_document : pyval :=
  PyDict [("error", PyStr "Unauthorized")].

(** Monday 5 January 2026, 08:30:00. *)
Definition sample_instant : datetime :=
  {| year := 2026; month := 1; day := 5;
     hour := 8; minute := 30; second := 0; microsecond := 0 |}.

Definition sample_clock (n : nat) : datetime := sample_instant.

Definition sample_ok (document : pyval) : response :=
  {| status_code := 200; json_body := Some document |}.

Definition sample_server_error : response :=
  {| status_code := 500; json_body := None |}.

(** Both fetches answered. *)
Definition sample_env : environment :=
  {| env_http := fun url _ =>
       if String.eqb url TRAFFIC_FLOW_URL
       then Ret (sample_ok sample_flow_document)
       else Ret (sample_ok sample_incidents_document);
     env_clock := sample_clock |}.

(** The flow endpoint answers 500, the incidents endpoint two incidents. *)
Definition sample_env_flow_500 : environment :=
  {| env_http := fun url _ =>
       if String.eqb url TRAFFIC_FLOW_URL then Ret sample_server_error
       else Ret (sample_ok sample_incidents_document);
     env_clock := sample_clock |}.

(** No response from the flow endpoint; the incidents endpoint would
    answer two incidents. *)
Definition sample_env_flow_down : environment :=
  {| env_http := fun url _ =>
       if String.eqb url TRAFFIC_FLOW_URL then Raise ConnectionError
       else Ret (sample_ok sample_incidents_document);
     env_clock := sample_clock |}.

Definition sample_api_key : pyval := PyStr "key".

(** No database file, nothing printed. *)
Definition sample_world : world :=
  {| files := []; stdout := []; ticks := 0; connections := 0 |}.

Definition sample_frame (label : string) (n : Z) : DataFrame :=
  {| df_columns := [label; "hour"];
     df_rows := [[CVal (PyStr "x"); CVal (PyInt n)]] |}.

(** A file whose flow table already holds one row. *)
Definition sample_world_with_flow : world :=
  {| files := [(DB_NAME,
                [("traffic_flow",
                  {| t_columns := ["hour"; "speed"];
                     t_rows := [[CVal (PyInt 7); CVal (PyInt 30)]] |})])];
     stdout := []; ticks := 0; connections := 0 |}.

(** Every endpoint answers 500. *)
Definition sample_env_all_500 : environment :=
  {| env_http := fun _ _ => Ret sample_server_error;
     env_clock := sample_clock |}.

(** The records of [sample_flow_document]. *)
#[warnings="-inexact-float"]
Definition sample_flow_records : list dict :=
  [ [ ("location_description", PyStr "Jalan Tun Razak");
      ("speed", PyInt 45); ("speed_limit", PyNone);
      ("jam_factor", PyFloat 2.1); ("confidence", PyNone);
      ("free_flow_speed", PyNone); ("traversability", PyStr "");
      ("geometry", PyStr "[(101.67, 3.13), (101.7, 3.16), (101, 3)]") ];
    [ ("location_description", PyStr ""); ("speed", PyNone);
      ("speed_limit", PyNone); ("jam_factor", PyNone);
      ("confidence", PyNone); ("free_flow_speed", PyNone);
      ("traversability", PyStr "") ] ].

(** The flow batch of the run in [sample_env]. *)
Definition sample_flow_batch : DataFrame :=
  add_timestamps (pd_DataFrame sample_flow_records) sample_instant.

(** An entity whose [location] is there, with the value [null]. *)
Definition sample_null_location_document : pyval :=
  PyDict [("results", PyList [PyDict [("location", PyNone)]])].

(** A file that holds both tables, one row each. *)
Definition sample_incidents_table : table :=
  {| t_columns := ["hour"; "severity"];
     t_rows := [[CVal (PyInt 7); CVal (PyStr "minor")]] |}.

Definition sample_world_with_both : world :=
  {| files := [(DB_NAME,
                [("traffic_flow",
                  {| t_columns := ["hour"; "speed"];
                     t_rows := [[CVal (PyInt 7); CVal (PyInt 30)]] |});
                 ("traffic_incidents", sample_incidents_table)])];
     stdout := []; ticks := 0; connections := 0 |}.

(** A table with a column and no row. *)
Definition sample_empty_frame : DataFrame :=
  {| df_columns := ["hour"]; df_rows := [] |}.

(** A good entity, one whose [location] is [null], and a good one again. *)
Definition sample_mixed_document : pyval :=
  PyDict [("results",
           PyList [sample_bare_entity; PyDict [("location", PyNone)];
                   sample_flow_entity])].

(** The flow endpoint answers the sample document, the incidents
    endpoint an incident whose [location] is [null]. *)
Definition sample_env_null_location : environment :=
  {| env_http := fun url _ =>
       if String.eqb url TRAFFIC_FLOW_URL
       then Ret (sample_ok sample_flow_document)
       else Ret (sample_ok sample_null_location_document);
     env_clock := sample_clock |}.

(** Both endpoints answer an empty list of entities. *)
Definition sample_env_empty : environment :=
  {| env_http := fun _ _ => Ret (sample_ok sample_empty_document);
     env_clock := sample_clock |}.

(** * Properties *)

(** ** Exceptions and association lists *)

Lemma dict_lookup_set_same {V} (k : string) (v : V) (d : list (string * V)) :
  dict_lookup k (dict_set k v d) = Some v.
Proof.
  induction d as [|[k' v'] d IH]; simpl.
  - now rewrite String.eqb_refl.
  - destruct (String.eqb k k') eqn:E; simpl; rewrite E; auto.
Qed.

Lemma dict_lookup_set_other {V} (k k' : string) (v : V) (d : list (string * V)) :
  k <> k' -> dict_lookup k (dict_set k' v d) = dict_lookup k d.
Proof.
  intros Hne. induction d as [|[k0 v0] d IH]; simpl.
  - destruct (String.eqb k k') eqn:E; auto.
    apply String.eqb_eq in E. contradiction.
  - destruct (String.eqb k' k0) eqn:E; simpl.
    + apply String.eqb_eq in E. subst k0.
      destruct (String.eqb k k') eqn:E'; auto.
      apply String.eqb_eq in E'. contradiction.
    + now rewrite IH.
Qed.

(** ** Geometry extraction *)

Lemma py_get_dict (d : dict) (k : string) (default : pyval) :
  py_get (PyDict d) k default = Ret (nested_or (PyDict d) [k] default).
Proof.
  unfold py_get, nested_or. simpl. now destruct (dict_lookup k d).
Qed.

Lemma for_point_spec (points : list pyval) (coords : list (pyval * pyval)) :
  forallb is_dict points = true ->
  for_point points coords = Ret (coords ++ map point_pair points).
Proof.
  revert coords. induction points as [|p points IH]; intros coords H; simpl.
  - now rewrite app_nil_r.
  - apply andb_prop in H. destruct H as [Hp Hps].
    destruct p; try discriminate.
    rewrite !py_get_dict. simpl. rewrite IH by assumption.
    now rewrite <- app_assoc.
Qed.

Lemma for_link_spec (links : list pyval) (coords : list (pyval * pyval)) :
  forallb link_shape links = true ->
  for_link links coords = Ret (coords ++ map point_pair (flat_points links)).
Proof.
  revert coords. induction links as [|link links IH]; intros coords H; simpl.
  - now rewrite app_nil_r.
  - apply andb_prop in H. destruct H as [Hl Hls].
    destruct link as [ | | | | | |d]; try discriminate.
    unfold link_shape, dict_with, opt_field in Hl.
    unfold link_points, py_getitem, dict_mem. simpl.
    destruct (dict_lookup "points" d) as [pts|] eqn:E; simpl.
    + destruct pts; try discriminate. simpl in Hl. simpl.
      rewrite for_point_spec by assumption. unfold dict_mem. rewrite E. simpl.
      rewrite IH by assumption.
      now rewrite map_app, app_assoc.
    + unfold dict_mem. rewrite E. simpl. now rewrite IH.
Qed.

Lemma store_geometry_spec (location : pyval) (record : dict) :
  location_shape location = true ->
  store_geometry location record = Ret (with_geometry location record).
Proof.
  intros H. destruct location as [ | | | | | |d]; try discriminate.
  unfold location_shape, dict_with, opt_field in H.
  unfold store_geometry, with_geometry. simpl. unfold dict_mem.
  destruct (dict_lookup "shape" d) as [shape|] eqn:Es; simpl; auto.
  destruct shape as [ | | | | | |s]; try discriminate.
  unfold shape_shape, dict_with, opt_field in H. simpl. unfold dict_mem.
  destruct (dict_lookup "links" s) as [links|] eqn:El; simpl; auto.
  destruct links as [ | | | | |links| ]; try discriminate. simpl in H. simpl.
  now rewrite for_link_spec.
Qed.

Lemma entity_location_shape (d : dict) :
  opt_field "location" location_shape d = true ->
  location_shape (entity_location (PyDict d)) = true.
Proof.
  unfold opt_field, entity_location, nested_or. simpl.
  destruct (dict_lookup "location" d); auto.
Qed.

Lemma py_get_nested (v : pyval) (path : list string) (k : string)
  (default : pyval) :
  is_dict (nested_or v path (PyDict [])) = true ->
  py_get (nested_or v path (PyDict [])) k default
  = Ret (nested_or v (path ++ [k]) default).
Proof.
  revert v. induction path as [|k0 path IH]; intros v H.
  - unfold nested_or in H. simpl in H.
    destruct v; try discriminate. apply py_get_dict.
  - unfold nested_or in *. simpl in *.
    destruct v as [ | | | | | |d]; try reflexivity.
    destruct (dict_lookup k0 d) as [x|]; try reflexivity.
    now apply IH.
Qed.

Lemma opt_field_dict (k : string) (p : pyval -> bool) (d : dict) :
  (forall v, p v = true -> is_dict v = true) ->
  opt_field k p d = true ->
  is_dict (nested_or (PyDict d) [k] (PyDict [])) = true.
Proof.
  unfold opt_field, nested_or. simpl. intros Hp.
  destruct (dict_lookup k d); auto.
Qed.

Lemma dict_with_is_dict (p : dict -> bool) (v : pyval) :
  dict_with p v = true -> is_dict v = true.
Proof. now destruct v. Qed.

Lemma flow_record_spec (entity : pyval) :
  flow_entity entity = true ->
  flow_record entity = Ret (record_of FLOW_FIELDS entity).
Proof.
  intros H. destruct entity as [ | | | | | |d]; try discriminate.
  unfold flow_entity, dict_with in H. apply andb_prop in H.
  destruct H as [Hloc Hcf].
  pose proof (entity_location_shape d Hloc) as Hshape.
  assert (Hl : is_dict (nested_or (PyDict d) ["location"] (PyDict [])) = true).
  { apply opt_field_dict with (p := location_shape); auto.
    intros v. apply dict_with_is_dict. }
  assert (Hc : is_dict (nested_or (PyDict d) ["currentFlow"] (PyDict [])) = true).
  { apply opt_field_dict with (p := is_dict); auto. }
  unfold flow_record.
  rewrite !py_get_dict. simpl exc_bind.
  rewrite !py_get_nested by assumption. simpl exc_bind.
  unfold entity_location in Hshape.
  rewrite store_geometry_spec by assumption.
  reflexivity.
Qed.

Lemma incident_record_spec (entity : pyval) :
  incident_entity entity = true ->
  incident_record entity = Ret (record_of INCIDENT_FIELDS entity).
Proof.
  intros H. destruct entity as [ | | | | | |d]; try discriminate.
  unfold incident_entity, dict_with in H. apply andb_prop in H.
  destruct H as [Hloc Hdet].
  pose proof (entity_location_shape d Hloc) as Hshape.
  assert (Hi : is_dict (nested_or (PyDict d) ["incidentDetails"] (PyDict []))
               = true).
  { apply opt_field_dict with (2 := Hdet).
    intros v. apply dict_with_is_dict. }
  assert (Hd : is_dict (nested_or (PyDict d) ["incidentDetails"; "description"]
                          (PyDict [])) = true).
  { unfold opt_field in Hdet. unfold nested_or. simpl.
    destruct (dict_lookup "incidentDetails" d) as [det|]; auto.
    destruct det as [ | | | | | |t]; try discriminate.
    simpl in Hdet. unfold opt_field in Hdet.
    destruct (dict_lookup "description" t); auto. }
  unfold incident_record.
  rewrite !py_get_dict. simpl exc_bind.
  rewrite !(py_get_nested (PyDict d) ["incidentDetails"]) by assumption.
  simpl exc_bind. simpl app.
  rewrite (py_get_nested (PyDict d) ["incidentDetails"; "description"])
    by assumption.
  simpl exc_bind.
  unfold entity_location in Hshape.
  rewrite store_geometry_spec by assumption.
  reflexivity.
Qed.

Lemma record_of_has_fields_flow (entity : pyval) :
  has_fields FLOW_FIELDS entity (record_of FLOW_FIELDS entity).
Proof.
  unfold has_fields, record_of, with_geometry.
  destruct (nested (entity_location entity) ["shape"; "links"]) as [[ | | | | | | ]|];
    repeat constructor.
Qed.

Lemma record_of_has_fields_incident (entity : pyval) :
  has_fields INCIDENT_FIELDS entity (record_of INCIDENT_FIELDS entity).
Proof.
  unfold has_fields, record_of, with_geometry.
  destruct (nested (entity_location entity) ["shape"; "links"]) as [[ | | | | | | ]|];
    repeat constructor.
Qed.

Lemma nested_location (entity : pyval) (k : string) (path : list string) :
  nested (entity_location entity) (k :: path)
  = nested entity ("location" :: k :: path).
Proof.
  unfold entity_location, nested_or. simpl.
  destruct entity as [ | | | | | |d]; try reflexivity.
  destruct (dict_lookup "location" d); reflexivity.
Qed.

(** The geometry field of the specified record, by the links of the entity. *)
Lemma record_of_geometry (fields : list (string * (list string * pyval)))
  (entity : pyval) :
  dict_mem "geometry" (fixed_record fields entity) = false ->
  dict_lookup "geometry" (record_of fields entity)
  = match entity_links entity with
    | Some links =>
        Some (PyStr (py_str_coords (map point_pair (flat_points links))))
    | None => None
    end.
Proof.
  intros Hfresh. unfold record_of, with_geometry, entity_links.
  rewrite nested_location.
  unfold dict_mem in Hfresh.
  destruct (nested entity ["location"; "shape"; "links"]) as [[ | | | | | | ]|];
    try (destruct (dict_lookup "geometry" (fixed_record fields entity));
         [discriminate | reflexivity]).
  apply dict_lookup_set_same.
Qed.

(** ** One batch *)

Lemma for_each_spec (body : pyval -> exc dict) (f : pyval -> dict)
  (elements : list pyval) (records : list dict) :
  (forall e, In e elements -> body e = Ret (f e)) ->
  for_each body elements records = Ret (records ++ map f elements).
Proof.
  revert records. induction elements as [|e elements IH]; intros records H.
  - simpl. now rewrite app_nil_r.
  - simpl. rewrite (H e) by now left. simpl.
    rewrite IH by (intros e' He'; apply H; now right).
    now rewrite <- app_assoc.
Qed.

Lemma nested_results (data : pyval) (v : pyval) :
  nested data ["results"] = Some v ->
  exists d, data = PyDict d /\ dict_lookup "results" d = Some v.
Proof.
  simpl. destruct data as [ | | | | | |d]; try discriminate.
  destruct (dict_lookup "results" d) eqn:E; try discriminate.
  intros [= <-]. now exists d.
Qed.

Lemma parse_with_spec (body : pyval -> exc dict) (f : pyval -> dict)
  (data : pyval) (entities : list pyval) :
  nested data ["results"] = Some (PyList entities) ->
  (forall e, In e entities -> body e = Ret (f e)) ->
  parse_with body data = Ret (Some (pd_DataFrame (map f entities))).
Proof.
  intros Hres Hbody.
  destruct (nested_results _ _ Hres) as [d [-> Hd]].
  assert (Ht : py_truthy (PyDict d) = true)
    by (destruct d; [discriminate | reflexivity]).
  unfold parse_with, no_results. rewrite Ht. simpl.
  unfold dict_mem. rewrite Hd. simpl.
  now rewrite (for_each_spec body f).
Qed.

Lemma forallb_In {A} (p : A -> bool) (l : list A) (x : A) :
  forallb p l = true -> In x l -> p x = true.
Proof. intros H. now apply forallb_forall. Qed.

Lemma pd_DataFrame_rows (records : list dict) :
  df_rows (pd_DataFrame records)
  = map (row_of_record (df_columns (pd_DataFrame records))) records.
Proof. reflexivity. Qed.

Lemma pd_DataFrame_len (records : list dict) :
  len (pd_DataFrame records) = List.length records.
Proof. unfold len. simpl. apply length_map. Qed.

Lemma parse_with_absent (body : pyval -> exc dict) (data : pyval) :
  data = PyNone
  \/ (exists d, data = PyDict d /\ dict_lookup "results" d = None) ->
  parse_with body data = Ret None.
Proof.
  intros [-> | [d [-> Hd]]]; [reflexivity|].
  unfold parse_with, no_results. destruct d as [|kv d']; [reflexivity|].
  simpl py_truthy. simpl negb. cbv iota.
  unfold py_contains, dict_mem. now rewrite Hd.
Qed.

Lemma flow_geometry (entity : pyval) :
  flow_entity entity = true ->
  exists record,
    flow_record entity = Ret record
    /\ dict_lookup "geometry" record
       = match entity_links entity with
         | Some links =>
             Some (PyStr (py_str_coords (map point_pair (flat_points links))))
         | None => None
         end.
Proof.
  intros H. exists (record_of FLOW_FIELDS entity). split.
  - now apply flow_record_spec.
  - now apply record_of_geometry.
Qed.

Lemma incident_geometry (entity : pyval) :
  incident_entity entity = true ->
  exists record,
    incident_record entity = Ret record
    /\ dict_lookup "geometry" record
       = match entity_links entity with
         | Some links =>
             Some (PyStr (py_str_coords (map point_pair (flat_points links))))
         | None => None
         end.
Proof.
  intros H. exists (record_of INCIDENT_FIELDS entity). split.
  - now apply incident_record_spec.
  - now apply record_of_geometry.
Qed.

Lemma for_each_inv (body : pyval -> exc dict) (elements : list pyval)
  (records result : list dict) :
  for_each body elements records = Ret result ->
  exists rest,
    result = records ++ rest
    /\ Forall2 (fun e r => body e = Ret r) elements rest.
Proof.
  revert records. induction elements as [|e elements IH]; intros records H.
  - simpl in H. injection H as <-. exists []. split; [|constructor].
    now rewrite app_nil_r.
  - simpl in H. destruct (body e) as [r|x] eqn:Hr; [|discriminate].
    simpl in H. destruct (IH _ H) as (rest & -> & Hrest).
    exists (r :: rest). split; [now rewrite <- app_assoc|].
    now constructor.
Qed.

Lemma parse_with_inv (body : pyval -> exc dict) (data : pyval)
  (entities : list pyval) (df : DataFrame) :
  nested data ["results"] = Some (PyList entities) ->
  parse_with body data = Ret (Some df) ->
  exists records,
    df = pd_DataFrame records
    /\ Forall2 (fun e r => body e = Ret r) entities records.
Proof.
  intros Hres Hparse.
  destruct (nested_results _ _ Hres) as [d [-> Hd]].
  assert (Ht : py_truthy (PyDict d) = true)
    by (destruct d; [discriminate | reflexivity]).
  unfold parse_with, no_results in Hparse. rewrite Ht in Hparse.
  simpl in Hparse. unfold dict_mem in Hparse. rewrite Hd in Hparse.
  simpl in Hparse.
  destruct (for_each body entities []) as [records|x] eqn:Hloop;
    [|discriminate].
  simpl in Hparse. injection Hparse as <-.
  destruct (for_each_inv _ _ _ _ Hloop) as (rest & -> & Hrest).
  now exists rest.
Qed.

Lemma batch_rows (body : pyval -> exc dict) (data : pyval)
  (entities : list pyval) (df : DataFrame) :
  nested data ["results"] = Some (PyList entities) ->
  parse_with body data = Ret (Some df) ->
  len df = List.length entities
  /\ forall i e, nth_error entities i = Some e ->
       exists record,
         body e = Ret record
         /\ nth_error (df_rows df) i
            = Some (row_of_record (df_columns df) record).
Proof.
  intros Hres Hparse.
  destruct (parse_with_inv _ _ _ _ Hres Hparse) as (records & -> & Hall).
  split.
  - rewrite pd_DataFrame_len. symmetry. eapply Forall2_length. eassumption.
  - intros i e Hi. rewrite pd_DataFrame_rows, nth_error_map.
    generalize (df_columns (pd_DataFrame records)). intros cols.
    clear Hres Hparse. revert i Hi.
    induction Hall as [|e0 r0 es rs Hr _ IH]; intros [|i] Hi;
      simpl in Hi; try discriminate.
    + injection Hi as <-. exists r0. now split.
    + apply (IH i Hi).
Qed.

(** C1: when [results] holds N entities, the table a normalizer returns
    has exactly N rows, and its i-th row is the record built from the
    i-th entity: the order of [results] is kept.  For entities in the
    provider's shape the normalizer does return its table. *)
Theorem normalize_count_and_order (data : pyval) (entities : list pyval) :
  nested data ["results"] = Some (PyList entities) ->
  (forall df,
     parse_traffic_flow_to_dataframe data = Ret (Some df) ->
     len df = List.length entities
     /\ forall i e, nth_error entities i = Some e ->
          exists record,
            flow_record e = Ret record
            /\ nth_error (df_rows df) i
               = Some (row_of_record (df_columns df) record))
  /\ (forall df,
        parse_incidents_to_dataframe data = Ret (Some df) ->
        len df = List.length entities
        /\ forall i e, nth_error entities i = Some e ->
             exists record,
               incident_record e = Ret record
               /\ nth_error (df_rows df) i
                  = Some (row_of_record (df_columns df) record))
  /\ (forallb flow_entity entities = true ->
      exists df, parse_traffic_flow_to_dataframe data = Ret (Some df))
  /\ (forallb incident_entity entities = true ->
      exists df, parse_incidents_to_dataframe data = Ret (Some df)).
Proof.
  intros Hres. split; [|split; [|split]].
  - intros df. now apply batch_rows.
  - intros df. now apply batch_rows.
  - intros Hall.
    exists (pd_DataFrame (map (record_of FLOW_FIELDS) entities)).
    apply parse_with_spec; auto.
    intros e He. apply flow_record_spec. eapply forallb_In; eassumption.
  - intros Hall.
    exists (pd_DataFrame (map (record_of INCIDENT_FIELDS) entities)).
    apply parse_with_spec; auto.
    intros e He. apply incident_record_spec. eapply forallb_In; eassumption.
Qed.

(** C2: an input that is [None], or a dict without the key [results],
    normalizes to [None] and never to a table; an input whose [results]
    is the empty list normalizes to a table with no rows, not to [None]. *)
Theorem absent_is_not_empty (data : pyval) :
  (data = PyNone
   \/ (exists d, data = PyDict d /\ dict_lookup "results" d = None) ->
   parse_traffic_flow_to_dataframe data = Ret None
   /\ parse_incidents_to_dataframe data = Ret None
   /\ forall df, parse_traffic_flow_to_dataframe data <> Ret (Some df)
                 /\ parse_incidents_to_dataframe data <> Ret (Some df))
  /\ (nested data ["results"] = Some (PyList []) ->
      exists flow_df incidents_df,
        parse_traffic_flow_to_dataframe data = Ret (Some flow_df)
        /\ parse_incidents_to_dataframe data = Ret (Some incidents_df)
        /\ df_rows flow_df = [] /\ df_rows incidents_df = []).
Proof.
  split.
  - intros H.
    unfold parse_traffic_flow_to_dataframe, parse_incidents_to_dataframe.
    rewrite !parse_with_absent by assumption.
    repeat split; auto; discriminate.
  - intros H.
    exists (pd_DataFrame (map (record_of FLOW_FIELDS) [])),
           (pd_DataFrame (map (record_of INCIDENT_FIELDS) [])).
    unfold parse_traffic_flow_to_dataframe, parse_incidents_to_dataframe.
    repeat split; try reflexivity;
      apply parse_with_spec; auto; intros e [].
Qed.

Lemma flow_record_of_non_object (entity : pyval) :
  is_dict entity = false -> flow_record entity = Raise AttributeError.
Proof. destruct entity; try discriminate; reflexivity. Qed.

Lemma incident_record_of_non_object (entity : pyval) :
  is_dict entity = false -> incident_record entity = Raise AttributeError.
Proof. destruct entity; try discriminate; reflexivity. Qed.

Lemma py_get_of_non_object (v : pyval) (k : string) (default : pyval) :
  is_dict v = false -> py_get v k default = Raise AttributeError.
Proof. destruct v; try discriminate; reflexivity. Qed.

Lemma py_get_returns (d : dict) (k : string) (default : pyval) :
  exists x, py_get (PyDict d) k default = Ret x.
Proof. simpl. destruct (dict_lookup k d); eauto. Qed.

Lemma flow_record_of_non_object_field (d : dict) (v : pyval) :
  is_dict v = false ->
  dict_lookup "location" d = Some v \/ dict_lookup "currentFlow" d = Some v ->
  flow_record (PyDict d) = Raise AttributeError.
Proof.
  intros Hv [H | H]; unfold flow_record.
  - destruct (py_get_returns d "currentFlow" (PyDict [])) as [flow ->].
    unfold py_get at 1. rewrite H. simpl.
    now rewrite py_get_of_non_object.
  - unfold py_get at 2. rewrite H.
    destruct (py_get_returns d "location" (PyDict [])) as [location ->].
    simpl. destruct location as [ | | | | | |l];
      try reflexivity.
    destruct (py_get_returns l "description" (PyStr "")) as [text ->].
    simpl. now rewrite py_get_of_non_object.
Qed.

Lemma incident_record_of_non_object_field (d : dict) (v : pyval) :
  is_dict v = false ->
  dict_lookup "incidentDetails" d = Some v ->
  incident_record (PyDict d) = Raise AttributeError.
Proof.
  intros Hv H. unfold incident_record.
  destruct (py_get_returns d "location" (PyDict [])) as [location ->].
  unfold py_get at 1. rewrite H.
  destruct (py_get_returns d "incidentId" (PyStr "")) as [id ->].
  simpl. now rewrite py_get_of_non_object.
Qed.

Lemma for_each_raises_somewhere (body : pyval -> exc dict)
  (elements : list pyval) (records : list dict) :
  Exists (fun e => exists x, body e = Raise x) elements ->
  exists x, for_each body elements records = Raise x.
Proof.
  intros H. revert records.
  induction H as [e l [x Hx] | e l _ IH]; intros records; simpl.
  - rewrite Hx. simpl. eauto.
  - destruct (body e) as [r|x]; simpl; eauto.
Qed.

Lemma parse_with_raises_somewhere (body : pyval -> exc dict) (data : pyval)
  (entities : list pyval) :
  nested data ["results"] = Some (PyList entities) ->
  Exists (fun e => exists x, body e = Raise x) entities ->
  exists x, parse_with body data = Raise x.
Proof.
  intros Hres Hbad.
  destruct (nested_results _ _ Hres) as [d [-> Hd]].
  assert (Ht : py_truthy (PyDict d) = true)
    by (destruct d; [discriminate | reflexivity]).
  unfold parse_with, no_results. rewrite Ht. simpl.
  unfold dict_mem. rewrite Hd. simpl.
  destruct (for_each_raises_somewhere body entities [] Hbad) as [x ->].
  simpl. eauto.
Qed.

(** C9 (amended): for entities in the provider's shape, with any of their keys
    missing, normalization never raises: the batch yields its table, and
    each fixed field of each record holds the nested value when it is
    there and its default, an empty string or [None], when it is not.
    Other shapes do reach the error: an element that is not a dict, a flow
    element whose [location] or [currentFlow] is there and is not a dict,
    and an incident whose [incidentDetails] is there and is not a dict
    raise [AttributeError]; and an element on which the body raises makes
    the normalizer raise, so that no table is returned. *)
Theorem normalize_total_under_absence (data : pyval) (entities : list pyval) :
  nested data ["results"] = Some (PyList entities) ->
  (forallb flow_entity entities = true ->
   (exists df, parse_traffic_flow_to_dataframe data = Ret (Some df))
   /\ forall e, In e entities ->
        exists record,
          flow_record e = Ret record
          /\ has_fields FLOW_FIELDS e record)
  /\ (forallb incident_entity entities = true ->
      (exists df, parse_incidents_to_dataframe data = Ret (Some df))
      /\ forall e, In e entities ->
           exists record,
             incident_record e = Ret record
             /\ has_fields INCIDENT_FIELDS e record)
  /\ Forall (fun f => snd (snd f) = PyStr "" \/ snd (snd f) = PyNone)
            (FLOW_FIELDS ++ INCIDENT_FIELDS)
  /\ (forall e, is_dict e = false ->
        flow_record e = Raise AttributeError
        /\ incident_record e = Raise AttributeError)
  /\ (forall d v, is_dict v = false ->
        (dict_lookup "location" d = Some v
         \/ dict_lookup "currentFlow" d = Some v ->
         flow_record (PyDict d) = Raise AttributeError)
        /\ (dict_lookup "incidentDetails" d = Some v ->
            incident_record (PyDict d) = Raise AttributeError))
  /\ (Exists (fun e => exists x, flow_record e = Raise x) entities ->
      exists x, parse_traffic_flow_to_dataframe data = Raise x)
  /\ (Exists (fun e => exists x, incident_record e = Raise x) entities ->
      exists x, parse_incidents_to_dataframe data = Raise x).
Proof.
  intros Hres. split; [|split; [|split; [|split; [|split; [|split]]]]].
  - intros Hall. split.
    + exists (pd_DataFrame (map (record_of FLOW_FIELDS) entities)).
      apply parse_with_spec; auto.
      intros e He. apply flow_record_spec. eapply forallb_In; eassumption.
    + intros e He. exists (record_of FLOW_FIELDS e). split.
      * apply flow_record_spec. eapply forallb_In; eassumption.
      * apply record_of_has_fields_flow.
  - intros Hall. split.
    + exists (pd_DataFrame (map (record_of INCIDENT_FIELDS) entities)).
      apply parse_with_spec; auto.
      intros e He. apply incident_record_spec. eapply forallb_In; eassumption.
    + intros e He. exists (record_of INCIDENT_FIELDS e). split.
      * apply incident_record_spec. eapply forallb_In; eassumption.
      * apply record_of_has_fields_incident.
  - simpl. repeat (apply Forall_cons; [simpl; auto|]). apply Forall_nil.
  - intros e He. split.
    + now apply flow_record_of_non_object.
    + now apply incident_record_of_non_object.
  - intros d v Hv. split.
    + now apply flow_record_of_non_object_field.
    + now apply incident_record_of_non_object_field.
  - now apply parse_with_raises_somewhere.
  - now apply parse_with_raises_somewhere.
Qed.

(** C7 (amended): an entity whose location has no shape, or whose shape
    has no links, gets a record without the key [geometry]; an entity
    whose shape has links that hold no points gets the empty
    serialization. *)
Theorem geometry_omitted_without_links (entity : pyval) :
  (entity_links entity = None ->
   (flow_entity entity = true ->
    exists record,
      flow_record entity = Ret record
      /\ dict_lookup "geometry" record = None)
   /\ (incident_entity entity = true ->
       exists record,
         incident_record entity = Ret record
         /\ dict_lookup "geometry" record = None))
  /\ (forall links,
        entity_links entity = Some links ->
        flat_points links = [] ->
        (flow_entity entity = true ->
         exists record,
           flow_record entity = Ret record
           /\ dict_lookup "geometry" record = Some (PyStr "[]"))
        /\ (incident_entity entity = true ->
            exists record,
              incident_record entity = Ret record
              /\ dict_lookup "geometry" record = Some (PyStr "[]"))).
Proof.
  split.
  - intros Hnone. split; intros H.
    + destruct (flow_geometry entity H) as [r [Hr Hg]].
      rewrite Hnone in Hg. eauto.
    + destruct (incident_geometry entity H) as [r [Hr Hg]].
      rewrite Hnone in Hg. eauto.
  - intros links Hlinks Hflat. split; intros H.
    + destruct (flow_geometry entity H) as [r [Hr Hg]].
      rewrite Hlinks, Hflat in Hg. eauto.
    + destruct (incident_geometry entity H) as [r [Hr Hg]].
      rewrite Hlinks, Hflat in Hg. eauto.
Qed.

Lemma point_pair_missing (point : pyval) :
  (nested point ["lng"] = None -> fst (point_pair point) = PyNone)
  /\ (nested point ["lat"] = None -> snd (point_pair point) = PyNone).
Proof.
  split; intros H; unfold point_pair, nested_or; cbn [fst snd];
    now rewrite H.
Qed.

(** C10: a point that lacks [lng] or [lat] is neither skipped nor
    refused: the flattened sequence has one pair per point, and the pair
    at the position of such a point has [None] for the missing
    component. *)
Theorem geometry_keeps_incomplete_points (entity : pyval) (links : list pyval) :
  entity_links entity = Some links ->
  (flow_entity entity = true ->
   exists record coords,
     flow_record entity = Ret record
     /\ dict_lookup "geometry" record = Some (PyStr (py_str_coords coords))
     /\ List.length coords = List.length (flat_points links)
     /\ forall i point, nth_error (flat_points links) i = Some point ->
          nth_error coords i = Some (point_pair point)
          /\ (nested point ["lng"] = None -> fst (point_pair point) = PyNone)
          /\ (nested point ["lat"] = None -> snd (point_pair point) = PyNone))
  /\ (incident_entity entity = true ->
      exists record coords,
        incident_record entity = Ret record
        /\ dict_lookup "geometry" record = Some (PyStr (py_str_coords coords))
        /\ List.length coords = List.length (flat_points links)
        /\ forall i point, nth_error (flat_points links) i = Some point ->
             nth_error coords i = Some (point_pair point)
             /\ (nested point ["lng"] = None -> fst (point_pair point) = PyNone)
             /\ (nested point ["lat"] = None -> snd (point_pair point) = PyNone)).
Proof.
  intros Hlinks.
  assert (Hpos : forall i point,
             nth_error (flat_points links) i = Some point ->
             nth_error (map point_pair (flat_points links)) i
             = Some (point_pair point)
             /\ (nested point ["lng"] = None -> fst (point_pair point) = PyNone)
             /\ (nested point ["lat"] = None -> snd (point_pair point) = PyNone)).
  { intros i point Hi. split.
    - now rewrite nth_error_map, Hi.
    - apply point_pair_missing. }
  split; intros H.
  - destruct (flow_geometry entity H) as [r [Hr Hg]]. rewrite Hlinks in Hg.
    exists r, (map point_pair (flat_points links)).
    split; [exact Hr | split; [exact Hg | split; [apply length_map | exact Hpos]]].
  - destruct (incident_geometry entity H) as [r [Hr Hg]]. rewrite Hlinks in Hg.
    exists r, (map point_pair (flat_points links)).
    split; [exact Hr | split; [exact Hg | split; [apply length_map | exact Hpos]]].
Qed.

Lemma scan_string_app (st : scan) (a b : string) :
  scan_string st (a +++ b) = scan_string (scan_string st a) b.
Proof.
  revert st. induction a as [|c a IH]; intros st; simpl; auto.
Qed.

Lemma snoc_append (cur : string) (c : ascii) (a : string) :
  snoc cur c +++ a = cur +++ String c a.
Proof.
  unfold snoc. induction cur as [|c' cur IH]; simpl; auto.
  now rewrite IH.
Qed.

Lemma append_empty_r (s : string) : s +++ "" = s.
Proof. induction s as [|c s IH]; simpl; auto. now rewrite IH. Qed.

Lemma scan_first (pairs : list (string * string)) (cur a : string) :
  no_delimiter a = true ->
  scan_string (InFirst pairs cur) a = InFirst pairs (cur +++ a).
Proof.
  revert cur. induction a as [|c a IH]; intros cur H; simpl.
  - now rewrite append_empty_r.
  - simpl in H. apply andb_prop in H. destruct H as [H Ha].
    apply andb_prop in H. destruct H as [Hc _].
    destruct (Ascii.eqb c ","); [discriminate|].
    rewrite IH by assumption. now rewrite snoc_append.
Qed.

Lemma scan_second (pairs : list (string * string)) (first cur a : string) :
  no_delimiter a = true ->
  scan_string (InSecond pairs first cur) a = InSecond pairs first (cur +++ a).
Proof.
  revert cur. induction a as [|c a IH]; intros cur H; simpl.
  - now rewrite append_empty_r.
  - simpl in H. apply andb_prop in H. destruct H as [H Ha].
    apply andb_prop in H. destruct H as [_ Hc].
    destruct (Ascii.eqb c ")"); [discriminate|].
    rewrite IH by assumption. now rewrite snoc_append.
Qed.

Lemma append_assoc (a b c : string) : (a +++ b) +++ c = a +++ b +++ c.
Proof. induction a as [|x a IH]; simpl; auto. now rewrite IH. Qed.

Lemma scan_pair (st : scan) (pairs : list (string * string))
  (p : pyval * pyval) (rest : string) :
  scan_step st "(" = InFirst pairs "" ->
  printable p ->
  scan_string st (pair_repr p +++ rest)
  = scan_string (AfterPair (pairs ++ [printed p])) rest.
Proof.
  intros Hst [Ha Hb]. unfold pair_repr.
  replace (("(" +++ py_repr (fst p) +++ ", " +++ py_repr (snd p) +++ ")")
           +++ rest)
    with (String "(" (py_repr (fst p)
                      +++ String "," (String " " (py_repr (snd p)
                                                  +++ String ")" rest)))).
  - cbn [scan_string]. rewrite Hst.
    rewrite scan_string_app, scan_first by assumption.
    change (scan_string (InFirst pairs ("" +++ py_repr (fst p)))
              (String "," (String " " (py_repr (snd p) +++ String ")" rest))))
      with (scan_string (InSecond pairs (py_repr (fst p)) "")
              (py_repr (snd p) +++ String ")" rest)).
    rewrite scan_string_app, scan_second by assumption.
    reflexivity.
  - simpl. f_equal. rewrite append_assoc. f_equal. simpl. do 2 f_equal.
    now rewrite append_assoc.
Qed.

Lemma concat_more_pairs (p : pyval * pyval) (coords : list (pyval * pyval)) :
  String.concat ", " (map pair_repr (p :: coords))
  = pair_repr p +++ more_pairs coords.
Proof.
  revert p. induction coords as [|q coords IH]; intros p.
  - simpl. now rewrite append_empty_r.
  - change (String.concat ", " (map pair_repr (p :: q :: coords)))
      with (pair_repr p +++ ", "
            +++ String.concat ", " (map pair_repr (q :: coords))).
    now rewrite IH.
Qed.

Lemma scan_more_pairs (coords : list (pyval * pyval))
  (pairs : list (string * string)) :
  Forall printable coords ->
  scan_string (AfterPair pairs) (more_pairs coords +++ "]")
  = AtEnd (pairs ++ map printed coords).
Proof.
  revert pairs. induction coords as [|p coords IH]; intros pairs H.
  - simpl. now rewrite app_nil_r.
  - inversion H as [|? ? Hp Hrest]; subst.
    replace (more_pairs (p :: coords) +++ "]")
      with (String "," (String " "
              (pair_repr p +++ more_pairs coords +++ "]"))).
    + cbn [scan_string].
      rewrite (scan_pair _ pairs); [| reflexivity | assumption].
      rewrite IH by assumption. simpl map.
      rewrite <- app_assoc. reflexivity.
    + cbn [more_pairs]. rewrite !append_assoc. reflexivity.
Qed.

Lemma scan_coords (coords : list (pyval * pyval)) :
  Forall printable coords ->
  scan_string AtStart (py_str_coords coords) = AtEnd (map printed coords).
Proof.
  intros H. unfold py_str_coords. destruct coords as [|p coords].
  - reflexivity.
  - rewrite concat_more_pairs. inversion H as [|? ? Hp Hrest]; subst.
    replace ("[" +++ (pair_repr p +++ more_pairs coords) +++ "]")
      with (String "[" (pair_repr p +++ more_pairs coords +++ "]")).
    + cbn [scan_string].
      rewrite (scan_pair _ []); [| reflexivity | assumption].
      now rewrite scan_more_pairs.
    + rewrite !append_assoc. reflexivity.
Qed.

Lemma no_delimiter_uint (d : Decimal.uint) :
  no_delimiter (NilEmpty.string_of_uint d) = true.
Proof. induction d; simpl; auto. Qed.

Lemma no_delimiter_int_repr (z : Z) : no_delimiter (int_repr z) = true.
Proof.
  unfold int_repr, NilZero.string_of_int, NilZero.string_of_uint.
  destruct (Z.to_int z) as [d|d]; destruct d; simpl;
    auto using no_delimiter_uint.
Qed.

Lemma int_repr_reads_back (z : Z) :
  NilZero.int_of_string (int_repr z) = Some (Z.to_int z).
Proof.
  unfold int_repr. apply NilZero.isi.
  - destruct z; simpl; try discriminate.
    intros [= H]. now apply DecimalPos.Unsigned.to_uint_nonnil in H.
  - destruct z; simpl; try discriminate.
    intros [= H]. now apply DecimalPos.Unsigned.to_uint_nonnil in H.
Qed.

Lemma int_repr_not_keyword (z : Z) (word : string) :
  NilZero.int_of_string word = None ->
  String.eqb (int_repr z) word = false.
Proof.
  intros Hword. destruct (String.eqb_spec (int_repr z) word) as [E|]; auto.
  rewrite <- E, int_repr_reads_back in Hword. discriminate.
Qed.

Lemma read_atom_int (z : Z) : read_atom (int_repr z) = Some (PyInt z).
Proof.
  unfold read_atom.
  rewrite !int_repr_not_keyword by reflexivity.
  now rewrite int_repr_reads_back, DecimalZ.of_to.
Qed.

Lemma coordinate_reads_back (v : pyval) :
  coordinate v ->
  no_delimiter (py_repr v) = true /\ read_atom (py_repr v) = Some v.
Proof.
  destruct v as [ |b|z|f| | | ]; simpl; try contradiction; intros H.
  - split; reflexivity.
  - destruct b; split; reflexivity.
  - split; [apply no_delimiter_int_repr | apply read_atom_int].
  - exact H.
Qed.

Lemma read_pairs_printed (coords : list (pyval * pyval)) :
  Forall (fun p => coordinate (fst p) /\ coordinate (snd p)) coords ->
  Forall printable coords /\ read_pairs (map printed coords) = Some coords.
Proof.
  induction 1 as [|[a b] coords [Ha Hb] _ [IHp IHr]]; [now split|].
  simpl in Ha, Hb.
  destruct (coordinate_reads_back a Ha) as [Ha1 Ha2].
  destruct (coordinate_reads_back b Hb) as [Hb1 Hb2].
  split.
  - constructor; [split; assumption | assumption].
  - simpl. rewrite Ha2, Hb2, IHr. reflexivity.
Qed.

(** The printed form of a list of pairs reads back as the same list. *)
Lemma reparse_str_coords (coords : list (pyval * pyval)) :
  Forall (fun p => coordinate (fst p) /\ coordinate (snd p)) coords ->
  reparse_geometry (py_str_coords coords) = Some coords.
Proof.
  intros H. destruct (read_pairs_printed coords H) as [Hp Hr].
  unfold reparse_geometry. now rewrite scan_coords.
Qed.

(** C6: when the location of an entity has a shape with links, the
    geometry of its record is the text of the points of all links, in link
    order then point order, each as the pair (lng, lat); when the
    components are numbers (or [None]), reading that text back gives the
    same sequence of pairs. *)
Theorem geometry_flattens_and_reads_back (entity : pyval) (links : list pyval) :
  entity_links entity = Some links ->
  let coords := map point_pair (flat_points links) in
  (Forall (fun p => coordinate (fst p) /\ coordinate (snd p)) coords ->
   reparse_geometry (py_str_coords coords) = Some coords)
  /\ (flow_entity entity = true ->
      exists record,
        flow_record entity = Ret record
        /\ dict_lookup "geometry" record = Some (PyStr (py_str_coords coords)))
  /\ (incident_entity entity = true ->
      exists record,
        incident_record entity = Ret record
        /\ dict_lookup "geometry" record = Some (PyStr (py_str_coords coords))).
Proof.
  intros Hlinks coords. split; [apply reparse_str_coords|].
  split; intros H.
  - destruct (flow_geometry entity H) as [r [Hr Hg]].
    rewrite Hlinks in Hg. eauto.
  - destruct (incident_geometry entity H) as [r [Hr Hg]].
    rewrite Hlinks in Hg. eauto.
Qed.

Lemma index_of_lt (c : string) (cols : list string) (i : nat) :
  index_of c cols = Some i -> (i < List.length cols)%nat.
Proof.
  revert i. induction cols as [|c' cols IH]; intros i; simpl; [discriminate|].
  destruct (String.eqb c c').
  - intros [= <-]. lia.
  - destruct (index_of c cols) as [j|]; simpl; intros [= <-].
    specialize (IH j eq_refl). lia.
Qed.

Lemma index_of_inj (c c' : string) (cols : list string) (i : nat) :
  index_of c cols = Some i -> index_of c' cols = Some i -> c = c'.
Proof.
  revert i. induction cols as [|c0 cols IH]; intros i; simpl; [discriminate|].
  destruct (String.eqb_spec c c0) as [->|Hc];
    destruct (String.eqb_spec c' c0) as [->|Hc']; auto.
  - intros [= <-]. destruct (index_of c' cols); discriminate.
  - destruct (index_of c cols); simpl; intros [= <-]. discriminate.
  - destruct (index_of c cols) as [j|]; simpl; intros [= <-].
    destruct (index_of c' cols) as [j'|]; simpl; intros [= ->].
    now apply (IH j).
Qed.

Lemma index_of_app_new (c : string) (cols : list string) :
  index_of c cols = None ->
  index_of c (cols ++ [c]) = Some (List.length cols).
Proof.
  induction cols as [|c' cols IH]; simpl.
  - now rewrite String.eqb_refl.
  - destruct (String.eqb c c'); [discriminate|].
    destruct (index_of c cols); [discriminate|].
    intros _. now rewrite IH.
Qed.

Lemma index_of_app_old (c c' : string) (cols : list string) (i : nat) :
  index_of c' cols = Some i -> index_of c' (cols ++ [c]) = Some i.
Proof.
  revert i. induction cols as [|c0 cols IH]; intros i; simpl; [discriminate|].
  destruct (String.eqb c' c0); auto.
  destruct (index_of c' cols) as [j|]; simpl; intros [= <-].
  now rewrite (IH j).
Qed.

Lemma length_set_nth {A} (i : nat) (x : A) (l : list A) :
  List.length (set_nth i x l) = List.length l.
Proof.
  revert i. induction l as [|y l IH]; intros [|i]; simpl; auto.
Qed.

Lemma nth_error_set_nth_same {A} (i : nat) (x : A) (l : list A) :
  (i < List.length l)%nat -> nth_error (set_nth i x l) i = Some x.
Proof.
  revert i. induction l as [|y l IH]; intros [|i] H; simpl in *; try lia; auto.
  apply IH. lia.
Qed.

Lemma nth_error_set_nth_other {A} (i j : nat) (x : A) (l : list A) :
  i <> j -> nth_error (set_nth i x l) j = nth_error l j.
Proof.
  revert i j. induction l as [|y l IH]; intros [|i] [|j] H; simpl; auto;
    try contradiction.
Qed.

Lemma set_column_wf (df : DataFrame) (c : string) (x : cell) :
  df_wf df -> df_wf (set_column df c x).
Proof.
  unfold df_wf, set_column. intros H.
  destruct (index_of c (df_columns df)) as [i|]; simpl;
    apply Forall_map; eapply Forall_impl; try exact H; simpl; intros row Hrow.
  - now rewrite length_set_nth.
  - rewrite !length_app. simpl. lia.
Qed.

Lemma set_column_sets (df : DataFrame) (c : string) (x : cell) :
  df_wf df -> column_is c x (set_column df c x).
Proof.
  unfold df_wf, column_is, set_column, df_cell. intros Hwf row' Hin.
  destruct (index_of c (df_columns df)) as [i|] eqn:Ei; simpl in *.
  - rewrite Ei. apply in_map_iff in Hin. destruct Hin as [row [<- Hrow]].
    apply nth_error_set_nth_same.
    rewrite Forall_forall in Hwf. rewrite (Hwf row Hrow).
    eapply index_of_lt; eassumption.
  - rewrite index_of_app_new by assumption.
    apply in_map_iff in Hin. destruct Hin as [row [<- Hrow]].
    rewrite Forall_forall in Hwf. rewrite <- (Hwf row Hrow).
    rewrite nth_error_app2 by lia. now rewrite Nat.sub_diag.
Qed.

Lemma set_column_keeps (df : DataFrame) (c c' : string) (x y : cell) :
  c' <> c -> column_is c' y df -> column_is c' y (set_column df c x).
Proof.
  unfold column_is, set_column, df_cell. intros Hne Hcol row' Hin.
  destruct (index_of c (df_columns df)) as [i|] eqn:Ei; simpl in *;
    apply in_map_iff in Hin; destruct Hin as [row [<- Hrow]];
    specialize (Hcol row Hrow);
    destruct (index_of c' (df_columns df)) as [j|] eqn:Ej; try discriminate.
  - rewrite nth_error_set_nth_other; auto.
    intros ->. apply Hne. eapply index_of_inj; eassumption.
  - rewrite (index_of_app_old c c' _ j) by assumption.
    rewrite nth_error_app1; auto.
    apply nth_error_Some. congruence.
Qed.

Lemma set_column_len (df : DataFrame) (c : string) (x : cell) :
  len (set_column df c x) = len df.
Proof.
  unfold len, set_column.
  destruct (index_of c (df_columns df)); simpl; apply length_map.
Qed.

Lemma pd_DataFrame_wf (records : list dict) : df_wf (pd_DataFrame records).
Proof.
  unfold df_wf, pd_DataFrame, row_of_record. simpl.
  apply Forall_map. apply Forall_forall. intros r _. apply length_map.
Qed.

Lemma add_timestamps_stamped (df : DataFrame) (t : datetime) :
  df_wf df -> stamped t (add_timestamps df t).
Proof.
  intros Hwf. unfold stamped, add_timestamps.
  repeat split;
    repeat first
      [ apply set_column_sets; repeat apply set_column_wf; assumption
      | apply set_column_keeps; [discriminate|] ].
Qed.

Lemma add_timestamps_len (df : DataFrame) (t : datetime) :
  len (add_timestamps df t) = len df.
Proof. unfold add_timestamps. now rewrite !set_column_len. Qed.

Lemma strftime_A_is_a_day (t : datetime) : In (strftime_A t) DAY_NAMES.
Proof.
  unfold strftime_A, weekday.
  assert (H : (0 <= (toordinal t + 6) mod 7 < 7)%Z)
    by (apply Z.mod_pos_bound; lia).
  set (n := ((toordinal t + 6) mod 7)%Z) in *.
  assert (Hn : (Z.to_nat n < 7)%nat) by lia.
  destruct (Z.to_nat n) as [|[|[|[|[|[|[|k]]]]]]]; simpl; auto 10; lia.
Qed.

(** ** Computations on the world *)

Lemma io_bind_inv {A B} (c : io A) (k : A -> io B) (w w' : world) (b : B) :
  io_bind c k w = (Ret b, w') ->
  exists a w1, c w = (Ret a, w1) /\ k a w1 = (Ret b, w').
Proof.
  unfold io_bind. destruct (c w) as [[a|e] w1]; [eauto | discriminate].
Qed.

Lemma io_bind_ret {A B} (c : io A) (k : A -> io B) (w w1 : world) (a : A) :
  c w = (Ret a, w1) -> io_bind c k w = k a w1.
Proof. unfold io_bind. now intros ->. Qed.

Lemma io_bind_raise {A B} (c : io A) (k : A -> io B) (w w1 : world) (e : exn) :
  c w = (Raise e, w1) -> io_bind c k w = (Raise e, w1).
Proof. unfold io_bind. now intros ->. Qed.

Lemma printed_more_more (w : world) (l1 l2 : list string) :
  printed_more (printed_more w l1) l2 = printed_more w (l1 ++ l2).
Proof. unfold printed_more. simpl. now rewrite <- app_assoc. Qed.

Lemma print_spec (line : string) (w : world) :
  print line w = (Ret tt, printed_more w [line]).
Proof. reflexivity. Qed.

Lemma fetch_traffic_flow_spec (bbox : float * float * float * float)
  (api_key : pyval) (w : world) :
  fetch_traffic_flow bbox api_key w
  = match env_http env TRAFFIC_FLOW_URL (query_params bbox api_key) with
    | Ret r =>
        (fetched r,
         printed_more w
           ("Fetching traffic flow data..."
            :: if (status_code r =? 200)%Z then []
               else ["Error: " +++ int_repr (status_code r)]))
    | Raise e => (Raise e, printed_more w ["Fetching traffic flow data..."])
    end.
Proof.
  unfold fetch_traffic_flow, requests_get, response_json, fetched, io_bind,
    io_lift, io_ret, io_raise.
  rewrite print_spec.
  destruct (env_http env TRAFFIC_FLOW_URL (query_params bbox api_key))
    as [r|e]; auto.
  destruct (status_code r =? 200)%Z.
  - destruct (json_body r); reflexivity.
  - rewrite print_spec, printed_more_more. reflexivity.
Qed.

Lemma fetch_traffic_incidents_spec (bbox : float * float * float * float)
  (api_key : pyval) (w : world) :
  fetch_traffic_incidents bbox api_key w
  = match env_http env TRAFFIC_INCIDENTS_URL (query_params bbox api_key) with
    | Ret r => (fetched r, printed_more w ["Fetching traffic incidents..."])
    | Raise e => (Raise e, printed_more w ["Fetching traffic incidents..."])
    end.
Proof.
  unfold fetch_traffic_incidents, requests_get, response_json, fetched,
    io_bind, io_lift, io_ret, io_raise.
  rewrite print_spec.
  destruct (env_http env TRAFFIC_INCIDENTS_URL (query_params bbox api_key))
    as [r|e]; auto.
  destruct (status_code r =? 200)%Z; auto.
  destruct (json_body r); reflexivity.
Qed.

(** C5 (amended): a response whose status is not 200 comes back from
    either fetch as [None], with no exception; the flow fetch then prints
    the status after its progress line and the incidents fetch prints its
    progress line only.  When the HTTP client itself raises, for want of
    a response, the exception reaches the caller of the fetch. *)
Theorem fetch_failure_surfaces (bbox : float * float * float * float)
  (api_key : pyval) (w : world) :
  (forall r,
     status_code r <> 200%Z ->
     (env_http env TRAFFIC_FLOW_URL (query_params bbox api_key) = Ret r ->
      fetch_traffic_flow bbox api_key w
      = (Ret PyNone,
         printed_more w ["Fetching traffic flow data...";
                         "Error: " +++ int_repr (status_code r)]))
     /\ (env_http env TRAFFIC_INCIDENTS_URL (query_params bbox api_key) = Ret r ->
         fetch_traffic_incidents bbox api_key w
         = (Ret PyNone, printed_more w ["Fetching traffic incidents..."])))
  /\ (forall e,
        (env_http env TRAFFIC_FLOW_URL (query_params bbox api_key) = Raise e ->
         fst (fetch_traffic_flow bbox api_key w) = Raise e)
        /\ (env_http env TRAFFIC_INCIDENTS_URL (query_params bbox api_key)
            = Raise e ->
            fst (fetch_traffic_incidents bbox api_key w) = Raise e)).
Proof.
  split.
  - intros r Hstatus. apply Z.eqb_neq in Hstatus. split; intros Hr.
    + rewrite fetch_traffic_flow_spec, Hr. unfold fetched.
      now rewrite Hstatus.
    + rewrite fetch_traffic_incidents_spec, Hr. unfold fetched.
      now rewrite Hstatus.
  - intros e. split; intros He.
    + now rewrite fetch_traffic_flow_spec, He.
    + now rewrite fetch_traffic_incidents_spec, He.
Qed.

(** One step back through a bind that returned. *)
Ltac bind_inv H a Ha :=
  apply io_bind_inv in H; destruct H as (a & ? & Ha & H).

Lemma collect_inv (w w' : world) (flow_df incidents_df : option DataFrame) :
  collect w = (Ret (flow_df, incidents_df), w') ->
  exists flow_data incidents_data flow_batch incidents_batch,
    parse_traffic_flow_to_dataframe flow_data = Ret flow_batch
    /\ parse_incidents_to_dataframe incidents_data = Ret incidents_batch
    /\ flow_df = stamp_flow (env_clock env (ticks w)) flow_batch
    /\ incidents_df = stamp_incidents (env_clock env (ticks w)) incidents_batch.
Proof.
  unfold collect. intros H.
  bind_inv H t Hnow. unfold datetime_now in Hnow. injection Hnow as <- _.
  do 3 (let u := fresh in let Hu := fresh in bind_inv H u Hu; clear Hu).
  bind_inv H flow_data Hfetch_flow.
  bind_inv H incidents_data Hfetch_incidents.
  bind_inv H flow_batch Hf.
  bind_inv H incidents_batch Hi.
  bind_inv H flow_df' Hsf.
  bind_inv H incidents_df' Hsi.
  unfold io_ret in H. injection H as <- <- _.
  unfold io_lift in Hf, Hi. injection Hf as Hf _. injection Hi as Hi _.
  exists flow_data, incidents_data, flow_batch, incidents_batch.
  repeat split; auto.
  - destruct flow_batch as [df|]; simpl.
    + bind_inv Hsf u Hu. unfold io_ret in Hsf. now injection Hsf as <- _.
    + unfold io_ret in Hsf. now injection Hsf as <- _.
  - destruct incidents_batch as [df|]; simpl.
    + destruct (0 <? len df)%nat.
      * bind_inv Hsi u Hu. unfold io_ret in Hsi. now injection Hsi as <- _.
      * unfold io_ret in Hsi. now injection Hsi as <- _.
    + unfold io_ret in Hsi. now injection Hsi as <- _.
Qed.

Lemma parse_with_wf (body : pyval -> exc dict) (data : pyval) (df : DataFrame) :
  parse_with body data = Ret (Some df) -> df_wf df.
Proof.
  unfold parse_with.
  destruct (no_results data) as [[|]|]; simpl; try discriminate.
  destruct (py_getitem data "results") as [results|]; simpl; try discriminate.
  destruct (py_iter results) as [it|]; simpl; try discriminate.
  destruct (for_each body it []) as [records|]; simpl; try discriminate.
  intros [= <-]. apply pd_DataFrame_wf.
Qed.

(** C3: in one run, every row of the flow batch and of the incidents
    batch that [main] hands on carries the same timestamp, hour, weekday
    name and date, all taken from the one clock reading that opens the
    run; the hour is the hour of that instant and the weekday name is a
    full English name. *)
Theorem batches_share_the_instant (w w' : world)
  (flow_df incidents_df : option DataFrame) :
  collect w = (Ret (flow_df, incidents_df), w') ->
  let t := env_clock env (ticks w) in
  In (strftime_A t) DAY_NAMES
  /\ forall df,
       flow_df = Some df \/ incidents_df = Some df ->
       forall row, In row (df_rows df) ->
         df_cell df row "timestamp" = Some (CTimestamp t)
         /\ df_cell df row "hour" = Some (CVal (PyInt (hour t)))
         /\ df_cell df row "day_of_week" = Some (CVal (PyStr (strftime_A t)))
         /\ df_cell df row "date" = Some (CDate (date_of t)).
Proof.
  intros H t. split; [apply strftime_A_is_a_day|].
  destruct (collect_inv _ _ _ _ H)
    as (fd & id & fb & ib & Hf & Hi & -> & ->).
  fold t.
  assert (Hrows : forall df, stamped t df -> forall row, In row (df_rows df) ->
            df_cell df row "timestamp" = Some (CTimestamp t)
            /\ df_cell df row "hour" = Some (CVal (PyInt (hour t)))
            /\ df_cell df row "day_of_week" = Some (CVal (PyStr (strftime_A t)))
            /\ df_cell df row "date" = Some (CDate (date_of t))).
  { intros df (H1 & H2 & H3 & H4) row Hrow. auto. }
  intros df [Hdf | Hdf].
  - destruct fb as [df0|]; [|discriminate]. injection Hdf as <-.
    apply Hrows. apply add_timestamps_stamped.
    eapply parse_with_wf. exact Hf.
  - destruct ib as [df0|]; [|discriminate]. simpl in Hdf.
    injection Hdf as <-.
    destruct (0 <? len df0)%nat eqn:Hlen.
    + apply Hrows. apply add_timestamps_stamped.
      eapply parse_with_wf. exact Hi.
    + apply Nat.ltb_ge in Hlen. unfold len in Hlen.
      destruct (df_rows df0); [intros row [] | simpl in Hlen; lia].
Qed.

Lemma str_mem_refl_all (cols : list string) :
  forallb (fun c => str_mem c cols) cols = true.
Proof.
  apply forallb_forall. intros c Hc. unfold str_mem.
  apply existsb_exists. exists c. split; auto. apply String.eqb_refl.
Qed.

Lemma to_sql_spec (df : DataFrame) (name db_name : string) (w : world) :
  let db := open_db w db_name in
  storable df = true ->
  compatible (dict_lookup name db) df = true ->
  to_sql df name db_name
    (if negb (dict_mem name db) then replace else append) w
  = (Ret tt,
     write_db w db_name (dict_set name (stored (dict_lookup name db) df) db)).
Proof.
  intros db Hs Hc. unfold to_sql, insert_rows, storable, dict_mem in *.
  fold db. destruct (dict_lookup name db) as [t|]; simpl in *.
  - rewrite Hc. destruct (first_error (List.concat (df_rows df)));
      [discriminate | reflexivity].
  - rewrite str_mem_refl_all.
    destruct (first_error (List.concat (df_rows df)));
      [discriminate | reflexivity].
Qed.

Lemma save_table_spec (batch : option DataFrame) (name kind db_name : string)
  (w : world) :
  acceptable batch name (open_db w db_name) = true ->
  save_table batch name kind db_name w
  = (Ret tt, saved_one batch name kind db_name w).
Proof.
  unfold acceptable, save_table, saved_one, persist_one.
  destruct batch as [df|]; [|reflexivity].
  destruct (0 <? len df)%nat; [|reflexivity].
  intros H. apply andb_prop in H. destruct H as [Hs Hc].
  unfold io_bind, table_exists.
  rewrite to_sql_spec by assumption. reflexivity.
Qed.

Lemma open_db_saved_one (batch : option DataFrame) (name kind db_name : string)
  (w : world) :
  open_db (saved_one batch name kind db_name w) db_name
  = persist_one batch name (open_db w db_name).
Proof.
  unfold saved_one, persist_one. destruct batch as [df|]; auto.
  destruct (0 <? len df)%nat; auto.
  unfold printed_more, open_db at 1. simpl.
  now rewrite dict_lookup_set_same.
Qed.

Lemma persist_one_other (batch : option DataFrame) (name name' : string)
  (db : database) :
  name' <> name ->
  dict_lookup name' (persist_one batch name db) = dict_lookup name' db.
Proof.
  intros Hne. unfold persist_one. destruct batch as [df|]; auto.
  destruct (0 <? len df)%nat; auto.
  now apply dict_lookup_set_other.
Qed.

Lemma acceptable_other (batch other : option DataFrame) (name name' : string)
  (db : database) :
  name <> name' ->
  acceptable batch name (persist_one other name' db) = acceptable batch name db.
Proof.
  intros Hne. unfold acceptable.
  now rewrite persist_one_other.
Qed.

Lemma open_db_touch_db (w : world) (db_name : string) :
  open_db (touch_db w db_name) db_name = open_db w db_name.
Proof.
  unfold touch_db, dict_mem, open_db.
  destruct (dict_lookup db_name (files w)) eqn:E; [now rewrite E|].
  simpl. now rewrite dict_lookup_set_same.
Qed.

Lemma open_db_connected (w : world) (db_name : string) :
  open_db (connected db_name w) db_name = open_db w db_name.
Proof. apply open_db_touch_db. Qed.

Lemma save_to_sqlite_spec (flow_df incidents_df : option DataFrame)
  (db_name : string) (w : world) :
  acceptable flow_df "traffic_flow" (open_db w db_name) = true ->
  acceptable incidents_df "traffic_incidents" (open_db w db_name) = true ->
  exists w',
    save_to_sqlite flow_df incidents_df db_name w = (Ret tt, w')
    /\ open_db w' db_name
       = persist_one incidents_df "traffic_incidents"
           (persist_one flow_df "traffic_flow" (open_db w db_name))
    /\ connections w' = connections w
    /\ ticks w' = ticks w.
Proof.
  intros Hf Hi. unfold save_to_sqlite.
  set (w0 := connected db_name w).
  assert (Hopen : open_db w0 db_name = open_db w db_name)
    by apply open_db_connected.
  set (w1 := saved_one flow_df "traffic_flow" "flow" db_name w0).
  set (w2 := saved_one incidents_df "traffic_incidents" "incident" db_name w1).
  assert (H1 : save_table flow_df "traffic_flow" "flow" db_name w0
               = (Ret tt, w1)).
  { apply save_table_spec. now rewrite Hopen. }
  assert (H2 : save_table incidents_df "traffic_incidents" "incident"
                 db_name w1 = (Ret tt, w2)).
  { apply save_table_spec. unfold w1.
    rewrite open_db_saved_one, Hopen, acceptable_other; auto. discriminate. }
  exists {| files := files w2; stdout := stdout w2; ticks := ticks w2;
            connections := pred (connections w2) |}.
  split.
  - unfold io_bind at 1.
    change (sqlite3_connect db_name w) with (Ret tt, w0). cbv iota.
    unfold io_finally, io_bind. rewrite H1, H2. reflexivity.
  - assert (Hsame : forall b n k v, connections (saved_one b n k db_name v)
                                    = connections v
                                    /\ ticks (saved_one b n k db_name v)
                                       = ticks v).
    { intros b n k v. unfold saved_one. destruct b as [df|]; auto.
      destruct (0 <? len df)%nat; auto. }
    split; [|split].
    + change (open_db w2 db_name
              = persist_one incidents_df "traffic_incidents"
                  (persist_one flow_df "traffic_flow" (open_db w db_name))).
      unfold w2, w1. now rewrite !open_db_saved_one, Hopen.
    + simpl. unfold w2, w1.
      rewrite (proj1 (Hsame _ _ _ _)), (proj1 (Hsame _ _ _ _)). reflexivity.
    + simpl. unfold w2, w1.
      rewrite (proj2 (Hsame _ _ _ _)), (proj2 (Hsame _ _ _ _)). reflexivity.
Qed.

Lemma index_of_app_skip (c : string) (pre rest : list string) :
  ~ In c pre -> index_of c (pre ++ c :: rest) = Some (List.length pre).
Proof.
  induction pre as [|c' pre IH]; simpl; intros Hnot.
  - now rewrite String.eqb_refl.
  - destruct (String.eqb_spec c c') as [->|Hne].
    + exfalso. apply Hnot. now left.
    + rewrite IH; auto.
Qed.

Lemma stored_row_split (pre cols : list string) (row_pre row : list cell) :
  NoDup (pre ++ cols) ->
  List.length row_pre = List.length pre ->
  List.length row = List.length cols ->
  map (fun c => match index_of c (pre ++ cols) with
                | Some i => nth i (row_pre ++ row) CNaN
                | None => CNaN
                end) cols
  = row.
Proof.
  revert pre row_pre row. induction cols as [|c cols IH];
    intros pre row_pre row Hnd Hpre Hrow.
  - destruct row; [reflexivity | discriminate].
  - destruct row as [|x row]; [discriminate|]. simpl map.
    rewrite index_of_app_skip
      by (apply NoDup_remove_2 in Hnd; intros Hin; apply Hnd;
          apply in_or_app; now left).
    rewrite <- Hpre, app_nth2, Nat.sub_diag by lia. simpl nth. f_equal.
    replace (pre ++ c :: cols) with ((pre ++ [c]) ++ cols)
      by now rewrite <- app_assoc.
    replace (row_pre ++ x :: row) with ((row_pre ++ [x]) ++ row)
      by now rewrite <- app_assoc.
    apply IH.
    + now rewrite <- app_assoc.
    + rewrite !length_app. simpl. lia.
    + simpl in Hrow. lia.
Qed.

Lemma stored_row_same (cols : list string) (row : list cell) :
  NoDup cols -> List.length row = List.length cols ->
  stored_row cols cols row = row.
Proof.
  intros Hnd Hlen. apply (stored_row_split [] cols [] row); auto.
Qed.

Lemma stored_rows_same (df : DataFrame) :
  NoDup (df_columns df) -> df_wf df ->
  map (stored_row (df_columns df) (df_columns df)) (df_rows df) = df_rows df.
Proof.
  intros Hnd Hwf. unfold df_wf in Hwf.
  induction (df_rows df) as [|row rows IH]; auto.
  inversion Hwf; subst. simpl. rewrite stored_row_same, IH; auto.
Qed.

(** C8: a batch that is neither absent nor empty is written to its
    table.  When the table does not exist yet it is created with exactly
    the columns of the batch and holds its rows; when it exists, the rows
    of the batch come behind the stored ones, so the table grows by the
    size of the batch and its former rows stay as they were.  (The batch
    is one the store takes: its cells can be bound and its columns are
    columns of the stored table.) *)
Theorem persist_creates_then_appends (flow_df incidents_df : option DataFrame)
  (db_name : string) (w : world) :
  let db := open_db w db_name in
  acceptable flow_df "traffic_flow" db = true ->
  acceptable incidents_df "traffic_incidents" db = true ->
  exists w',
    save_to_sqlite flow_df incidents_df db_name w = (Ret tt, w')
    /\ forall name df,
         (name = "traffic_flow" /\ flow_df = Some df)
         \/ (name = "traffic_incidents" /\ incidents_df = Some df) ->
         (0 < len df)%nat ->
         exists t',
           dict_lookup name (open_db w' db_name) = Some t'
           /\ match dict_lookup name db with
              | None =>
                  t_columns t' = df_columns df
                  /\ List.length (t_rows t') = len df
                  /\ (NoDup (df_columns df) -> df_wf df ->
                      t_rows t' = df_rows df)
              | Some t =>
                  t_columns t' = t_columns t
                  /\ t_rows t'
                     = t_rows t
                       ++ map (stored_row (t_columns t) (df_columns df))
                              (df_rows df)
                  /\ List.length (t_rows t')
                     = (List.length (t_rows t) + len df)%nat
                  /\ firstn (List.length (t_rows t)) (t_rows t') = t_rows t
              end.
Proof.
  intros db Hf Hi.
  destruct (save_to_sqlite_spec flow_df incidents_df db_name w Hf Hi)
    as (w' & Hrun & Hdb & _).
  exists w'. split; [exact Hrun|].
  fold db in Hdb. rewrite Hdb.
  assert (Hstored : forall t df,
            match t with
            | None =>
                t_columns (stored t df) = df_columns df
                /\ List.length (t_rows (stored t df)) = len df
                /\ (NoDup (df_columns df) -> df_wf df ->
                    t_rows (stored t df) = df_rows df)
            | Some t0 =>
                t_columns (stored t df) = t_columns t0
                /\ t_rows (stored t df)
                   = t_rows t0
                     ++ map (stored_row (t_columns t0) (df_columns df))
                            (df_rows df)
                /\ List.length (t_rows (stored t df))
                   = (List.length (t_rows t0) + len df)%nat
                /\ firstn (List.length (t_rows t0)) (t_rows (stored t df))
                   = t_rows t0
            end).
  { intros [t0|] df; simpl.
    - repeat split.
      + now rewrite length_app, length_map.
      + rewrite firstn_app, Nat.sub_diag, firstn_all. simpl.
        now rewrite app_nil_r.
    - repeat split.
      + now rewrite length_map.
      + apply stored_rows_same. }
  intros name df [[-> ->] | [-> ->]] Hlen;
    apply Nat.ltb_lt in Hlen.
  - exists (stored (dict_lookup "traffic_flow" db) df). split.
    + rewrite persist_one_other by discriminate.
      unfold persist_one. rewrite Hlen. apply dict_lookup_set_same.
    + apply Hstored.
  - exists (stored (dict_lookup "traffic_incidents" db) df). split.
    + unfold persist_one at 1. rewrite Hlen.
      rewrite persist_one_other by discriminate.
      apply dict_lookup_set_same.
    + apply Hstored.
Qed.

Lemma non_200_gives_nothing (r : response) :
  status_code r <> 200%Z -> gives_nothing r.
Proof.
  intros H. apply Z.eqb_neq in H. exists PyNone.
  unfold fetched. rewrite H. auto.
Qed.

Lemma collect_run (w : world) (flow_response incidents_response : response)
  (flow_data incidents_data : pyval)
  (flow_batch incidents_batch : option DataFrame) :
  env_http env TRAFFIC_FLOW_URL (query_params BBOX HERE_API_KEY)
  = Ret flow_response ->
  env_http env TRAFFIC_INCIDENTS_URL (query_params BBOX HERE_API_KEY)
  = Ret incidents_response ->
  fetched flow_response = Ret flow_data ->
  fetched incidents_response = Ret incidents_data ->
  parse_traffic_flow_to_dataframe flow_data = Ret flow_batch ->
  parse_incidents_to_dataframe incidents_data = Ret incidents_batch ->
  exists w1,
    collect w
    = (Ret (stamp_flow (env_clock env (ticks w)) flow_batch,
            stamp_incidents (env_clock env (ticks w)) incidents_batch), w1)
    /\ files w1 = files w
    /\ connections w1 = connections w
    /\ ticks w1 = S (ticks w).
Proof.
  intros Hrf Hri Hvf Hvi Hbf Hbi. unfold collect.
  erewrite io_bind_ret by reflexivity.
  do 3 (erewrite io_bind_ret by apply print_spec).
  erewrite io_bind_ret
    by (rewrite fetch_traffic_flow_spec, Hrf, Hvf; reflexivity).
  erewrite io_bind_ret
    by (rewrite fetch_traffic_incidents_spec, Hri, Hvi; reflexivity).
  erewrite io_bind_ret by (unfold io_lift; rewrite Hbf; reflexivity).
  erewrite io_bind_ret by (unfold io_lift; rewrite Hbi; reflexivity).
  destruct flow_batch as [fdf|]; destruct incidents_batch as [idf|];
    simpl stamp_flow; simpl stamp_incidents;
    try destruct (0 <? len idf)%nat;
    repeat (erewrite io_bind_ret by (apply print_spec || reflexivity));
    unfold io_ret; eexists; split; try reflexivity; simpl; auto.
Qed.

Lemma main_run (w : world) (flow_response incidents_response : response)
  (flow_data incidents_data : pyval)
  (flow_batch incidents_batch : option DataFrame) :
  let t := env_clock env (ticks w) in
  let db := open_db w DB_NAME in
  env_http env TRAFFIC_FLOW_URL (query_params BBOX HERE_API_KEY)
  = Ret flow_response ->
  env_http env TRAFFIC_INCIDENTS_URL (query_params BBOX HERE_API_KEY)
  = Ret incidents_response ->
  fetched flow_response = Ret flow_data ->
  fetched incidents_response = Ret incidents_data ->
  parse_traffic_flow_to_dataframe flow_data = Ret flow_batch ->
  parse_incidents_to_dataframe incidents_data = Ret incidents_batch ->
  acceptable (stamp_flow t flow_batch) "traffic_flow" db = true ->
  acceptable (stamp_incidents t incidents_batch) "traffic_incidents" db = true ->
  exists w',
    main w = (Ret tt, w')
    /\ open_db w' DB_NAME
       = persist_one (stamp_incidents t incidents_batch) "traffic_incidents"
           (persist_one (stamp_flow t flow_batch) "traffic_flow" db).
Proof.
  intros t db Hrf Hri Hvf Hvi Hbf Hbi Haf Hai.
  destruct (collect_run w _ _ _ _ _ _ Hrf Hri Hvf Hvi Hbf Hbi)
    as (w1 & Hcollect & Hfiles & _).
  assert (Hopen : open_db w1 DB_NAME = db)
    by (unfold db, open_db; now rewrite Hfiles).
  fold t in Hcollect.
  destruct (save_to_sqlite_spec (stamp_flow t flow_batch)
              (stamp_incidents t incidents_batch) DB_NAME w1)
    as (w2 & Hsave & Hdb & _); try (rewrite Hopen; assumption).
  unfold main.
  erewrite io_bind_ret by exact Hcollect. simpl fst. simpl snd.
  erewrite io_bind_ret by exact Hsave.
  erewrite io_bind_ret by reflexivity.
  rewrite print_spec. eexists. split; [reflexivity|].
  rewrite <- Hopen, <- Hdb. reflexivity.
Qed.

Lemma main_raises_with_flow_fetch (w : world) (e : exn) :
  env_http env TRAFFIC_FLOW_URL (query_params BBOX HERE_API_KEY) = Raise e ->
  exists w', main w = (Raise e, w') /\ files w' = files w.
Proof.
  intros He. unfold main, collect.
  eexists. split.
  - erewrite io_bind_raise; [reflexivity|].
    erewrite io_bind_ret by reflexivity.
    do 3 (erewrite io_bind_ret by apply print_spec).
    erewrite io_bind_raise; [reflexivity|].
    rewrite fetch_traffic_flow_spec, He. reflexivity.
  - reflexivity.
Qed.

Lemma main_raises_with_incidents_fetch (w : world) (r : response) (v : pyval)
  (e : exn) :
  env_http env TRAFFIC_FLOW_URL (query_params BBOX HERE_API_KEY) = Ret r ->
  fetched r = Ret v ->
  env_http env TRAFFIC_INCIDENTS_URL (query_params BBOX HERE_API_KEY)
  = Raise e ->
  exists w', main w = (Raise e, w') /\ files w' = files w.
Proof.
  intros Hr Hv He. unfold main, collect.
  eexists. split.
  - erewrite io_bind_raise; [reflexivity|].
    erewrite io_bind_ret by reflexivity.
    do 3 (erewrite io_bind_ret by apply print_spec).
    erewrite io_bind_ret
      by (rewrite fetch_traffic_flow_spec, Hr, Hv; reflexivity).
    erewrite io_bind_raise; [reflexivity|].
    rewrite fetch_traffic_incidents_spec, He. reflexivity.
  - reflexivity.
Qed.

Lemma enriched_len (fields : list (string * (list string * pyval)))
  (entities : list pyval) (t : datetime) :
  len (enriched fields entities t) = List.length entities.
Proof.
  unfold enriched. now rewrite add_timestamps_len, pd_DataFrame_len, length_map.
Qed.

Lemma stored_length (t : option table) (df : DataFrame) :
  List.length (t_rows (stored t df))
  = (List.length (rows_of t) + len df)%nat.
Proof.
  destruct t as [t|]; simpl.
  - now rewrite length_app, length_map.
  - now rewrite length_map.
Qed.

Lemma fetched_ok (r : response) (data : pyval) :
  status_code r = 200%Z -> json_body r = Some data -> fetched r = Ret data.
Proof. unfold fetched. now intros -> ->. Qed.

Lemma gives_nothing_parses_to_none (r : response) (body : pyval -> exc dict) :
  gives_nothing r ->
  exists v, fetched r = Ret v /\ parse_with body v = Ret None.
Proof.
  intros (v & Hv & Hnone). exists v. split; auto.
  now apply parse_with_absent.
Qed.

Lemma persist_none (name : string) (db : database) :
  persist_one None name db = db.
Proof. reflexivity. Qed.

Lemma persisted_batch (fields : list (string * (list string * pyval)))
  (entities : list pyval) (t : datetime) (name : string) (db : database) :
  entities <> [] ->
  exists tbl,
    dict_lookup name (persist_one (Some (enriched fields entities t)) name db)
    = Some tbl
    /\ List.length (t_rows tbl)
       = (List.length (rows_of (dict_lookup name db))
          + List.length entities)%nat.
Proof.
  intros Hne. unfold persist_one.
  assert (Hlen : (0 <? len (enriched fields entities t))%nat = true).
  { apply Nat.ltb_lt. rewrite enriched_len.
    destruct entities; [contradiction | simpl; lia]. }
  rewrite Hlen. eexists. split; [apply dict_lookup_set_same|].
  now rewrite stored_length, enriched_len.
Qed.

(** C4 (amended): a fetch of one kind that comes back with a status
    other than 200, or with a document without [results], does not keep
    the other kind from being collected and stored: the run ends without
    an exception, the table of the failed kind is as it was, and the table
    of the other kind has one more row per fetched entity.  An exception
    of the HTTP client, in either fetch, ends the run with that exception
    and with the files as they were. *)
Theorem failed_fetch_spares_the_other_kind (w : world) (failed ok : response)
  (data : pyval) (entities : list pyval) :
  let t := env_clock env (ticks w) in
  let db := open_db w DB_NAME in
  let params := query_params BBOX HERE_API_KEY in
  gives_nothing failed ->
  status_code ok = 200%Z ->
  json_body ok = Some data ->
  nested data ["results"] = Some (PyList entities) ->
  entities <> [] ->
  (env_http env TRAFFIC_FLOW_URL params = Ret failed ->
   env_http env TRAFFIC_INCIDENTS_URL params = Ret ok ->
   forallb incident_entity entities = true ->
   acceptable (Some (enriched INCIDENT_FIELDS entities t))
     "traffic_incidents" db = true ->
   exists w' tbl,
     main w = (Ret tt, w')
     /\ dict_lookup "traffic_flow" (open_db w' DB_NAME)
        = dict_lookup "traffic_flow" db
     /\ dict_lookup "traffic_incidents" (open_db w' DB_NAME) = Some tbl
     /\ List.length (t_rows tbl)
        = (List.length (rows_of (dict_lookup "traffic_incidents" db))
           + List.length entities)%nat)
  /\ (env_http env TRAFFIC_FLOW_URL params = Ret ok ->
      env_http env TRAFFIC_INCIDENTS_URL params = Ret failed ->
      forallb flow_entity entities = true ->
      acceptable (Some (enriched FLOW_FIELDS entities t))
        "traffic_flow" db = true ->
      exists w' tbl,
        main w = (Ret tt, w')
        /\ dict_lookup "traffic_incidents" (open_db w' DB_NAME)
           = dict_lookup "traffic_incidents" db
        /\ dict_lookup "traffic_flow" (open_db w' DB_NAME) = Some tbl
        /\ List.length (t_rows tbl)
           = (List.length (rows_of (dict_lookup "traffic_flow" db))
              + List.length entities)%nat)
  /\ (forall e,
        (env_http env TRAFFIC_FLOW_URL params = Raise e ->
         exists w', main w = (Raise e, w') /\ files w' = files w)
        /\ (env_http env TRAFFIC_FLOW_URL params = Ret ok ->
            env_http env TRAFFIC_INCIDENTS_URL params = Raise e ->
            exists w', main w = (Raise e, w') /\ files w' = files w)).
Proof.
  intros t db params Hfailed Hstatus Hbody Hres Hne.
  pose proof (fetched_ok ok data Hstatus Hbody) as Hok.
  assert (Hlen : forall fields,
            (0 <? len (pd_DataFrame (map (record_of fields) entities)))%nat
            = true).
  { intros fields. apply Nat.ltb_lt. rewrite pd_DataFrame_len, length_map.
    destruct entities; [contradiction | simpl; lia]. }
  split; [|split].
  - intros Hrf Hri Hshape Hacc.
    destruct (gives_nothing_parses_to_none failed flow_record Hfailed)
      as (v & Hv & Hnone).
    assert (Hparse : parse_incidents_to_dataframe data
                     = Ret (Some (pd_DataFrame
                                    (map (record_of INCIDENT_FIELDS) entities)))).
    { apply parse_with_spec; auto. intros e He.
      apply incident_record_spec. eapply forallb_In; eassumption. }
    destruct (main_run w failed ok v data None _ Hrf Hri Hv Hok Hnone Hparse)
      as (w' & Hmain & Hdb).
    + reflexivity.
    + simpl stamp_incidents. rewrite Hlen. exact Hacc.
    + simpl stamp_incidents in Hdb. rewrite Hlen in Hdb.
      change (stamp_flow (env_clock env (ticks w)) None)
        with (@None DataFrame) in Hdb.
      rewrite persist_none in Hdb.
      change (add_timestamps
                (pd_DataFrame (map (record_of INCIDENT_FIELDS) entities))
                (env_clock env (ticks w)))
        with (enriched INCIDENT_FIELDS entities t) in Hdb.
      fold db in Hdb.
      destruct (persisted_batch INCIDENT_FIELDS entities t
                  "traffic_incidents" db Hne) as (tbl & Htbl & Hrows).
      exists w', tbl. rewrite Hdb. repeat split; auto.
      apply persist_one_other. discriminate.
  - intros Hrf Hri Hshape Hacc.
    destruct (gives_nothing_parses_to_none failed incident_record Hfailed)
      as (v & Hv & Hnone).
    assert (Hparse : parse_traffic_flow_to_dataframe data
                     = Ret (Some (pd_DataFrame
                                    (map (record_of FLOW_FIELDS) entities)))).
    { apply parse_with_spec; auto. intros e He.
      apply flow_record_spec. eapply forallb_In; eassumption. }
    destruct (main_run w ok failed data v _ None Hrf Hri Hok Hv Hparse Hnone)
      as (w' & Hmain & Hdb).
    + exact Hacc.
    + reflexivity.
    + change (stamp_incidents (env_clock env (ticks w)) None)
        with (@None DataFrame) in Hdb.
      change (stamp_flow (env_clock env (ticks w))
                (Some (pd_DataFrame (map (record_of FLOW_FIELDS) entities))))
        with (Some (enriched FLOW_FIELDS entities t)) in Hdb.
      rewrite persist_none in Hdb. fold db in Hdb.
      destruct (persisted_batch FLOW_FIELDS entities t
                  "traffic_flow" db Hne) as (tbl & Htbl & Hrows).
      exists w', tbl. rewrite Hdb. repeat split; auto.
      apply persist_one_other. discriminate.
  - intros e. split.
    + apply main_raises_with_flow_fetch.
    + intros Hr He. eapply main_raises_with_incidents_fetch; eassumption.
Qed.

(** * Further properties *)

(** ** The store, on every path *)

Lemma open_db_written (w : world) (db_name : string) (db : database) :
  open_db (write_db w db_name db) db_name = db.
Proof. unfold open_db, write_db. simpl. now rewrite dict_lookup_set_same. Qed.

Lemma save_table_cases (df : DataFrame) (name kind db_name : string)
  (w : world) :
  (0 < len df)%nat ->
  save_table (Some df) name kind db_name w
  = match insert_rows
            (target_table (dict_lookup name (open_db w db_name)) df) df with
    | Ret t1 =>
        (Ret tt,
         printed_more
           (write_db w db_name (dict_set name t1 (open_db w db_name)))
           [check_mark +++ " Saved " +++ int_repr (Z.of_nat (len df))
            +++ " " +++ kind +++ " records"])
    | Raise e =>
        (Raise e,
         write_db w db_name
           (dict_set name
              (target_table (dict_lookup name (open_db w db_name)) df)
              (open_db w db_name)))
    end.
Proof.
  intros Hlen. apply Nat.ltb_lt in Hlen.
  unfold save_table. rewrite Hlen.
  unfold io_bind, table_exists, to_sql, dict_mem, target_table.
  destruct (dict_lookup name (open_db w db_name)) as [t|]; simpl;
    match goal with
    | |- context [insert_rows ?t0 df] => destruct (insert_rows t0 df)
    end; reflexivity.
Qed.

Lemma save_table_idle (batch : option DataFrame) (name kind db_name : string)
  (w : world) :
  to_write batch = None ->
  save_table batch name kind db_name w = (Ret tt, w).
Proof.
  unfold to_write, save_table. destruct batch as [df|]; auto.
  destruct (0 <? len df)%nat; [discriminate | reflexivity].
Qed.

Lemma insert_rows_extends (t t1 : table) (df : DataFrame) :
  insert_rows t df = Ret t1 -> extends t t1.
Proof.
  unfold insert_rows, extends.
  destruct (forallb _ (df_columns df)); [|discriminate].
  destruct (first_error _); [discriminate|].
  intros [= <-]. simpl. eauto.
Qed.

Lemma extends_refl (t : table) : extends t t.
Proof. split; auto. exists []. now rewrite app_nil_r. Qed.

Lemma extends_trans (t1 t2 t3 : table) :
  extends t1 t2 -> extends t2 t3 -> extends t1 t3.
Proof.
  intros [Hc1 [m1 Hr1]] [Hc2 [m2 Hr2]]. split; [congruence|].
  exists (m1 ++ m2). now rewrite Hr2, Hr1, <- app_assoc.
Qed.

Lemma db_extends_refl (db : database) : db_extends db db.
Proof. intros name t H. exists t. split; auto using extends_refl. Qed.

Lemma db_extends_trans (db1 db2 db3 : database) :
  db_extends db1 db2 -> db_extends db2 db3 -> db_extends db1 db3.
Proof.
  intros H12 H23 name t H.
  destruct (H12 name t H) as (t2 & H2 & He2).
  destruct (H23 name t2 H2) as (t3 & H3 & He3).
  exists t3. split; eauto using extends_trans.
Qed.

Lemma db_extends_set (db : database) (name : string) (t' : table) :
  (forall t, dict_lookup name db = Some t -> extends t t') ->
  db_extends db (dict_set name t' db).
Proof.
  intros H name' t Ht. destruct (string_dec name' name) as [->|Hne].
  - exists t'. split; [apply dict_lookup_set_same | auto].
  - exists t. rewrite dict_lookup_set_other by assumption.
    split; auto using extends_refl.
Qed.

Lemma store_step_refl (db_name : string) (names : list string) (w : world) :
  store_step db_name names w w.
Proof. repeat split; auto using db_extends_refl. Qed.

Lemma store_step_trans (db_name : string) (names : list string)
  (w1 w2 w3 : world) :
  store_step db_name names w1 w2 -> store_step db_name names w2 w3 ->
  store_step db_name names w1 w3.
Proof.
  intros (Ht1 & Hf1 & Hn1 & He1) (Ht2 & Hf2 & Hn2 & He2).
  split; [congruence|]. split; [|split].
  - intros other Ho. now rewrite Hf2, Hf1.
  - intros name Hn. now rewrite Hn2, Hn1.
  - eauto using db_extends_trans.
Qed.

Lemma store_step_write (db_name name : string) (names : list string)
  (w : world) (t' : table) :
  In name names ->
  (forall t, dict_lookup name (open_db w db_name) = Some t -> extends t t') ->
  store_step db_name names w
    (write_db w db_name (dict_set name t' (open_db w db_name))).
Proof.
  intros Hin Hext. split; [reflexivity|]. split; [|split].
  - intros other Ho. unfold write_db. simpl.
    now apply dict_lookup_set_other.
  - intros name' Hn. rewrite open_db_written.
    apply dict_lookup_set_other. intros ->. contradiction.
  - rewrite open_db_written. now apply db_extends_set.
Qed.

(** Whatever it is given and however it ends, [save_table] only extends
    its own table of its own file and opens or closes no connection. *)
Lemma save_table_step (batch : option DataFrame) (name kind db_name : string)
  (names : list string) (w : world) :
  In name names ->
  store_step db_name names w (snd (save_table batch name kind db_name w))
  /\ connections (snd (save_table batch name kind db_name w)) = connections w.
Proof.
  intros Hin. destruct (to_write batch) as [df|] eqn:Hw.
  - unfold to_write in Hw. destruct batch as [df'|]; [|discriminate].
    destruct (0 <? len df')%nat eqn:Hlen; [|discriminate].
    injection Hw as ->. apply Nat.ltb_lt in Hlen.
    rewrite save_table_cases by assumption.
    destruct (insert_rows _ df) as [t1|e] eqn:Hins; simpl.
    + split; [|reflexivity].
      apply store_step_trans
        with (w2 := write_db w db_name (dict_set name t1 (open_db w db_name))).
      * apply store_step_write; auto. intros t Ht.
        rewrite Ht in Hins. simpl in Hins.
        eapply insert_rows_extends; eassumption.
      * repeat split; auto using db_extends_refl.
    + split; [|reflexivity].
      apply store_step_write; auto. intros t Ht. rewrite Ht. simpl.
      apply extends_refl.
  - rewrite save_table_idle by assumption. simpl.
    split; [apply store_step_refl | reflexivity].
Qed.

(** [save_to_sqlite] on every path: the result and the world it leaves,
    by the two calls of [save_table]. *)
Lemma save_to_sqlite_cases (flow_df incidents_df : option DataFrame)
  (db_name : string) (w : world) :
  save_to_sqlite flow_df incidents_df db_name w
  = match save_table flow_df "traffic_flow" "flow" db_name (connected db_name w) with
    | (Ret _, w1) =>
        let (r, w2) :=
          save_table incidents_df "traffic_incidents" "incident" db_name w1 in
        (r, closed w2)
    | (Raise e, w1) => (Raise e, closed w1)
    end.
Proof.
  unfold save_to_sqlite.
  unfold io_bind at 1.
  change (sqlite3_connect db_name w) with (Ret tt, connected db_name w).
  cbv iota.
  unfold io_finally, io_bind, conn_close.
  destruct (save_table flow_df "traffic_flow" "flow" db_name (connected db_name w))
    as [[u|e] w1]; [|reflexivity].
  destruct (save_table incidents_df "traffic_incidents" "incident" db_name w1)
    as [r w2]. reflexivity.
Qed.

Lemma insert_rows_refused (t : table) (df : DataFrame) :
  storable df && compatible (Some t) df = false ->
  exists e, insert_rows t df = Raise e.
Proof.
  unfold storable, compatible, insert_rows. intros H.
  destruct (forallb _ (df_columns df)); [|eauto].
  destruct (first_error _) as [e|]; [eauto | discriminate].
Qed.

Lemma save_table_refused (df : DataFrame) (name kind db_name : string)
  (w : world) (t : table) :
  (0 < len df)%nat ->
  dict_lookup name (open_db w db_name) = Some t ->
  storable df && compatible (Some t) df = false ->
  exists e,
    save_table (Some df) name kind db_name w
    = (Raise e, write_db w db_name (dict_set name t (open_db w db_name))).
Proof.
  intros Hlen Ht Hbad. rewrite save_table_cases by assumption.
  rewrite Ht. simpl target_table.
  destruct (insert_rows_refused t df Hbad) as [e ->]. eauto.
Qed.

Lemma lookup_after_rewrite (w : world) (db_name name name' : string)
  (t : table) :
  dict_lookup name (open_db w db_name) = Some t ->
  dict_lookup name'
    (open_db (write_db w db_name (dict_set name t (open_db w db_name))) db_name)
  = dict_lookup name' (open_db w db_name).
Proof.
  intros Ht. rewrite open_db_written.
  destruct (string_dec name' name) as [->|Hne].
  - now rewrite dict_lookup_set_same.
  - now apply dict_lookup_set_other.
Qed.

(** X1: [save_to_sqlite] closes the connection it opened on every path:
    whatever the batches and the file hold, and whether it returns or
    raises, as many connections are open after it as before. *)
Theorem connection_always_released (flow_df incidents_df : option DataFrame)
  (db_name : string) (w : world) :
  connections (snd (save_to_sqlite flow_df incidents_df db_name w))
  = connections w.
Proof.
  rewrite save_to_sqlite_cases.
  pose proof (save_table_step flow_df "traffic_flow" "flow" db_name TABLES
                (connected db_name w) (or_introl eq_refl)) as [_ Hf].
  destruct (save_table flow_df "traffic_flow" "flow" db_name (connected db_name w))
    as [[u|e] w1]; simpl in Hf.
  - pose proof (save_table_step incidents_df "traffic_incidents" "incident"
                  db_name TABLES w1 (or_intror (or_introl eq_refl))) as [_ Hi].
    destruct (save_table incidents_df "traffic_incidents" "incident"
                db_name w1) as [r w2]; simpl in Hi.
    simpl. now rewrite Hi, Hf.
  - simpl. now rewrite Hf.
Qed.

Lemma touch_db_lookup (w : world) (db_name : string) :
  dict_lookup db_name (files (touch_db w db_name)) = Some (open_db w db_name).
Proof.
  unfold touch_db, dict_mem, open_db.
  destruct (dict_lookup db_name (files w)) eqn:E; [exact E|].
  simpl. apply dict_lookup_set_same.
Qed.

Lemma touch_db_other (w : world) (db_name other : string) :
  other <> db_name ->
  dict_lookup other (files (touch_db w db_name)) = dict_lookup other (files w).
Proof.
  intros Ho. unfold touch_db.
  destruct (dict_mem db_name (files w)); [reflexivity|].
  simpl. now apply dict_lookup_set_other.
Qed.

Lemma touch_db_there (w : world) (db_name : string) :
  dict_mem db_name (files w) = true -> touch_db w db_name = w.
Proof. unfold touch_db. now intros ->. Qed.

Lemma store_step_connect (db_name : string) (names : list string) (w : world) :
  store_step db_name names w (connected db_name w).
Proof.
  split; [reflexivity|]. split; [|split].
  - intros other Ho. now apply touch_db_other.
  - intros name _. now rewrite open_db_connected.
  - rewrite open_db_connected. apply db_extends_refl.
Qed.

Lemma save_to_sqlite_step (flow_df incidents_df : option DataFrame)
  (db_name : string) (w : world) :
  store_step db_name TABLES w
    (snd (save_to_sqlite flow_df incidents_df db_name w)).
Proof.
  rewrite save_to_sqlite_cases.
  pose proof (save_table_step flow_df "traffic_flow" "flow" db_name TABLES
                (connected db_name w) (or_introl eq_refl)) as [Hf _].
  destruct (save_table flow_df "traffic_flow" "flow" db_name (connected db_name w))
    as [[u|e] w1]; simpl in Hf.
  - pose proof (save_table_step incidents_df "traffic_incidents" "incident"
                  db_name TABLES w1 (or_intror (or_introl eq_refl))) as [Hi _].
    destruct (save_table incidents_df "traffic_incidents" "incident"
                db_name w1) as [r w2]; simpl in Hi.
    simpl. apply store_step_trans with (w2 := connected db_name w);
      [apply store_step_connect|].
    exact (store_step_trans _ _ _ _ _ Hf Hi).
  - simpl. apply store_step_trans with (w2 := connected db_name w);
      [apply store_step_connect | exact Hf].
Qed.

(** X2: [save_to_sqlite] only ever adds rows.  On every path, files other
    than the one it is given and tables other than [traffic_flow] and
    [traffic_incidents] are left as they were, and every table that was
    stored is still there with the same columns and with its former rows
    first, unchanged. *)
Theorem store_only_grows (flow_df incidents_df : option DataFrame)
  (db_name : string) (w : world) :
  let w' := snd (save_to_sqlite flow_df incidents_df db_name w) in
  (forall other, other <> db_name ->
     dict_lookup other (files w') = dict_lookup other (files w))
  /\ (forall name, name <> "traffic_flow" -> name <> "traffic_incidents" ->
        dict_lookup name (open_db w' db_name)
        = dict_lookup name (open_db w db_name))
  /\ (forall name t,
        dict_lookup name (open_db w db_name) = Some t ->
        exists t',
          dict_lookup name (open_db w' db_name) = Some t'
          /\ t_columns t' = t_columns t
          /\ firstn (List.length (t_rows t)) (t_rows t') = t_rows t).
Proof.
  intros w'.
  destruct (save_to_sqlite_step flow_df incidents_df db_name w)
    as (_ & Hfiles & Hnames & Hext).
  fold w' in Hfiles, Hnames, Hext.
  split; [exact Hfiles|]. split.
  - intros name Hf Hi. apply Hnames. intros [H|[H|[]]]; congruence.
  - intros name t Ht. destruct (Hext name t Ht) as (t' & Ht' & Hc & more & Hr).
    exists t'. split; [exact Ht'|]. split; [exact Hc|].
    rewrite Hr, firstn_app, Nat.sub_diag, firstn_all. simpl.
    apply app_nil_r.
Qed.

(** X3: there is no transaction over the two tables.  When the flow batch
    is taken and the incidents batch is refused by its stored table (a
    column the table lacks, or a cell that cannot be bound),
    [save_to_sqlite] raises, the flow rows stay written and the incidents
    table is as it was. *)
Theorem refused_incidents_keep_flow (flow_df : option DataFrame)
  (incidents_df : DataFrame) (db_name : string) (w : world) (t : table) :
  let db := open_db w db_name in
  acceptable flow_df "traffic_flow" db = true ->
  (0 < len incidents_df)%nat ->
  dict_lookup "traffic_incidents" db = Some t ->
  storable incidents_df && compatible (Some t) incidents_df = false ->
  exists e w',
    save_to_sqlite flow_df (Some incidents_df) db_name w = (Raise e, w')
    /\ dict_lookup "traffic_flow" (open_db w' db_name)
       = dict_lookup "traffic_flow" (persist_one flow_df "traffic_flow" db)
    /\ dict_lookup "traffic_incidents" (open_db w' db_name) = Some t.
Proof.
  intros db Hflow Hlen Ht Hbad.
  assert (Hopen : open_db (connected db_name w) db_name = db)
    by apply open_db_connected.
  rewrite save_to_sqlite_cases.
  rewrite save_table_spec by (rewrite Hopen; exact Hflow).
  set (w1 := saved_one flow_df "traffic_flow" "flow" db_name (connected db_name w)).
  assert (Hdb1 : open_db w1 db_name = persist_one flow_df "traffic_flow" db)
    by (unfold w1; now rewrite open_db_saved_one, Hopen).
  assert (Ht1 : dict_lookup "traffic_incidents" (open_db w1 db_name) = Some t)
    by (rewrite Hdb1, persist_one_other; [exact Ht | discriminate]).
  destruct (save_table_refused incidents_df "traffic_incidents" "incident"
              db_name w1 t Hlen Ht1 Hbad) as [e He].
  rewrite He. eexists. eexists. split; [reflexivity|].
  change (open_db (closed ?v) db_name) with (open_db v db_name).
  split.
  - rewrite (lookup_after_rewrite w1 db_name _ _ t Ht1). now rewrite Hdb1.
  - rewrite (lookup_after_rewrite w1 db_name _ _ t Ht1). exact Ht1.
Qed.

(** X4: the flow table is written first, and a refused flow batch ends
    the function: [save_to_sqlite] raises, prints nothing, and neither
    table changes, whatever the incidents batch holds. *)
Theorem refused_flow_skips_incidents (flow_df : DataFrame)
  (incidents_df : option DataFrame) (db_name : string) (w : world)
  (t : table) :
  let db := open_db w db_name in
  (0 < len flow_df)%nat ->
  dict_lookup "traffic_flow" db = Some t ->
  storable flow_df && compatible (Some t) flow_df = false ->
  exists e w',
    save_to_sqlite (Some flow_df) incidents_df db_name w = (Raise e, w')
    /\ stdout w' = stdout w
    /\ dict_lookup "traffic_flow" (open_db w' db_name) = Some t
    /\ dict_lookup "traffic_incidents" (open_db w' db_name)
       = dict_lookup "traffic_incidents" db.
Proof.
  intros db Hlen Ht Hbad.
  assert (Ht0 : dict_lookup "traffic_flow" (open_db (connected db_name w) db_name)
                = Some t) by (rewrite open_db_connected; exact Ht).
  rewrite save_to_sqlite_cases.
  destruct (save_table_refused flow_df "traffic_flow" "flow" db_name
              (connected db_name w) t Hlen Ht0 Hbad) as [e He].
  rewrite He. eexists. eexists. split; [reflexivity|].
  split; [reflexivity|].
  change (open_db (closed ?v) db_name) with (open_db v db_name).
  split.
  - rewrite (lookup_after_rewrite (connected db_name w) db_name _ _ t Ht0). exact Ht0.
  - rewrite (lookup_after_rewrite (connected db_name w) db_name _ _ t Ht0).
    now rewrite open_db_connected.
Qed.

Lemma save_to_sqlite_idle (flow_df incidents_df : option DataFrame)
  (db_name : string) (w : world) :
  to_write flow_df = None ->
  to_write incidents_df = None ->
  save_to_sqlite flow_df incidents_df db_name w
  = (Ret tt, closed (connected db_name w)).
Proof.
  intros Hf Hi. rewrite save_to_sqlite_cases.
  rewrite (save_table_idle flow_df) by assumption.
  now rewrite (save_table_idle incidents_df) by assumption.
Qed.

(** X5: with nothing to write, the file is opened and nothing else
    happens.  When each batch is absent or has no rows, [save_to_sqlite]
    returns, prints no line, leaves every other file alone and releases
    its connection; the file it is given holds afterwards what it held
    before, no table at all when [sqlite3.connect] had to create it; and
    when the file was there, the world is exactly as it was. *)
Theorem nothing_to_write_only_opens_the_file
  (flow_df incidents_df : option DataFrame) (db_name : string) (w : world) :
  to_write flow_df = None ->
  to_write incidents_df = None ->
  exists w',
    save_to_sqlite flow_df incidents_df db_name w = (Ret tt, w')
    /\ stdout w' = stdout w
    /\ ticks w' = ticks w
    /\ connections w' = connections w
    /\ (forall other, other <> db_name ->
          dict_lookup other (files w') = dict_lookup other (files w))
    /\ dict_lookup db_name (files w') = Some (open_db w db_name)
    /\ (dict_mem db_name (files w) = true -> w' = w).
Proof.
  intros Hf Hi. rewrite save_to_sqlite_idle by assumption.
  eexists. split; [reflexivity|].
  split; [reflexivity|]. split; [reflexivity|]. split; [reflexivity|].
  split; [|split].
  - intros other Ho. now apply touch_db_other.
  - apply touch_db_lookup.
  - intros Hthere. unfold closed, connected.
    rewrite touch_db_there by assumption. destruct w. reflexivity.
Qed.

(** ** Records and tables, whatever the entity *)

Lemma exc_bind_inv {A B} (c : exc A) (k : A -> exc B) (b : B) :
  exc_bind c k = Ret b -> exists a, c = Ret a /\ k a = Ret b.
Proof. destruct c as [a|e]; simpl; [eauto | discriminate]. Qed.

(** One step back through a bind of [exc] that returned. *)
Ltac exc_inv H a :=
  apply exc_bind_inv in H; destruct H as (a & _ & H).

Lemma store_geometry_result (location : pyval) (record record' : dict) :
  store_geometry location record = Ret record' ->
  record' = record
  \/ exists text, record' = dict_set "geometry" (PyStr text) record.
Proof.
  unfold store_geometry. intros H.
  exc_inv H has_shape. exc_inv H has_links.
  destruct has_links.
  - exc_inv H shape. exc_inv H links. exc_inv H it. exc_inv H coords.
    injection H as <-. right. eauto.
  - injection H as <-. now left.
Qed.

Lemma flow_record_keys (entity : pyval) (record : dict) :
  flow_record entity = Ret record ->
  record_keys FLOW_LABELS record
  /\ forall v, dict_lookup "geometry" record = Some v ->
       exists text, v = PyStr text.
Proof.
  unfold flow_record. intros H.
  exc_inv H location. exc_inv H current_flow. exc_inv H v1. exc_inv H v2.
  exc_inv H v3. exc_inv H v4. exc_inv H v5. exc_inv H v6. exc_inv H v7.
  apply store_geometry_result in H. destruct H as [-> | [text ->]].
  - split; [now left | intros v [=]].
  - split; [now right | intros v [= <-]; eauto].
Qed.

Lemma incident_record_keys (entity : pyval) (record : dict) :
  incident_record entity = Ret record ->
  record_keys INCIDENT_LABELS record
  /\ forall v, dict_lookup "geometry" record = Some v ->
       exists text, v = PyStr text.
Proof.
  unfold incident_record. intros H.
  exc_inv H location. exc_inv H details. exc_inv H v1. exc_inv H v2.
  exc_inv H description. exc_inv H v3. exc_inv H v4. exc_inv H v5.
  apply store_geometry_result in H. destruct H as [-> | [text ->]].
  - split; [now left | intros v [=]].
  - split; [now right | intros v [= <-]; eauto].
Qed.

(** X6: the keys of a record do not depend on the entity.  Whenever a
    normalizer builds a record, its keys are the fixed labels of its kind,
    in their order, followed by [geometry] or by nothing; and a geometry,
    when there is one, is a string. *)
Theorem record_keys_are_fixed (entity : pyval) (record : dict) :
  (flow_record entity = Ret record ->
   record_keys FLOW_LABELS record
   /\ forall v, dict_lookup "geometry" record = Some v ->
        exists text, v = PyStr text)
  /\ (incident_record entity = Ret record ->
      record_keys INCIDENT_LABELS record
      /\ forall v, dict_lookup "geometry" record = Some v ->
           exists text, v = PyStr text).
Proof.
  split; [apply flow_record_keys | apply incident_record_keys].
Qed.

(** *** Columns of a table of such records *)

Lemma str_mem_In (k : string) (l : list string) :
  str_mem k l = true <-> In k l.
Proof.
  unfold str_mem. rewrite existsb_exists. split.
  - intros (x & Hx & E). apply String.eqb_eq in E. now subst.
  - intros H. exists k. split; [exact H | apply String.eqb_refl].
Qed.

Lemma add_labels_known (keys cols : list string) :
  (forall k, In k keys -> In k cols) ->
  fold_left add_label keys cols = cols.
Proof.
  revert cols. induction keys as [|k keys IH]; intros cols H; simpl; auto.
  unfold add_label at 2.
  destruct (str_mem k cols) eqn:E.
  - apply IH. intros k' Hk'. apply H. now right.
  - assert (In k cols) by (apply H; now left).
    apply str_mem_In in H0. congruence.
Qed.

Lemma add_labels_new (keys cols : list string) :
  NoDup (cols ++ keys) ->
  fold_left add_label keys cols = cols ++ keys.
Proof.
  revert cols. induction keys as [|k keys IH]; intros cols H; simpl.
  - now rewrite app_nil_r.
  - unfold add_label at 2. destruct (str_mem k cols) eqn:E.
    + apply str_mem_In in E. apply NoDup_remove_2 in H.
      exfalso. apply H. apply in_or_app. now left.
    + rewrite IH by (rewrite <- app_assoc; exact H).
      now rewrite <- app_assoc.
Qed.

(** The columns after one more record. *)
Lemma add_record_keys (labels : list string) (record : dict)
  (cols : list string) :
  NoDup (labels ++ ["geometry"]) ->
  record_keys labels record ->
  cols = [] \/ cols = labels \/ cols = labels ++ ["geometry"] ->
  let cols' := fold_left add_label (map fst record) cols in
  cols' = labels \/ cols' = labels ++ ["geometry"].
Proof.
  intros Hnd Hkeys Hcols cols'. unfold cols'. clear cols'.
  assert (Hl : NoDup labels) by (eapply NoDup_app_remove_r; exact Hnd).
  destruct Hkeys as [-> | ->]; destruct Hcols as [-> | [-> | ->]].
  - left. now apply (add_labels_new labels []).
  - left. now apply add_labels_known.
  - right. apply add_labels_known. intros k Hk. apply in_or_app. now left.
  - right. now apply (add_labels_new (labels ++ ["geometry"]) []).
  - right. rewrite fold_left_app.
    rewrite (add_labels_known labels labels) by auto.
    now apply (add_labels_new ["geometry"] labels).
  - right. now apply add_labels_known.
Qed.

Lemma union_keys_columns (labels : list string) (records : list dict)
  (cols : list string) :
  NoDup (labels ++ ["geometry"]) ->
  Forall (record_keys labels) records ->
  cols = labels \/ cols = labels ++ ["geometry"] ->
  let cols' :=
    fold_left (fun cols r => fold_left add_label (map fst r) cols)
      records cols in
  cols' = labels \/ cols' = labels ++ ["geometry"].
Proof.
  intros Hnd Hall. revert cols.
  induction Hall as [|r records Hr _ IH]; intros cols Hcols; simpl; auto.
  apply IH. apply add_record_keys; auto.
Qed.

Lemma pd_DataFrame_columns (labels : list string) (records : list dict) :
  NoDup (labels ++ ["geometry"]) ->
  Forall (record_keys labels) records ->
  table_columns labels (pd_DataFrame records).
Proof.
  intros Hnd Hall. unfold table_columns, pd_DataFrame, union_keys. simpl.
  destruct Hall as [|r records Hr Hall]; [now left|].
  right. simpl. apply union_keys_columns; auto.
  apply add_record_keys; auto.
Qed.

(** What [parse_with] returned, by the elements it went through. *)
Lemma parse_with_table (body : pyval -> exc dict) (data : pyval)
  (df : DataFrame) :
  parse_with body data = Ret (Some df) ->
  exists elements records,
    df = pd_DataFrame records
    /\ Forall2 (fun e r => body e = Ret r) elements records.
Proof.
  unfold parse_with. intros H.
  apply exc_bind_inv in H. destruct H as (absent & _ & H).
  destruct absent; [discriminate|].
  exc_inv H results. apply exc_bind_inv in H. destruct H as (it & _ & H).
  apply exc_bind_inv in H. destruct H as (records & Hloop & H).
  injection H as <-.
  destruct (for_each_inv _ _ _ _ Hloop) as (rest & -> & Hrest).
  now exists it, rest.
Qed.

Lemma Forall2_right {A B} (R : A -> B -> Prop) (P : B -> Prop)
  (l : list A) (l' : list B) :
  (forall a b, R a b -> P b) -> Forall2 R l l' -> Forall P l'.
Proof. intros H. induction 1; constructor; eauto. Qed.

Lemma flow_labels_nodup : NoDup (FLOW_LABELS ++ ["geometry"]).
Proof.
  repeat (constructor; [simpl; intuition discriminate|]). constructor.
Qed.

Lemma incident_labels_nodup : NoDup (INCIDENT_LABELS ++ ["geometry"]).
Proof.
  repeat (constructor; [simpl; intuition discriminate|]). constructor.
Qed.

Lemma flow_table_columns (data : pyval) (df : DataFrame) :
  parse_traffic_flow_to_dataframe data = Ret (Some df) ->
  table_columns FLOW_LABELS df /\ df_wf df.
Proof.
  intros H. split; [|eapply parse_with_wf; exact H].
  destruct (parse_with_table _ _ _ H) as (it & records & -> & Hall).
  apply pd_DataFrame_columns; [apply flow_labels_nodup|].
  eapply Forall2_right; [|exact Hall].
  intros e r Hr. now apply flow_record_keys in Hr.
Qed.

Lemma incidents_table_columns (data : pyval) (df : DataFrame) :
  parse_incidents_to_dataframe data = Ret (Some df) ->
  table_columns INCIDENT_LABELS df /\ df_wf df.
Proof.
  intros H. split; [|eapply parse_with_wf; exact H].
  destruct (parse_with_table _ _ _ H) as (it & records & -> & Hall).
  apply pd_DataFrame_columns; [apply incident_labels_nodup|].
  eapply Forall2_right; [|exact Hall].
  intros e r Hr. now apply incident_record_keys in Hr.
Qed.

(** X7: the columns of a normalized table.  Whatever the document, a
    table that a normalizer returns has no column and no row, or the fixed
    labels of its kind as columns, or those followed by [geometry]; and
    every row has one cell per column. *)
Theorem normalized_columns (data : pyval) (df : DataFrame) :
  (parse_traffic_flow_to_dataframe data = Ret (Some df) ->
   table_columns FLOW_LABELS df
   /\ Forall (fun row => List.length row = List.length (df_columns df))
             (df_rows df))
  /\ (parse_incidents_to_dataframe data = Ret (Some df) ->
      table_columns INCIDENT_LABELS df
      /\ Forall (fun row => List.length row = List.length (df_columns df))
                (df_rows df)).
Proof.
  split; [apply flow_table_columns | apply incidents_table_columns].
Qed.

(** *** The stamps of a batch *)

Lemma index_of_app_none (c c' : string) (cols : list string) :
  index_of c cols = None -> c <> c' -> index_of c (cols ++ [c']) = None.
Proof.
  intros H Hne. induction cols as [|c0 cols IH]; simpl in *.
  - apply String.eqb_neq in Hne. now rewrite Hne.
  - destruct (String.eqb c c0); [discriminate|].
    destruct (index_of c cols); [discriminate|]. now rewrite IH.
Qed.

Lemma add_timestamps_appends (df : DataFrame) (t : datetime) :
  Forall (fun label => index_of label (df_columns df) = None) STAMP_LABELS ->
  add_timestamps df t
  = {| df_columns := df_columns df ++ STAMP_LABELS;
       df_rows := map (fun row => row ++ stamp_cells t) (df_rows df) |}.
Proof.
  intros H.
  pose proof (Forall_inv H) as H1. apply Forall_inv_tail in H.
  pose proof (Forall_inv H) as H2. apply Forall_inv_tail in H.
  pose proof (Forall_inv H) as H3. apply Forall_inv_tail in H.
  pose proof (Forall_inv H) as H4. clear H.
  unfold add_timestamps.
  assert (Hh : index_of "hour" (df_columns df ++ ["timestamp"]) = None)
    by (repeat (apply index_of_app_none; [|discriminate]); assumption).
  assert (Hd : index_of "day_of_week"
                 ((df_columns df ++ ["timestamp"]) ++ ["hour"]) = None)
    by (repeat (apply index_of_app_none; [|discriminate]); assumption).
  assert (Hc : index_of "date"
                 (((df_columns df ++ ["timestamp"]) ++ ["hour"])
                  ++ ["day_of_week"]) = None)
    by (repeat (apply index_of_app_none; [|discriminate]); assumption).
  unfold set_column at 4. rewrite H1.
  unfold set_column at 3. cbn [df_columns df_rows]. rewrite Hh.
  unfold set_column at 2. cbn [df_columns df_rows]. rewrite Hd.
  unfold set_column. cbn [df_columns df_rows]. rewrite Hc.
  f_equal.
  - now rewrite <- !app_assoc.
  - rewrite !map_map. apply map_ext. intros row.
    now rewrite <- !app_assoc.
Qed.

Lemma index_of_app_none_left (c : string) (cols more : list string) :
  index_of c (cols ++ more) = None -> index_of c cols = None.
Proof.
  induction cols as [|c0 cols IH]; simpl; auto.
  destruct (String.eqb c c0); [discriminate|].
  destruct (index_of c (cols ++ more)); [discriminate|].
  intros _. now rewrite IH.
Qed.

Lemma table_columns_unstamped (labels : list string) (df : DataFrame) :
  Forall (fun label => index_of label (labels ++ ["geometry"]) = None)
    STAMP_LABELS ->
  table_columns labels df ->
  Forall (fun label => index_of label (df_columns df) = None) STAMP_LABELS.
Proof.
  intros Hfresh [[-> _] | [-> | ->]]; [repeat constructor | | exact Hfresh].
  eapply Forall_impl; [|exact Hfresh]. simpl. intros label.
  apply index_of_app_none_left.
Qed.

(** X8: the stamps come last.  Stamping a table that a normalizer
    returned adds the four columns [timestamp], [hour], [day_of_week] and
    [date] behind its own, in this order, and the four cells of the
    instant behind the cells of every row; no cell that the normalizer
    wrote is replaced. *)
Theorem stamps_come_last (data : pyval) (df : DataFrame) (t : datetime) :
  parse_traffic_flow_to_dataframe data = Ret (Some df)
  \/ parse_incidents_to_dataframe data = Ret (Some df) ->
  add_timestamps df t
  = {| df_columns := df_columns df ++ STAMP_LABELS;
       df_rows := map (fun row => row ++ stamp_cells t) (df_rows df) |}.
Proof.
  intros [H | H]; apply add_timestamps_appends.
  - apply (table_columns_unstamped FLOW_LABELS);
      [repeat constructor | now apply flow_table_columns in H].
  - apply (table_columns_unstamped INCIDENT_LABELS);
      [repeat constructor | now apply incidents_table_columns in H].
Qed.

(** *** The loop over the entities *)

Lemma for_each_app (body : pyval -> exc dict) (pre post : list pyval)
  (records : list dict) :
  for_each body (pre ++ post) records
  = exc_bind (for_each body pre records) (for_each body post).
Proof.
  revert records. induction pre as [|e pre IH]; intros records; simpl; auto.
  destruct (body e) as [r|x]; simpl; auto.
Qed.

Lemma for_each_returns (body : pyval -> exc dict) (elements : list pyval)
  (records : list dict) :
  Forall (fun e => exists r, body e = Ret r) elements ->
  exists result, for_each body elements records = Ret result.
Proof.
  intros H. revert records.
  induction H as [|e elements [r Hr] _ IH]; intros records; simpl; eauto.
  rewrite Hr. simpl. apply IH.
Qed.

Lemma parse_with_raises (body : pyval -> exc dict) (data : pyval)
  (pre post : list pyval) (e : pyval) (x : exn) :
  nested data ["results"] = Some (PyList (pre ++ e :: post)) ->
  Forall (fun p => exists r, body p = Ret r) pre ->
  body e = Raise x ->
  parse_with body data = Raise x.
Proof.
  intros Hres Hpre He.
  destruct (nested_results _ _ Hres) as [d [-> Hd]].
  assert (Ht : py_truthy (PyDict d) = true)
    by (destruct d; [discriminate | reflexivity]).
  unfold parse_with, no_results. rewrite Ht. simpl.
  unfold dict_mem. rewrite Hd. simpl.
  rewrite for_each_app.
  destruct (for_each_returns body pre [] Hpre) as [done ->]. simpl.
  now rewrite He.
Qed.

(** X9: a batch is normalized whole or not at all.  When the body of the
    loop raises on one entity of [results], the normalizer raises that
    exception, however many entities before it made a record and whatever
    comes after it: no table of the records made so far is returned. *)
Theorem one_entity_fails_the_batch (data : pyval) (pre post : list pyval)
  (e : pyval) (x : exn) :
  nested data ["results"] = Some (PyList (pre ++ e :: post)) ->
  (Forall (fun p => exists r, flow_record p = Ret r) pre ->
   flow_record e = Raise x ->
   parse_traffic_flow_to_dataframe data = Raise x)
  /\ (Forall (fun p => exists r, incident_record p = Ret r) pre ->
      incident_record e = Raise x ->
      parse_incidents_to_dataframe data = Raise x).
Proof.
  intros Hres. split; intros Hpre He; eapply parse_with_raises; eassumption.
Qed.

(** *** Documents that are no objects *)

Lemma parse_with_non_dict (body : pyval -> exc dict) (data : pyval) :
  is_dict data = false ->
  parse_with body data
  = if py_truthy data then
      match py_contains "results" data with
      | Ret false => Ret None
      | _ => Raise TypeError
      end
    else Ret None.
Proof.
  intros H. unfold parse_with, no_results.
  destruct data as [ |b|z|f|s|l|d]; try discriminate; simpl.
  - reflexivity.
  - now destruct b.
  - now destruct (z =? 0)%Z.
  - now destruct (PrimFloat.eqb f 0).
  - destruct (String.eqb s ""); simpl; [reflexivity|].
    now destruct (str_contains "results" s).
  - destruct l as [|v l]; simpl; [reflexivity|].
    now destruct (py_eq_str "results" v || existsb (py_eq_str "results") l).
Qed.

(** X10: only an object is normalized.  For a document that is not a
    dict, neither normalizer looks at an entity: both give the same
    result, which is [None] or a [TypeError], never a table; it is [None]
    when the document is falsy ([None], [False], zero, an empty string or
    list), and a [TypeError] when it is a true number or boolean. *)
Theorem non_object_is_never_a_table (data : pyval) :
  is_dict data = false ->
  parse_incidents_to_dataframe data = parse_traffic_flow_to_dataframe data
  /\ (parse_traffic_flow_to_dataframe data = Ret None
      \/ parse_traffic_flow_to_dataframe data = Raise TypeError)
  /\ (py_truthy data = false ->
      parse_traffic_flow_to_dataframe data = Ret None)
  /\ (py_truthy data = true ->
      match data with PyBool _ | PyInt _ | PyFloat _ => True | _ => False end ->
      parse_traffic_flow_to_dataframe data = Raise TypeError).
Proof.
  intros H. unfold parse_incidents_to_dataframe, parse_traffic_flow_to_dataframe.
  rewrite !parse_with_non_dict by assumption.
  split; [reflexivity|]. split; [|split].
  - destruct (py_truthy data); [|now left].
    destruct (py_contains "results" data) as [[|]|]; auto.
  - now intros ->.
  - intros -> Hkind. destruct data; try contradiction; reflexivity.
Qed.

(** *** The loop over the links *)

Lemma for_link_app (pre post : list pyval) (coords : list (pyval * pyval)) :
  for_link (pre ++ post) coords
  = exc_bind (for_link pre coords) (for_link post).
Proof.
  revert coords. induction pre as [|l pre IH]; intros coords; simpl; auto.
  destruct (py_contains "points" l) as [[|]|x]; simpl; auto.
  match goal with
  | |- exc_bind ?c _ = _ => destruct c; simpl; auto
  end.
Qed.

(** X11: the links are read from left to right into one list, and a link
    without [points] adds nothing.  The coordinates of a list of links are
    those of its first part followed by those of the rest, and they do not
    change when a dict without the key [points] is put in or taken out
    anywhere in the list. *)
Theorem links_without_points_are_skipped (pre post : list pyval) (link : dict)
  (coords : list (pyval * pyval)) :
  dict_lookup "points" link = None ->
  for_link (pre ++ PyDict link :: post) coords = for_link (pre ++ post) coords
  /\ for_link (pre ++ post) coords
     = match for_link pre coords with
       | Ret coords' => for_link post coords'
       | Raise x => Raise x
       end.
Proof.
  intros H. rewrite !for_link_app. split.
  - destruct (for_link pre coords) as [coords'|x]; simpl; auto.
    unfold dict_mem. now rewrite H.
  - destruct (for_link pre coords); reflexivity.
Qed.

(** *** What the normalizers read *)

(** X12: keys that the script does not name are ignored.  Two flow
    entities with the same [location] and [currentFlow] give the same
    result, record or exception; so do two incidents with the same
    [location], [incidentDetails] and [incidentId]; and two documents with
    the same [results] give the same table, [None] or exception. *)
Theorem unnamed_keys_are_ignored (d d' : dict) :
  (Forall (fun k => dict_lookup k d = dict_lookup k d')
     ["location"; "currentFlow"] ->
   flow_record (PyDict d) = flow_record (PyDict d'))
  /\ (Forall (fun k => dict_lookup k d = dict_lookup k d')
        ["location"; "incidentDetails"; "incidentId"] ->
      incident_record (PyDict d) = incident_record (PyDict d'))
  /\ (dict_lookup "results" d = dict_lookup "results" d' ->
      parse_traffic_flow_to_dataframe (PyDict d)
      = parse_traffic_flow_to_dataframe (PyDict d')
      /\ parse_incidents_to_dataframe (PyDict d)
         = parse_incidents_to_dataframe (PyDict d')).
Proof.
  split; [|split].
  - intros H. pose proof (Forall_inv H) as H1.
    pose proof (Forall_inv (Forall_inv_tail H)) as H2.
    unfold flow_record, py_get. now rewrite H1, H2.
  - intros H. pose proof (Forall_inv H) as H1.
    pose proof (Forall_inv (Forall_inv_tail H)) as H2.
    pose proof (Forall_inv (Forall_inv_tail (Forall_inv_tail H))) as H3.
    unfold incident_record, py_get. now rewrite H1, H2, H3.
  - intros H.
    assert (Hany : forall body,
               parse_with body (PyDict d) = parse_with body (PyDict d')).
    { intros body. unfold parse_with, no_results, py_contains, py_getitem,
        dict_mem.
      destruct d as [|kv d0]; destruct d' as [|kv' d0'];
        try reflexivity; simpl py_truthy; simpl negb; cbv iota.
      - rewrite <- H. reflexivity.
      - rewrite H. reflexivity.
      - now rewrite H. }
    split; apply Hany.
Qed.

(** *** A geometry column that the stored table lacks *)

Lemma stamped_geometry_column (df : DataFrame) (t : datetime) :
  In "geometry" (df_columns df) ->
  In "geometry" (df_columns (add_timestamps df t)).
Proof.
  intros H. unfold add_timestamps.
  repeat match goal with
         | |- In _ (df_columns (set_column ?x ?c ?v)) =>
             unfold set_column at 1;
             destruct (index_of c (df_columns x));
             cbn [df_columns]; [|apply in_or_app; left]
         end; exact H.
Qed.

Lemma insert_rows_missing_column (t : table) (df : DataFrame) (c : string) :
  In c (df_columns df) -> ~ In c (t_columns t) ->
  insert_rows t df = Raise sqlite3_Error.
Proof.
  intros Hin Hnot. unfold insert_rows.
  destruct (forallb _ (df_columns df)) eqn:E; [|reflexivity].
  rewrite forallb_forall in E. specialize (E c Hin).
  apply str_mem_In in E. contradiction.
Qed.

(** X13: a geometry that the stored table has no column for.  When the
    stored flow table has no [geometry] column (as one created from a
    batch in which no entity had links), a normalized and stamped flow
    batch that has the column is refused: [save_to_sqlite] raises the
    error of [sqlite3], stores no row of that batch, prints nothing and
    does not reach the incidents. *)
Theorem geometry_after_none_is_refused (data : pyval) (df : DataFrame)
  (t : datetime) (incidents_df : option DataFrame) (db_name : string)
  (w : world) (flow_table : table) :
  parse_traffic_flow_to_dataframe data = Ret (Some df) ->
  In "geometry" (df_columns df) ->
  dict_lookup "traffic_flow" (open_db w db_name) = Some flow_table ->
  ~ In "geometry" (t_columns flow_table) ->
  exists w',
    save_to_sqlite (Some (add_timestamps df t)) incidents_df db_name w
    = (Raise sqlite3_Error, w')
    /\ dict_lookup "traffic_flow" (open_db w' db_name) = Some flow_table
    /\ dict_lookup "traffic_incidents" (open_db w' db_name)
       = dict_lookup "traffic_incidents" (open_db w db_name)
    /\ stdout w' = stdout w.
Proof.
  intros Hparse Hgeo Ht Hnot.
  assert (Hlen : (0 < len (add_timestamps df t))%nat).
  { rewrite add_timestamps_len.
    destruct (flow_table_columns _ _ Hparse) as [[[Hc _] | Hc] _].
    - rewrite Hc in Hgeo. contradiction.
    - destruct (parse_with_table _ _ _ Hparse) as (it & records & -> & _).
      rewrite pd_DataFrame_len. destruct records; simpl; [|lia].
      exfalso. simpl in Hgeo. exact Hgeo. }
  assert (Ht0 : dict_lookup "traffic_flow" (open_db (connected db_name w) db_name)
                = Some flow_table) by (rewrite open_db_connected; exact Ht).
  rewrite save_to_sqlite_cases, save_table_cases by assumption.
  rewrite Ht0. simpl target_table.
  rewrite (insert_rows_missing_column flow_table _ "geometry")
    by (auto using stamped_geometry_column).
  eexists. split; [reflexivity|].
  change (open_db (closed ?v) db_name) with (open_db v db_name).
  rewrite !(lookup_after_rewrite (connected db_name w) db_name _ _ flow_table Ht0).
  rewrite open_db_connected in *.
  repeat split. exact Ht.
Qed.

(** ** The fetches *)

(** X14: a fetch does nothing but print.  However the request ends, the
    files, the clock and the connections are as before, and the lines
    printed before are still there, followed by the progress line of the
    fetch and at most one more line. *)
Theorem fetches_only_print (bbox : float * float * float * float)
  (api_key : pyval) (w : world) :
  let after_flow := snd (fetch_traffic_flow bbox api_key w) in
  let after_incidents := snd (fetch_traffic_incidents bbox api_key w) in
  (files after_flow = files w
   /\ ticks after_flow = ticks w
   /\ connections after_flow = connections w
   /\ exists more,
        stdout after_flow = stdout w ++ "Fetching traffic flow data..." :: more
        /\ (List.length more <= 1)%nat)
  /\ (files after_incidents = files w
      /\ ticks after_incidents = ticks w
      /\ connections after_incidents = connections w
      /\ stdout after_incidents = stdout w ++ ["Fetching traffic incidents..."]).
Proof.
  intros after_flow after_incidents. unfold after_flow, after_incidents.
  rewrite fetch_traffic_flow_spec, fetch_traffic_incidents_spec. split.
  - destruct (env_http env TRAFFIC_FLOW_URL (query_params bbox api_key))
      as [r|e]; simpl; repeat split; eexists; split; try reflexivity.
    + destruct (status_code r =? 200)%Z; simpl; lia.
    + simpl. lia.
  - destruct (env_http env TRAFFIC_INCIDENTS_URL (query_params bbox api_key))
      as [r|e]; simpl; repeat split.
Qed.

(** X15: a response with status 200 is decoded and handed back as it is.
    Each fetch returns the decoded body of such a response, whatever it
    holds (an error document as well), and prints its progress line only;
    a body that does not decode is a [JSONDecodeError], not [None]. *)
Theorem fetch_hands_back_the_body (bbox : float * float * float * float)
  (api_key : pyval) (w : world) (r : response) :
  status_code r = 200%Z ->
  let result := match json_body r with
                | Some v => Ret v
                | None => Raise JSONDecodeError
                end in
  (env_http env TRAFFIC_FLOW_URL (query_params bbox api_key) = Ret r ->
   fetch_traffic_flow bbox api_key w
   = (result, printed_more w ["Fetching traffic flow data..."]))
  /\ (env_http env TRAFFIC_INCIDENTS_URL (query_params bbox api_key) = Ret r ->
      fetch_traffic_incidents bbox api_key w
      = (result, printed_more w ["Fetching traffic incidents..."])).
Proof.
  intros Hok result. unfold result.
  rewrite fetch_traffic_flow_spec, fetch_traffic_incidents_spec.
  split; intros ->; unfold fetched; rewrite Hok; reflexivity.
Qed.

(** ** One run, further *)

Lemma main_raises_with_flow_normalizer (w : world)
  (flow_response incidents_response : response)
  (flow_data incidents_data : pyval) (x : exn) :
  env_http env TRAFFIC_FLOW_URL (query_params BBOX HERE_API_KEY)
  = Ret flow_response ->
  env_http env TRAFFIC_INCIDENTS_URL (query_params BBOX HERE_API_KEY)
  = Ret incidents_response ->
  fetched flow_response = Ret flow_data ->
  fetched incidents_response = Ret incidents_data ->
  parse_traffic_flow_to_dataframe flow_data = Raise x ->
  exists w',
    main w = (Raise x, w')
    /\ files w' = files w /\ connections w' = connections w.
Proof.
  intros Hrf Hri Hvf Hvi Hx. unfold main, collect.
  eexists. split.
  - erewrite io_bind_raise; [reflexivity|].
    erewrite io_bind_ret by reflexivity.
    do 3 (erewrite io_bind_ret by apply print_spec).
    erewrite io_bind_ret
      by (rewrite fetch_traffic_flow_spec, Hrf, Hvf; reflexivity).
    erewrite io_bind_ret
      by (rewrite fetch_traffic_incidents_spec, Hri, Hvi; reflexivity).
    erewrite io_bind_raise; [reflexivity|].
    unfold io_lift. rewrite Hx. reflexivity.
  - split; reflexivity.
Qed.

Lemma main_raises_with_incidents_normalizer (w : world)
  (flow_response incidents_response : response)
  (flow_data incidents_data : pyval) (flow_batch : option DataFrame)
  (x : exn) :
  env_http env TRAFFIC_FLOW_URL (query_params BBOX HERE_API_KEY)
  = Ret flow_response ->
  env_http env TRAFFIC_INCIDENTS_URL (query_params BBOX HERE_API_KEY)
  = Ret incidents_response ->
  fetched flow_response = Ret flow_data ->
  fetched incidents_response = Ret incidents_data ->
  parse_traffic_flow_to_dataframe flow_data = Ret flow_batch ->
  parse_incidents_to_dataframe incidents_data = Raise x ->
  exists w',
    main w = (Raise x, w')
    /\ files w' = files w /\ connections w' = connections w.
Proof.
  intros Hrf Hri Hvf Hvi Hb Hx. unfold main, collect.
  eexists. split.
  - erewrite io_bind_raise; [reflexivity|].
    erewrite io_bind_ret by reflexivity.
    do 3 (erewrite io_bind_ret by apply print_spec).
    erewrite io_bind_ret
      by (rewrite fetch_traffic_flow_spec, Hrf, Hvf; reflexivity).
    erewrite io_bind_ret
      by (rewrite fetch_traffic_incidents_spec, Hri, Hvi; reflexivity).
    erewrite io_bind_ret by (unfold io_lift; rewrite Hb; reflexivity).
    erewrite io_bind_raise; [reflexivity|].
    unfold io_lift. rewrite Hx. reflexivity.
  - split; reflexivity.
Qed.

(** X16: an exception of a normalizer ends the run before anything is
    stored.  When both fetches return and either normalizer raises, [main]
    raises that exception, no file is written and no connection is opened;
    a flow batch that was normalized before the incidents normalizer
    raised is lost with it. *)
Theorem failed_normalization_stores_nothing (w : world)
  (flow_response incidents_response : response)
  (flow_data incidents_data : pyval) (x : exn) :
  let params := query_params BBOX HERE_API_KEY in
  env_http env TRAFFIC_FLOW_URL params = Ret flow_response ->
  env_http env TRAFFIC_INCIDENTS_URL params = Ret incidents_response ->
  fetched flow_response = Ret flow_data ->
  fetched incidents_response = Ret incidents_data ->
  parse_traffic_flow_to_dataframe flow_data = Raise x
  \/ ((exists flow_batch,
         parse_traffic_flow_to_dataframe flow_data = Ret flow_batch)
      /\ parse_incidents_to_dataframe incidents_data = Raise x) ->
  exists w',
    main w = (Raise x, w')
    /\ files w' = files w /\ connections w' = connections w.
Proof.
  intros params Hrf Hri Hvf Hvi [Hx | [[flow_batch Hb] Hx]].
  - eapply main_raises_with_flow_normalizer; eassumption.
  - eapply main_raises_with_incidents_normalizer; eassumption.
Qed.

Lemma persist_one_rows (batch : option DataFrame) (name : string)
  (db : database) :
  List.length (rows_of (dict_lookup name (persist_one batch name db)))
  = (List.length (rows_of (dict_lookup name db))
     + match batch with Some df => len df | None => 0 end)%nat.
Proof.
  unfold persist_one. destruct batch as [df|]; [|lia].
  destruct (0 <? len df)%nat eqn:E.
  - rewrite dict_lookup_set_same. simpl rows_of. apply stored_length.
  - apply Nat.ltb_ge in E. lia.
Qed.

Lemma stamp_incidents_len (t : datetime) (df : DataFrame) :
  match stamp_incidents t (Some df) with
  | Some df' => len df'
  | None => 0%nat
  end = len df.
Proof.
  simpl. destruct (0 <? len df)%nat; auto using add_timestamps_len.
Qed.

(** X17: a complete run adds one row per entity.  When both endpoints
    answer 200 with a list of entities of the provider's shape and the
    store takes the two batches, [main] returns, each of the two tables has
    as many rows more as its document had entities (none for an empty
    list), and no other table of the file changes. *)
Theorem complete_run_adds_a_row_per_entity (w : world)
  (flow_response incidents_response : response)
  (flow_data incidents_data : pyval) (flows incidents : list pyval) :
  let t := env_clock env (ticks w) in
  let db := open_db w DB_NAME in
  let params := query_params BBOX HERE_API_KEY in
  env_http env TRAFFIC_FLOW_URL params = Ret flow_response ->
  env_http env TRAFFIC_INCIDENTS_URL params = Ret incidents_response ->
  status_code flow_response = 200%Z ->
  status_code incidents_response = 200%Z ->
  json_body flow_response = Some flow_data ->
  json_body incidents_response = Some incidents_data ->
  nested flow_data ["results"] = Some (PyList flows) ->
  nested incidents_data ["results"] = Some (PyList incidents) ->
  forallb flow_entity flows = true ->
  forallb incident_entity incidents = true ->
  acceptable (Some (enriched FLOW_FIELDS flows t)) "traffic_flow" db = true ->
  acceptable (Some (enriched INCIDENT_FIELDS incidents t))
    "traffic_incidents" db = true ->
  exists w',
    main w = (Ret tt, w')
    /\ List.length (rows_of (dict_lookup "traffic_flow" (open_db w' DB_NAME)))
       = (List.length (rows_of (dict_lookup "traffic_flow" db))
          + List.length flows)%nat
    /\ List.length
         (rows_of (dict_lookup "traffic_incidents" (open_db w' DB_NAME)))
       = (List.length (rows_of (dict_lookup "traffic_incidents" db))
          + List.length incidents)%nat
    /\ forall name,
         name <> "traffic_flow" -> name <> "traffic_incidents" ->
         dict_lookup name (open_db w' DB_NAME) = dict_lookup name db.
Proof.
  intros t db params Hrf Hri Hsf Hsi Hjf Hji Hnf Hni Hef Hei Haf Hai.
  assert (Hpf : parse_traffic_flow_to_dataframe flow_data
                = Ret (Some (pd_DataFrame (map (record_of FLOW_FIELDS) flows)))).
  { apply parse_with_spec; [exact Hnf|].
    intros e He. apply flow_record_spec. eapply forallb_In; eassumption. }
  assert (Hpi : parse_incidents_to_dataframe incidents_data
                = Ret (Some (pd_DataFrame
                               (map (record_of INCIDENT_FIELDS) incidents)))).
  { apply parse_with_spec; [exact Hni|].
    intros e He. apply incident_record_spec. eapply forallb_In; eassumption. }
  set (flow_batch := pd_DataFrame (map (record_of FLOW_FIELDS) flows)) in *.
  set (incidents_batch :=
         pd_DataFrame (map (record_of INCIDENT_FIELDS) incidents)) in *.
  assert (Hai' : acceptable (stamp_incidents t (Some incidents_batch))
                   "traffic_incidents" db = true).
  { simpl stamp_incidents. destruct (0 <? len incidents_batch)%nat eqn:E.
    - exact Hai.
    - unfold acceptable. now rewrite E. }
  destruct (main_run w flow_response incidents_response flow_data
              incidents_data (Some flow_batch) (Some incidents_batch)
              Hrf Hri (fetched_ok _ _ Hsf Hjf) (fetched_ok _ _ Hsi Hji)
              Hpf Hpi Haf Hai') as (w' & Hmain & Hdb).
  fold t in Hdb. fold db in Hdb.
  exists w'. split; [exact Hmain|]. rewrite Hdb. split; [|split].
  - rewrite persist_one_other by discriminate.
    rewrite persist_one_rows. simpl stamp_flow.
    unfold flow_batch.
    now rewrite add_timestamps_len, pd_DataFrame_len, length_map.
  - rewrite persist_one_rows, persist_one_other by discriminate.
    rewrite stamp_incidents_len. unfold incidents_batch.
    now rewrite pd_DataFrame_len, length_map.
  - intros name Hf Hi. now rewrite !persist_one_other by assumption.
Qed.

(** X18: an empty list of entities is counted for the flow only.  When
    both documents hold an empty [results], the flow batch is stamped (it
    has the four stamp columns and no row) and the line with its count of
    0 is printed, while the incidents batch is left without a column and
    nothing is printed for it; [main] then returns without writing a
    table: the database file holds what it held, no table at all when it
    had to be created, and no other file changes. *)
Theorem empty_results_count_for_flow_only (w : world)
  (flow_response incidents_response : response)
  (flow_data incidents_data : pyval) :
  let t := env_clock env (ticks w) in
  let params := query_params BBOX HERE_API_KEY in
  env_http env TRAFFIC_FLOW_URL params = Ret flow_response ->
  env_http env TRAFFIC_INCIDENTS_URL params = Ret incidents_response ->
  fetched flow_response = Ret flow_data ->
  fetched incidents_response = Ret incidents_data ->
  nested flow_data ["results"] = Some (PyList []) ->
  nested incidents_data ["results"] = Some (PyList []) ->
  (exists w1,
     collect w
     = (Ret (Some {| df_columns := STAMP_LABELS; df_rows := [] |},
             Some {| df_columns := []; df_rows := [] |}), w1)
     /\ stdout w1
        = stdout w
          ++ [ nl +++ str_repeat 60 "=";
               "Collecting data at: " +++ strftime_Ymd_HMS t;
               str_repeat 60 "=" +++ nl;
               "Fetching traffic flow data...";
               "Fetching traffic incidents...";
               check_mark +++ " Collected 0 flow records" ])
  /\ exists w',
       main w = (Ret tt, w')
       /\ dict_lookup DB_NAME (files w') = Some (open_db w DB_NAME)
       /\ forall other, other <> DB_NAME ->
            dict_lookup other (files w') = dict_lookup other (files w).
Proof.
  intros t params Hrf Hri Hvf Hvi Hnf Hni. unfold params in *. clear params.
  assert (Hpf : parse_traffic_flow_to_dataframe flow_data
                = Ret (Some (pd_DataFrame [])))
    by (apply (parse_with_spec flow_record (fun _ => []) flow_data [] Hnf);
        intros e []).
  assert (Hpi : parse_incidents_to_dataframe incidents_data
                = Ret (Some (pd_DataFrame [])))
    by (apply (parse_with_spec incident_record (fun _ => []) incidents_data []
                 Hni); intros e []).
  assert (Hcollect :
            collect w
            = (Ret (Some {| df_columns := STAMP_LABELS; df_rows := [] |},
                    Some {| df_columns := []; df_rows := [] |}),
               printed_more
                 {| files := files w; stdout := stdout w;
                    ticks := S (ticks w); connections := connections w |}
                 [ nl +++ str_repeat 60 "=";
                   "Collecting data at: " +++ strftime_Ymd_HMS t;
                   str_repeat 60 "=" +++ nl;
                   "Fetching traffic flow data...";
                   "Fetching traffic incidents...";
                   check_mark +++ " Collected 0 flow records" ])).
  { unfold collect.
    erewrite io_bind_ret by reflexivity.
    do 3 (erewrite io_bind_ret by apply print_spec).
    erewrite io_bind_ret
      by (rewrite fetch_traffic_flow_spec, Hrf, Hvf; reflexivity).
    erewrite io_bind_ret
      by (rewrite fetch_traffic_incidents_spec, Hri, Hvi; reflexivity).
    erewrite io_bind_ret by (unfold io_lift; rewrite Hpf; reflexivity).
    erewrite io_bind_ret by (unfold io_lift; rewrite Hpi; reflexivity).
    assert (Hok : (status_code flow_response =? 200)%Z = true).
    { unfold fetched in Hvf.
      destruct (status_code flow_response =? 200)%Z; [reflexivity|].
      injection Hvf as <-. simpl in Hnf. discriminate. }
    rewrite Hok. unfold io_bind, io_ret, print, printed_more. simpl.
    repeat rewrite <- app_assoc. reflexivity. }
  split.
  - eexists. split; [exact Hcollect | reflexivity].
  - unfold main. erewrite io_bind_ret by exact Hcollect.
    cbn [fst snd].
    erewrite io_bind_ret by (apply save_to_sqlite_idle; reflexivity).
    erewrite io_bind_ret by reflexivity.
    rewrite print_spec. eexists. split; [reflexivity|]. split.
    + exact (touch_db_lookup _ DB_NAME).
    + intros other Ho. exact (touch_db_other _ DB_NAME other Ho).
Qed.

End Collector.

(** * The theorems on the sample inputs *)

(** C1 on the sample documents: two entities, two rows. *)
Lemma normalize_count_and_order_witness :
  (exists df,
     parse_traffic_flow_to_dataframe sample_float_repr sample_str_repr
       sample_flow_document = Ret (Some df)
     /\ len df = 2%nat)
  /\ (exists df,
        parse_incidents_to_dataframe sample_float_repr sample_str_repr
          sample_incidents_document = Ret (Some df)
        /\ len df = 2%nat).
Proof.
  split.
  - destruct (normalize_count_and_order sample_float_repr sample_str_repr
                sample_flow_document [sample_flow_entity; sample_bare_entity]
                eq_refl) as (Hrows & _ & Hflow & _).
    destruct (Hflow eq_refl) as (df & Hparse).
    exists df. split; [exact Hparse|]. exact (proj1 (Hrows df Hparse)).
  - destruct (normalize_count_and_order sample_float_repr sample_str_repr
                sample_incidents_document sample_incidents eq_refl)
      as (_ & Hrows & _ & Hincidents).
    destruct (Hincidents eq_refl) as (df & Hparse).
    exists df. split; [exact Hparse|]. exact (proj1 (Hrows df Hparse)).
Defined.

(** C2 on an error document, on [None] and on an empty [results]. *)
Lemma absent_is_not_empty_witness :
  parse_traffic_flow_to_dataframe sample_float_repr sample_str_repr
    sample_error_document = Ret None
  /\ parse_incidents_to_dataframe sample_float_repr sample_str_repr PyNone
     = Ret None
  /\ exists df,
       parse_traffic_flow_to_dataframe sample_float_repr sample_str_repr
         sample_empty_document = Ret (Some df)
       /\ df_rows df = [].
Proof.
  split; [|split].
  - destruct (absent_is_not_empty sample_float_repr sample_str_repr
                sample_error_document) as [Habsent _].
    apply Habsent. right. exists [("error", PyStr "Unauthorized")].
    split; reflexivity.
  - destruct (absent_is_not_empty sample_float_repr sample_str_repr PyNone)
      as [Habsent _].
    apply Habsent. left. reflexivity.
  - destruct (absent_is_not_empty sample_float_repr sample_str_repr
                sample_empty_document) as [_ Hempty].
    destruct (Hempty eq_refl) as (fdf & idf & Hf & _ & Hrows & _).
    exists fdf. split; assumption.
Defined.

(** C3 on the run in [sample_env]: the first row of the flow batch. *)
Lemma batches_share_the_instant_witness :
  (exists incidents_df w',
     collect sample_float_repr sample_str_repr sample_env sample_api_key
       sample_world
     = (Ret (Some sample_flow_batch, incidents_df), w'))
  /\ exists row,
       In row (df_rows sample_flow_batch)
       /\ df_cell sample_flow_batch row "timestamp"
          = Some (CTimestamp sample_instant)
       /\ df_cell sample_flow_batch row "hour" = Some (CVal (PyInt 8))
       /\ df_cell sample_flow_batch row "day_of_week"
          = Some (CVal (PyStr "Monday"))
       /\ df_cell sample_flow_batch row "date"
          = Some (CDate {| d_year := 2026; d_month := 1; d_day := 5 |}).
Proof.
  set (run := collect sample_float_repr sample_str_repr sample_env
                sample_api_key sample_world).
  set (incidents_df := match fst run with
                       | Ret batches => snd batches
                       | Raise _ => None
                       end).
  assert (Hrun : run = (Ret (Some sample_flow_batch, incidents_df), snd run))
    by (vm_compute; reflexivity).
  split; [exists incidents_df, (snd run); exact Hrun|].
  destruct (batches_share_the_instant sample_float_repr sample_str_repr
              sample_env sample_api_key sample_world (snd run)
              (Some sample_flow_batch) incidents_df Hrun) as [_ Hrows].
  exists (hd [] (df_rows sample_flow_batch)).
  split; [left; reflexivity|].
  apply (Hrows sample_flow_batch (or_introl eq_refl)).
  left. reflexivity.
Defined.

(** C4 on the run in [sample_env_flow_500]: no flow table, two incident rows. *)
Lemma failed_fetch_spares_the_other_kind_witness :
  exists w' tbl,
    main sample_float_repr sample_str_repr sample_env_flow_500 sample_api_key
      sample_world = (Ret tt, w')
    /\ dict_lookup "traffic_flow" (open_db w' DB_NAME) = None
    /\ dict_lookup "traffic_incidents" (open_db w' DB_NAME) = Some tbl
    /\ List.length (t_rows tbl) = 2%nat.
Proof.
  assert (Hfailed : gives_nothing sample_server_error)
    by (apply non_200_gives_nothing; discriminate).
  assert (Hsome : sample_incidents <> []) by discriminate.
  destruct (failed_fetch_spares_the_other_kind sample_float_repr
              sample_str_repr sample_env_flow_500 sample_api_key sample_world
              sample_server_error (sample_ok sample_incidents_document)
              sample_incidents_document sample_incidents
              Hfailed eq_refl eq_refl eq_refl Hsome) as [Hflow_failed _].
  destruct Hflow_failed as (w' & tbl & Hmain & Hflow & Hincidents & Hrows);
    try reflexivity.
  exists w', tbl. split; [exact Hmain|]. split; [exact Hflow|].
  split; [exact Hincidents | exact Hrows].
Defined.

(** C5 on a provider that answers 500. *)
Lemma fetch_failure_surfaces_witness :
  fetch_traffic_flow sample_float_repr sample_env_all_500 BBOX sample_api_key
    sample_world
  = (Ret PyNone,
     printed_more sample_world ["Fetching traffic flow data..."; "Error: 500"])
  /\ fetch_traffic_incidents sample_float_repr sample_env_all_500 BBOX
       sample_api_key sample_world
     = (Ret PyNone, printed_more sample_world ["Fetching traffic incidents..."]).
Proof.
  destruct (fetch_failure_surfaces sample_float_repr sample_env_all_500 BBOX
              sample_api_key sample_world) as [Hstatus _].
  assert (Hne : status_code sample_server_error <> 200%Z) by discriminate.
  destruct (Hstatus sample_server_error Hne) as [Hflow Hincidents].
  split; [apply Hflow | apply Hincidents]; reflexivity.
Defined.

(** C4, on the claim as stated: the flow endpoint gives no response
    while two incidents are on offer:
    the run ends with the exception of the HTTP client and no file is
    written, so the incidents are not stored. *)
Lemma flow_outage_loses_the_incidents :
  env_http sample_env_flow_down TRAFFIC_INCIDENTS_URL
    (query_params sample_float_repr BBOX sample_api_key)
  = Ret (sample_ok sample_incidents_document)
  /\ fst (main sample_float_repr sample_str_repr sample_env_flow_down
            sample_api_key sample_world) = Raise ConnectionError
  /\ files (snd (main sample_float_repr sample_str_repr sample_env_flow_down
                   sample_api_key sample_world)) = [].
Proof. repeat split; vm_compute; reflexivity. Qed.

(** C5, on the claim as stated: no response arrives, and the exception
    of the HTTP client leaves the fetch, which returns nothing. *)
Lemma fetch_outage_raises :
  fst (fetch_traffic_flow sample_float_repr sample_env_flow_down BBOX
         sample_api_key sample_world) = Raise ConnectionError
  /\ fst (fetch_traffic_flow sample_float_repr sample_env_flow_down BBOX
            sample_api_key sample_world) <> Ret PyNone.
Proof. split; [vm_compute; reflexivity | discriminate]. Qed.

(** C6 on the links [[p1, p2], [p3]]. *)
#[warnings="-inexact-float"]
Lemma geometry_flattens_and_reads_back_witness :
  reparse_geometry sample_float_parse
    "[(101.67, 3.13), (101.7, 3.16), (101, 3)]"
  = Some [ (PyFloat 101.67, PyFloat 3.13);
           (PyFloat 101.7, PyFloat 3.16);
           (PyInt 101, PyInt 3) ]
  /\ exists record,
       flow_record sample_float_repr sample_str_repr sample_flow_entity
       = Ret record
       /\ dict_lookup "geometry" record
          = Some (PyStr "[(101.67, 3.13), (101.7, 3.16), (101, 3)]").
Proof.
  destruct (geometry_flattens_and_reads_back sample_float_repr sample_str_repr
              sample_float_parse sample_flow_entity sample_links eq_refl)
    as (Hread & Hflow & _).
  split.
  - apply Hread.
    repeat (apply Forall_cons; [split; simpl; try exact I;
                                split; vm_compute; reflexivity|]).
    apply Forall_nil.
  - destruct (Hflow eq_refl) as (record & Hrecord & Hgeometry).
    exists record. split; assumption.
Defined.

(** C7 on an entity without location and on a shape without points. *)
Lemma geometry_omitted_without_links_witness :
  (exists record,
     flow_record sample_float_repr sample_str_repr sample_bare_entity
     = Ret record
     /\ dict_lookup "geometry" record = None)
  /\ (exists record,
        incident_record sample_float_repr sample_str_repr
          sample_pointless_entity = Ret record
        /\ dict_lookup "geometry" record = Some (PyStr "[]")).
Proof.
  split.
  - destruct (geometry_omitted_without_links sample_float_repr sample_str_repr
                sample_bare_entity) as [Hnone _].
    destruct (Hnone eq_refl) as [Hflow _]. exact (Hflow eq_refl).
  - destruct (geometry_omitted_without_links sample_float_repr sample_str_repr
                sample_pointless_entity) as [_ Hempty].
    destruct (Hempty [PyDict []] eq_refl eq_refl) as [_ Hincident].
    exact (Hincident eq_refl).
Defined.

(** C7, on the claim as stated: the shape has links and no link holds a
    point, and the record carries the key [geometry], with the empty
    serialization. *)
Lemma pointless_shape_keeps_geometry :
  entity_links sample_pointless_entity = Some [PyDict []]
  /\ flat_points [PyDict []] = []
  /\ flow_record sample_float_repr sample_str_repr sample_pointless_entity
     = Ret [ ("location_description", PyStr ""); ("speed", PyNone);
             ("speed_limit", PyNone); ("jam_factor", PyNone);
             ("confidence", PyNone); ("free_flow_speed", PyNone);
             ("traversability", PyStr ""); ("geometry", PyStr "[]") ]
  /\ incident_record sample_float_repr sample_str_repr sample_pointless_entity
     = Ret [ ("incident_id", PyStr ""); ("type", PyStr "");
             ("description", PyStr ""); ("criticality", PyStr "");
             ("start_time", PyStr ""); ("geometry", PyStr "[]") ].
Proof. repeat split. Qed.

(** C8 on a file that has a flow table and no incidents table. *)
Lemma persist_creates_then_appends_witness :
  exists w' flow_table incidents_table,
    save_to_sqlite (Some (sample_frame "speed" 9)) (Some (sample_frame "type" 10))
      DB_NAME sample_world_with_flow = (Ret tt, w')
    /\ dict_lookup "traffic_flow" (open_db w' DB_NAME) = Some flow_table
    /\ List.length (t_rows flow_table) = 2%nat
    /\ firstn 1 (t_rows flow_table) = [[CVal (PyInt 7); CVal (PyInt 30)]]
    /\ dict_lookup "traffic_incidents" (open_db w' DB_NAME) = Some incidents_table
    /\ t_columns incidents_table = ["type"; "hour"]
    /\ t_rows incidents_table = [[CVal (PyStr "x"); CVal (PyInt 10)]].
Proof.
  destruct (persist_creates_then_appends (Some (sample_frame "speed" 9))
              (Some (sample_frame "type" 10)) DB_NAME sample_world_with_flow
              eq_refl eq_refl) as (w' & Hrun & Htables).
  destruct (Htables "traffic_flow" (sample_frame "speed" 9)
              (or_introl (conj eq_refl eq_refl)) (le_n 1))
    as (flow_table & Hflow & _ & _ & Hcount & Hprefix).
  destruct (Htables "traffic_incidents" (sample_frame "type" 10)
              (or_intror (conj eq_refl eq_refl)) (le_n 1))
    as (incidents_table & Hincidents & Hcolumns & _ & Hrows).
  exists w', flow_table, incidents_table.
  split; [exact Hrun|]. split; [exact Hflow|]. split; [exact Hcount|].
  split; [exact Hprefix|]. split; [exact Hincidents|].
  split; [exact Hcolumns|].
  apply Hrows.
  - repeat constructor; simpl; intuition discriminate.
  - repeat constructor.
Defined.

(** C9 on the sample flow document and its bare entity, and on a document
    whose only entity has a [null] location. *)
Lemma normalize_total_under_absence_witness :
  (exists df,
     parse_traffic_flow_to_dataframe sample_float_repr sample_str_repr
       sample_flow_document = Ret (Some df))
  /\ (exists record,
        flow_record sample_float_repr sample_str_repr sample_bare_entity
        = Ret record
        /\ dict_lookup "speed" record = Some PyNone
        /\ dict_lookup "traversability" record = Some (PyStr ""))
  /\ flow_record sample_float_repr sample_str_repr
       (PyDict [("location", PyNone)]) = Raise AttributeError
  /\ exists x,
       parse_traffic_flow_to_dataframe sample_float_repr sample_str_repr
         sample_null_location_document = Raise x.
Proof.
  destruct (normalize_total_under_absence sample_float_repr sample_str_repr
              sample_flow_document [sample_flow_entity; sample_bare_entity]
              eq_refl) as (Hflow & _ & _).
  destruct (Hflow eq_refl) as [Htable Hrecords].
  destruct (normalize_total_under_absence sample_float_repr sample_str_repr
              sample_null_location_document [PyDict [("location", PyNone)]]
              eq_refl) as (_ & _ & _ & _ & Hfield & Hbatch & _).
  split; [exact Htable|]. split; [|split].
  - destruct (Hrecords sample_bare_entity (or_intror (or_introl eq_refl)))
      as (record & Hrecord & Hfields).
    exists record. split; [exact Hrecord|].
    unfold has_fields in Hfields.
    split.
    + exact (Forall_inv (Forall_inv_tail Hfields)).
    + exact (Forall_inv
               (Forall_inv_tail (Forall_inv_tail (Forall_inv_tail
                 (Forall_inv_tail (Forall_inv_tail (Forall_inv_tail Hfields))))))).
  - exact (proj1 (Hfield [("location", PyNone)] PyNone eq_refl)
             (or_introl eq_refl)).
  - apply Hbatch. apply Exists_cons_hd. exists AttributeError.
    exact (proj1 (Hfield [("location", PyNone)] PyNone eq_refl)
             (or_introl eq_refl)).
Defined.

(** C10 on a link with an empty point and a point without [lat]. *)
Lemma geometry_keeps_incomplete_points_witness :
  exists record coords,
    incident_record sample_float_repr sample_str_repr sample_gappy_entity
    = Ret record
    /\ dict_lookup "geometry" record
       = Some (PyStr (py_str_coords sample_float_repr sample_str_repr coords))
    /\ List.length coords = 3%nat
    /\ nth_error coords 1 = Some (PyNone, PyNone)
    /\ nth_error coords 2 = Some (PyInt 101, PyNone).
Proof.
  destruct (geometry_keeps_incomplete_points sample_float_repr sample_str_repr
              sample_gappy_entity
              [PyDict [("points",
                        PyList [sample_point_3; PyDict [];
                                PyDict [("lng", PyInt 101)]])]]
              eq_refl) as [_ Hincident].
  destruct (Hincident eq_refl) as (record & coords & Hrecord & Hgeometry
                                   & Hlength & Hpoints).
  exists record, coords.
  split; [exact Hrecord|]. split; [exact Hgeometry|]. split; [exact Hlength|].
  split.
  - exact (proj1 (Hpoints 1%nat (PyDict []) eq_refl)).
  - exact (proj1 (Hpoints 2%nat (PyDict [("lng", PyInt 101)]) eq_refl)).
Defined.

(** C9, on the claim as stated: a [location] that is present and is not
    a dict makes both normalizers raise, and the batch is lost. *)
Lemma null_location_aborts_the_batch :
  nested sample_null_location_document ["results"]
  = Some (PyList [PyDict [("location", PyNone)]])
  /\ flow_record sample_float_repr sample_str_repr (PyDict [("location", PyNone)])
     = Raise AttributeError
  /\ parse_traffic_flow_to_dataframe sample_float_repr sample_str_repr
       sample_null_location_document = Raise AttributeError
  /\ incident_record sample_float_repr sample_str_repr
       (PyDict [("location", PyNone)]) = Raise TypeError
  /\ parse_incidents_to_dataframe sample_float_repr sample_str_repr
       sample_null_location_document = Raise TypeError.
Proof. repeat split. Qed.

(** ** The further properties on the sample inputs *)

(** X3 on a file with both tables: the flow row is stored, the incidents
    batch has a column [type] that its table lacks. *)
Lemma refused_incidents_keep_flow_witness :
  exists e w',
    save_to_sqlite (Some (sample_frame "speed" 9)) (Some (sample_frame "type" 10))
      DB_NAME sample_world_with_both = (Raise e, w')
    /\ dict_lookup "traffic_flow" (open_db w' DB_NAME)
       = Some {| t_columns := ["hour"; "speed"];
                 t_rows := [[CVal (PyInt 7); CVal (PyInt 30)];
                            [CVal (PyInt 9); CVal (PyStr "x")]] |}
    /\ dict_lookup "traffic_incidents" (open_db w' DB_NAME)
       = Some sample_incidents_table.
Proof.
  destruct (refused_incidents_keep_flow (Some (sample_frame "speed" 9))
              (sample_frame "type" 10) DB_NAME sample_world_with_both
              sample_incidents_table eq_refl (le_n 1) eq_refl eq_refl)
    as (e & w' & Hrun & Hflow & Hincidents).
  exists e, w'. split; [exact Hrun|]. split; [exact Hflow | exact Hincidents].
Defined.

(** X4 on a file with a flow table: the flow batch has a column [type]
    that the table lacks. *)
Lemma refused_flow_skips_incidents_witness :
  exists e w',
    save_to_sqlite (Some (sample_frame "type" 9)) (Some (sample_frame "type" 10))
      DB_NAME sample_world_with_flow = (Raise e, w')
    /\ stdout w' = []
    /\ dict_lookup "traffic_flow" (open_db w' DB_NAME)
       = Some {| t_columns := ["hour"; "speed"];
                 t_rows := [[CVal (PyInt 7); CVal (PyInt 30)]] |}
    /\ dict_lookup "traffic_incidents" (open_db w' DB_NAME) = None.
Proof.
  destruct (refused_flow_skips_incidents (sample_frame "type" 9)
              (Some (sample_frame "type" 10)) DB_NAME sample_world_with_flow
              _ (le_n 1) eq_refl eq_refl)
    as (e & w' & Hrun & Hout & Hflow & Hincidents).
  exists e, w'. split; [exact Hrun|]. split; [exact Hout|].
  split; [exact Hflow | exact Hincidents].
Defined.

(** X5 with no flow batch and an incidents table without rows, where no
    file exists yet. *)
Lemma nothing_to_write_only_opens_the_file_witness :
  exists w',
    save_to_sqlite None (Some sample_empty_frame) DB_NAME sample_world
    = (Ret tt, w')
    /\ stdout w' = []
    /\ connections w' = 0%nat
    /\ dict_lookup DB_NAME (files w') = Some [].
Proof.
  destruct (nothing_to_write_only_opens_the_file None (Some sample_empty_frame)
              DB_NAME sample_world eq_refl eq_refl)
    as (w' & Hrun & Hout & _ & Hconn & _ & Hfile & _).
  exists w'. split; [exact Hrun|]. split; [exact Hout|].
  split; [exact Hconn | exact Hfile].
Defined.

(** X6 on the sample flow entity, which has links, and on an incident,
    which has none. *)
#[warnings="-inexact-float"]
Lemma record_keys_are_fixed_witness :
  (exists record,
     flow_record sample_float_repr sample_str_repr sample_flow_entity
     = Ret record
     /\ record_keys FLOW_LABELS record)
  /\ exists record,
       incident_record sample_float_repr sample_str_repr (sample_incident "A1")
       = Ret record
       /\ record_keys INCIDENT_LABELS record.
Proof.
  split; eexists; (split; [reflexivity|]).
  - exact (proj1 (proj1 (record_keys_are_fixed sample_float_repr
                           sample_str_repr sample_flow_entity _) eq_refl)).
  - exact (proj1 (proj2 (record_keys_are_fixed sample_float_repr
                           sample_str_repr (sample_incident "A1") _) eq_refl)).
Defined.

(** X7 on the sample flow document. *)
Lemma normalized_columns_witness :
  table_columns FLOW_LABELS (pd_DataFrame sample_flow_records)
  /\ Forall (fun row => List.length row = 8%nat)
       (df_rows (pd_DataFrame sample_flow_records)).
Proof.
  exact (proj1 (normalized_columns sample_float_repr sample_str_repr
                  sample_flow_document (pd_DataFrame sample_flow_records))
           eq_refl).
Defined.

(** X8 on the sample flow batch. *)
Lemma stamps_come_last_witness :
  sample_flow_batch
  = {| df_columns := df_columns (pd_DataFrame sample_flow_records)
                     ++ ["timestamp"; "hour"; "day_of_week"; "date"];
       df_rows := map (fun row => row ++ stamp_cells sample_instant)
                      (df_rows (pd_DataFrame sample_flow_records)) |}.
Proof.
  exact (stamps_come_last sample_float_repr sample_str_repr
           sample_flow_document (pd_DataFrame sample_flow_records)
           sample_instant (or_introl eq_refl)).
Defined.

(** X9 on a document whose second of three entities has a [null]
    location. *)
Lemma one_entity_fails_the_batch_witness :
  parse_traffic_flow_to_dataframe sample_float_repr sample_str_repr
    sample_mixed_document = Raise AttributeError
  /\ parse_incidents_to_dataframe sample_float_repr sample_str_repr
       sample_mixed_document = Raise TypeError.
Proof.
  assert (Hflow : Forall (fun p => exists r,
                            flow_record sample_float_repr sample_str_repr p
                            = Ret r) [sample_bare_entity])
    by (constructor; [eexists; reflexivity | constructor]).
  assert (Hincident : Forall (fun p => exists r,
                                incident_record sample_float_repr
                                  sample_str_repr p = Ret r)
                        [sample_bare_entity])
    by (constructor; [eexists; reflexivity | constructor]).
  split.
  - exact (proj1 (one_entity_fails_the_batch sample_float_repr sample_str_repr
                    sample_mixed_document [sample_bare_entity]
                    [sample_flow_entity] (PyDict [("location", PyNone)])
                    AttributeError eq_refl) Hflow eq_refl).
  - exact (proj2 (one_entity_fails_the_batch sample_float_repr sample_str_repr
                    sample_mixed_document [sample_bare_entity]
                    [sample_flow_entity] (PyDict [("location", PyNone)])
                    TypeError eq_refl) Hincident eq_refl).
Defined.

(** X10 on a number, on a list that holds the string, and on an empty
    string. *)
Lemma non_object_is_never_a_table_witness :
  parse_traffic_flow_to_dataframe sample_float_repr sample_str_repr (PyInt 5)
  = Raise TypeError
  /\ parse_incidents_to_dataframe sample_float_repr sample_str_repr
       (PyList [PyStr "results"])
     = parse_traffic_flow_to_dataframe sample_float_repr sample_str_repr
         (PyList [PyStr "results"])
  /\ parse_traffic_flow_to_dataframe sample_float_repr sample_str_repr
       (PyStr "") = Ret None.
Proof.
  split; [|split].
  - exact (proj2 (proj2 (proj2 (non_object_is_never_a_table sample_float_repr
                                  sample_str_repr (PyInt 5) eq_refl)))
             eq_refl I).
  - exact (proj1 (non_object_is_never_a_table sample_float_repr
                    sample_str_repr (PyList [PyStr "results"]) eq_refl)).
  - exact (proj1 (proj2 (proj2 (non_object_is_never_a_table sample_float_repr
                                  sample_str_repr (PyStr "") eq_refl)))
             eq_refl).
Defined.

(** X11 on the sample links with an empty link between them. *)
Lemma links_without_points_are_skipped_witness :
  for_link (firstn 1 sample_links ++ PyDict [] :: skipn 1 sample_links) []
  = for_link (firstn 1 sample_links ++ skipn 1 sample_links) [].
Proof.
  exact (proj1 (links_without_points_are_skipped (firstn 1 sample_links)
                  (skipn 1 sample_links) [] [] eq_refl)).
Defined.

(** X12 on the bare entity, whose only key is not named by the script. *)
Lemma unnamed_keys_are_ignored_witness :
  flow_record sample_float_repr sample_str_repr sample_bare_entity
  = flow_record sample_float_repr sample_str_repr (PyDict [])
  /\ incident_record sample_float_repr sample_str_repr sample_bare_entity
     = incident_record sample_float_repr sample_str_repr (PyDict []).
Proof.
  split.
  - apply (proj1 (unnamed_keys_are_ignored sample_float_repr sample_str_repr
                    [("id", PyInt 7)] [])).
    repeat constructor.
  - apply (proj1 (proj2 (unnamed_keys_are_ignored sample_float_repr
                           sample_str_repr [("id", PyInt 7)] []))).
    repeat constructor.
Defined.

(** X13 on the sample flow batch, which has a geometry, and a flow table
    with the columns [hour] and [speed]. *)
Lemma geometry_after_none_is_refused_witness :
  exists w',
    save_to_sqlite (Some sample_flow_batch) None DB_NAME sample_world_with_flow
    = (Raise sqlite3_Error, w')
    /\ dict_lookup "traffic_flow" (open_db w' DB_NAME)
       = Some {| t_columns := ["hour"; "speed"];
                 t_rows := [[CVal (PyInt 7); CVal (PyInt 30)]] |}
    /\ dict_lookup "traffic_incidents" (open_db w' DB_NAME) = None
    /\ stdout w' = [].
Proof.
  assert (Hgeometry : In "geometry"
                        (df_columns (pd_DataFrame sample_flow_records)))
    by (simpl; auto 10).
  assert (Hnone : ~ In "geometry" ["hour"; "speed"])
    by (simpl; intuition discriminate).
  exact (geometry_after_none_is_refused sample_float_repr sample_str_repr
           sample_flow_document (pd_DataFrame sample_flow_records)
           sample_instant None DB_NAME sample_world_with_flow _
           eq_refl Hgeometry eq_refl Hnone).
Defined.

(** X15 on the flow endpoint of [sample_env]. *)
Lemma fetch_hands_back_the_body_witness :
  fetch_traffic_flow sample_float_repr sample_env BBOX sample_api_key
    sample_world
  = (Ret sample_flow_document,
     printed_more sample_world ["Fetching traffic flow data..."]).
Proof.
  exact (proj1 (fetch_hands_back_the_body sample_float_repr sample_env BBOX
                  sample_api_key sample_world (sample_ok sample_flow_document)
                  eq_refl)
           eq_refl).
Defined.

(** X16 on a run whose incidents document holds a [null] location. *)
Lemma failed_normalization_stores_nothing_witness :
  exists w',
    main sample_float_repr sample_str_repr sample_env_null_location
      sample_api_key sample_world = (Raise TypeError, w')
    /\ files w' = [] /\ connections w' = 0%nat.
Proof.
  exact (failed_normalization_stores_nothing sample_float_repr sample_str_repr
           sample_env_null_location sample_api_key sample_world
           (sample_ok sample_flow_document)
           (sample_ok sample_null_location_document)
           sample_flow_document sample_null_location_document TypeError
           eq_refl eq_refl eq_refl eq_refl
           (or_intror (conj (ex_intro _ _ eq_refl) eq_refl))).
Defined.

(** X17 on the run in [sample_env]: two flow entities, two incidents, no
    file before. *)
Lemma complete_run_adds_a_row_per_entity_witness :
  exists w',
    main sample_float_repr sample_str_repr sample_env sample_api_key
      sample_world = (Ret tt, w')
    /\ List.length (rows_of (dict_lookup "traffic_flow" (open_db w' DB_NAME)))
       = 2%nat
    /\ List.length
         (rows_of (dict_lookup "traffic_incidents" (open_db w' DB_NAME)))
       = 2%nat.
Proof.
  destruct (complete_run_adds_a_row_per_entity sample_float_repr
              sample_str_repr sample_env sample_api_key sample_world
              (sample_ok sample_flow_document)
              (sample_ok sample_incidents_document)
              sample_flow_document sample_incidents_document
              [sample_flow_entity; sample_bare_entity] sample_incidents
              eq_refl eq_refl eq_refl eq_refl eq_refl eq_refl eq_refl eq_refl
              eq_refl eq_refl eq_refl eq_refl)
    as (w' & Hrun & Hflow & Hincidents & _).
  exists w'. split; [exact Hrun|]. split; [exact Hflow | exact Hincidents].
Defined.

(** X18 on a run in which both endpoints answer an empty list. *)
Lemma empty_results_count_for_flow_only_witness :
  (exists w1,
     collect sample_float_repr sample_str_repr sample_env_empty sample_api_key
       sample_world
     = (Ret (Some {| df_columns := STAMP_LABELS; df_rows := [] |},
             Some {| df_columns := []; df_rows := [] |}), w1)
     /\ stdout w1
        = [ nl +++ str_repeat 60 "=";
            "Collecting data at: 2026-01-05 08:30:00";
            str_repeat 60 "=" +++ nl;
            "Fetching traffic flow data...";
            "Fetching traffic incidents...";
            check_mark +++ " Collected 0 flow records" ])
  /\ exists w',
       main sample_float_repr sample_str_repr sample_env_empty sample_api_key
         sample_world = (Ret tt, w')
       /\ dict_lookup DB_NAME (files w') = Some [].
Proof.
  destruct (empty_results_count_for_flow_only sample_float_repr
              sample_str_repr sample_env_empty sample_api_key sample_world
              (sample_ok sample_empty_document)
              (sample_ok sample_empty_document)
              sample_empty_document sample_empty_document
              eq_refl eq_refl eq_refl eq_refl eq_refl eq_refl)
    as [Hcollect (w' & Hrun & Hfile & _)].
  split; [exact Hcollect|].
  exists w'. split; [exact Hrun | exact Hfile].
Defined.
